(** * grafana-provisioner: the reconciliation engine

    A shallow embedding of the [grafana] package (provisioner and API
    client) and the properties of its data-source, folder and dashboard
    reconcilers.

    Conventions of the embedding:
    - a Go [string] is a [string]; a Go [int] is a [Z];
    - a Go [error] is the text returned by its [Error()] method, because
      the provisioner itself inspects that text ([strings.Contains]);
    - a [map[string]T] is a [gmap string T];
    - the HTTP server, the wire encoding and the file system are external:
      they are the fields of an [Environment];
    - a call returns a value or an error, or it panics (a nil request
      handed to the HTTP client, an assignment to a nil map): a panic is
      an outcome of its own, which no caller wraps or recovers from;
    - logging and [time.Sleep] have no effect the model observes. *)

From Stdlib Require Import ZArith String Ascii List DecimalString DecimalZ Lia.
From stdpp Require Import base gmap strings list fin_maps.

Local Open Scope Z_scope.

(* ===================================================================== *)
(** * Go library primitives *)
(* ===================================================================== *)

(** [fmt.Sprintf("%d", z)]: decimal rendering of an [int]. *)
Definition itoa (z : Z) : string := NilEmpty.string_of_int (Z.to_int z).

(** [strings.Contains(s, substr)]. *)
Fixpoint contains (s substr : string) : bool :=
  Stdlib.Strings.String.prefix substr s ||
  match s with
  | EmptyString => false
  | String _ s' => contains s' substr
  end.

(** [strings.TrimSuffix(s, "/")]. *)
Fixpoint trimSlash (s : string) : string :=
  match s with
  | EmptyString => EmptyString
  | String c EmptyString => if bool_decide (c = "/"%char) then EmptyString else s
  | String c s' => String c (trimSlash s')
  end.

(** Case folding of one byte: ASCII upper-case letters go to lower case. *)
Definition foldByte (c : ascii) : ascii :=
  let n := nat_of_ascii c in
  if (65 <=? n)%nat && (n <=? 90)%nat then ascii_of_nat (n + 32) else c.

(** [strings.EqualFold(s, t)], on the ASCII range.  Outside ASCII Go folds
    whole runes; the only non-ASCII runes that fold to an ASCII letter are
    U+212A (to k) and U+017F (to s), and the provisioner only ever compares
    with the literal General, which has neither letter, so for that use the
    byte-wise comparison below is exact. *)
Fixpoint EqualFold (s t : string) : bool :=
  match s, t with
  | EmptyString, EmptyString => true
  | String a s', String b t' =>
      bool_decide (foldByte a = foldByte b) && EqualFold s' t'
  | _, _ => false
  end.

(** The outcome of a call of a Go function returning [(T, error)]: it
    returns a value, or an error, or it panics.  Nothing in the package
    recovers from a panic, so a panic ends the run where it happens. *)
Inductive result (A : Type) : Type :=
| Ok (a : A)
| Err (e : string)
| Panic (msg : string).
Arguments Ok {A} a.
Arguments Err {A} e.
Arguments Panic {A} msg.

Definition isOk {A} (r : result A) : bool :=
  match r with Ok _ => true | Err _ | Panic _ => false end.

(* ===================================================================== *)
(** * types.go *)
(* ===================================================================== *)

Module ClientParams.
Record t := mk { URL : string; Token : string; Retries : Z }.
End ClientParams.

Module PostgreSQLDataSourceModel.
Record t := mk {
    Name : string; Type_ : string; Access : string; URL : string;
    Database : string; User : string; Password : string; SSLMode : string;
    IsDefault : bool }.
End PostgreSQLDataSourceModel.

Module CreateDataSourceResponseDatasource.
Record t := mk { ID : Z; UID : string; Name : string; Message : string }.
End CreateDataSourceResponseDatasource.

Module CreateDataSourceResponse.
Record t := mk { Datasource : CreateDataSourceResponseDatasource.t }.
End CreateDataSourceResponse.

Module DataSource.
Record t := mk {
    ID : Z; UID : string; Name : string; Type_ : string; URL : string;
    User : string; Password : string; SSLMode : string; IsDefault : bool;
    Database : string }.
End DataSource.

Module DashboardImport.
Record t := mk { Name : string; DataSource : string }.
End DashboardImport.

Module Dashboard.
Record t := mk {
    Name : string; Folder : string; File : string; DataSource : string;
    ImportVar : string; Imports : list DashboardImport.t }.
End Dashboard.

Module Folder.
Record t := mk { Name : string }.
End Folder.

Module FolderMapping.
Record t := mk { ID : Z; UID : string; Title : string }.
End FolderMapping.

Module Config.
Record t := mk {
    Grafana : ClientParams.t;
    Dashboards : list Dashboard.t;
    DataSources : list DataSource.t;
    Folders : list Folder.t;
    FoldersMapping : gmap string FolderMapping.t }.
End Config.

Module FolderResponse.
Record t := mk { ID : Z; UID : string; Title : string; URL : string }.
End FolderResponse.

Module CreateFolderRequest.
Record t := mk { UID : string; Title : string }.
End CreateFolderRequest.

Module DashboardSearchResponse.
Record t := mk {
    ID : Z; UID : string; Title : string; Type_ : string;
    FolderID : Z; FolderUID : string; FolderTitle : string }.
End DashboardSearchResponse.

(** A decoded JSON value ([interface{}] after [json.Unmarshal]).  Numbers
    read from a file are never inspected by the provisioner and are kept as
    their literal; [JInt] is a Go [int] stored by the provisioner itself. *)
#[local] Unset Elimination Schemes.
Inductive JSON : Type :=
| JNull
| JBool (b : bool)
| JNumber (literal : string)
| JInt (n : Z)
| JString (s : string)
| JArray (items : list JSON)
| JObject (fields : gmap string JSON).
#[local] Set Elimination Schemes.

(** [type DashboardJSON map[string]interface{}]. *)
Abbreviation DashboardJSON := (gmap string JSON).

Module DashboardImportRequest.
Record t := mk {
    Dashboard : DashboardJSON; Inputs : list JSON; FolderUID : string;
    Overwrite : bool; Message : string }.
End DashboardImportRequest.

(** The record the anonymous struct of [GetDataSources] decodes into. *)
Module RawDataSource.
Record t := mk {
    ID : Z; UID : string; Name : string; Type_ : string; URL : string;
    IsDefault : bool; Datebase : string }.
End RawDataSource.

(* ===================================================================== *)
(** * The environment: transport, wire encoding, file system *)
(* ===================================================================== *)

(** What [json.Marshal] is applied to before a POST.  [DataSourcePayload ds]
    stands for the [requestData] map that [CreateDataSource] builds from
    [ds] (the fields of [ds], with the password under [secureJsonData] and
    the constants [postgresVersion = 1300], [timescaledb = false]).
    [json.Marshal] does not fail on values of these shapes, so its error
    branches have no counterpart here. *)
Inductive Payload : Type :=
| DataSourcePayload (ds : PostgreSQLDataSourceModel.t)
| FolderPayload (r : CreateFolderRequest.t)
| ImportPayload (r : DashboardImportRequest.t).

(** One call of [HttpClient.Do]: the arguments [doRequest] passes to
    [http.NewRequest].  [body] is the [bytes.Buffer] the caller marshalled
    its payload into, [None] for a nil reader.  The first attempt of a call
    finds the buffer unread and sends it whole; [doRequest] does not rewind
    it (the rewind is commented out), so a later attempt sends what the
    earlier ones left unread in it, nothing once it has been read through.
    The record of an attempt thus names the buffer the request was built
    on, not the bytes that went out: only for the first attempt of a call
    are the two the same ([firstPayload] below). *)
Record Request := mkRequest {
  method : string;
  url : string;
  body : option Payload }.

(** What one call of [HttpClient.Do] followed by [io.ReadAll] gives. *)
Inductive Reply (Body : Type) : Type :=
| TransportError (e : string)
| ReadError (status : Z) (e : string)
| Response (status : Z) (respBody : Body).
Arguments TransportError {Body} e.
Arguments ReadError {Body} status e.
Arguments Response {Body} status respBody.

(** The collaborators of the package.  [Body] is a response body as
    received; [bodyText] is [string(respBody)]; the [unmarshal*] fields are
    [json.Unmarshal] at the type each caller decodes into, with the text of
    the decoding error; [serve] is the remote server, a state machine that
    answers one attempt at a time; [readFile] is [os.ReadFile];
    [unmarshalDashboard] is [json.Unmarshal] into a [DashboardJSON], [None]
    being the nil map it leaves for the document [null];
    [newRequestError] is the error of [http.NewRequest] for a method and a
    URL, [None] when the request is built. *)
Class Environment := {
  Body : Type;
  bodyText : Body → string;
  Server : Type;
  serve : Server → Request → Server * Reply Body;
  unmarshalDataSources : Body → result (list RawDataSource.t);
  unmarshalCreateDataSourceResponse : Body → result CreateDataSourceResponse.t;
  unmarshalFolders : Body → result (list FolderResponse.t);
  unmarshalFolderResponse : Body → result FolderResponse.t;
  unmarshalSearch : Body → result (list DashboardSearchResponse.t);
  readFile : string → result string;
  unmarshalDashboard : string → result (option DashboardJSON);
  newRequestError : string → string → option string }.

(** The state a run threads: the server, and the attempts made so far with
    their replies, oldest first. *)
Record World `{Environment} := mkWorld {
  server : Server;
  trace : list (Request * Reply Body) }.

(** A computation that talks to the server and may fail or panic.  The
    world is returned also then: requests already sent stay sent. *)
Definition Prov `{Environment} (A : Type) : Type := World → result A * World.

#[global] Instance prov_ret `{Environment} : MRet Prov :=
  λ A a w, (Ok a, w).

#[global] Instance prov_bind `{Environment} : MBind Prov :=
  λ A B f m w,
    match m w with
    | (Ok a, w') => f a w'
    | (Err e, w') => (Err e, w')
    | (Panic msg, w') => (Panic msg, w')
    end.

Definition fail `{Environment} {A} (e : string) : Prov A := λ w, (Err e, w).

(** A run-time panic. *)
Definition panic `{Environment} {A} (msg : string) : Prov A := λ w, (Panic msg, w).

Definition liftResult `{Environment} {A} (r : result A) : Prov A := λ w, (r, w).

(** [if err != nil { return nil, fmt.Errorf(prefix + "%w", err) }]. *)
Definition wrapErr `{Environment} {A} (prefix : string) (m : Prov A) : Prov A :=
  λ w,
    match m w with
    | (Ok a, w') => (Ok a, w')
    | (Err e, w') => (Err (prefix +:+ e), w')
    | (Panic msg, w') => (Panic msg, w')
    end.

Definition wrapResult {A} (prefix : string) (r : result A) : result A :=
  match r with
  | Ok a => Ok a
  | Err e => Err (prefix +:+ e)
  | Panic msg => Panic msg
  end.

(** One attempt: the server answers and the exchange is recorded. *)
Definition exchange `{Environment} (req : Request) (w : World)
  : Reply Body * World :=
  let '(s, r) := serve (server w) req in
  (r, {| server := s; trace := trace w ++ [(req, r)] |}).

(* ===================================================================== *)
(** * client.go *)
(* ===================================================================== *)

Module ApiClient.
Record t := mk { URL : string; Token : string; Retries : Z }.
End ApiClient.

Definition NewClient (params : ClientParams.t) : ApiClient.t :=
  let retries :=
    if bool_decide (ClientParams.Retries params < 0) then 3
    else ClientParams.Retries params in
  {| ApiClient.URL := trimSlash (ClientParams.URL params);
     ApiClient.Token := ClientParams.Token params;
     ApiClient.Retries := retries |}.

(** [%w] applied to [lastErr]. *)
Definition showLastErr (lastErr : option string) : string :=
  match lastErr with
  | Some e => e
  | None => "%!w(<nil>)"
  end.

Definition apiErrorMsg `{Environment} (status i : Z) (respBody : Body) : string :=
  "Grafana API error (Status " +:+ itoa status +:+ ") on attempt "
    +:+ itoa (i + 1) +:+ ": " +:+ bodyText respBody.

Definition is2xx (status : Z) : bool :=
  bool_decide (200 ≤ status) && bool_decide (status < 300).

(** The loop of [doRequest], from iteration [i] with [attempts] iterations
    left ([attempts] is [Retries - i]).  An iteration whose request
    [http.NewRequest] cannot build returns that error at once, with nothing
    sent. *)
Fixpoint doRequestLoop `{Environment} (client : ApiClient.t) (req : Request)
    (attempts : nat) (i : Z) (lastErr : option string) : Prov Body :=
  match attempts with
  | O =>
      fail ("failed to execute request after " +:+ itoa (ApiClient.Retries client)
              +:+ " attempts: " +:+ showLastErr lastErr)
  | S attempts' =>
      match newRequestError (method req) (url req) with
      | Some err => fail ("failed to create request: " +:+ err)
      | None =>
          λ w,
            let '(r, w') := exchange req w in
            match r with
            | TransportError e =>
                doRequestLoop client req attempts' (i + 1)
                  (Some ("http request failed on attempt " +:+ itoa (i + 1)
                           +:+ ": " +:+ e)) w'
            | ReadError _ e =>
                (Err ("failed to read response body: " +:+ e), w')
            | Response status respBody =>
                if is2xx status then (Ok respBody, w')
                else doRequestLoop client req attempts' (i + 1)
                       (Some (apiErrorMsg status i respBody)) w'
            end
      end
  end.

Definition doRequest `{Environment} (client : ApiClient.t)
    (method url : string) (body : option Payload) : Prov Body :=
  doRequestLoop client (mkRequest method url body)
    (Z.to_nat (ApiClient.Retries client)) 0 None.

Definition toDataSource (rawSource : RawDataSource.t) : DataSource.t :=
  {| DataSource.ID := RawDataSource.ID rawSource;
     DataSource.UID := RawDataSource.UID rawSource;
     DataSource.Name := RawDataSource.Name rawSource;
     DataSource.Type_ := RawDataSource.Type_ rawSource;
     DataSource.URL := RawDataSource.URL rawSource;
     DataSource.User := "";
     DataSource.Password := "";
     DataSource.SSLMode := "";
     DataSource.IsDefault := RawDataSource.IsDefault rawSource;
     DataSource.Database := RawDataSource.Datebase rawSource |}.

Definition GetDataSources `{Environment} (client : ApiClient.t)
  : Prov (list DataSource.t) :=
  let endpoint := ApiClient.URL client +:+ "/api/datasources" in
  body ← doRequest client "GET" endpoint None;
  rawDataSources ← liftResult (wrapResult "failed to unmarshal data sources response: "
                                (unmarshalDataSources body));
  mret (map toDataSource rawDataSources).

Definition CreateDataSource `{Environment} (client : ApiClient.t)
    (ds : PostgreSQLDataSourceModel.t) : Prov CreateDataSourceResponse.t :=
  let url := ApiClient.URL client +:+ "/api/datasources" in
  respBody ← wrapErr "data source creation failed: "
               (doRequest client "POST" url (Some (DataSourcePayload ds)));
  liftResult (wrapResult "failed to unmarshal data source creation response: "
                (unmarshalCreateDataSourceResponse respBody)).

Definition ImportDashboard `{Environment} (client : ApiClient.t)
    (request : DashboardImportRequest.t) : Prov unit :=
  let url := ApiClient.URL client +:+ "/api/dashboards/import" in
  _ ← wrapErr "dashboard import failed: "
        (doRequest client "POST" url (Some (ImportPayload request)));
  mret tt.

Definition GetFolders `{Environment} (client : ApiClient.t)
  : Prov (list FolderResponse.t) :=
  let endpoint := ApiClient.URL client +:+ "/api/folders" in
  body ← doRequest client "GET" endpoint None;
  liftResult (wrapResult "failed to unmarshal folders response: "
                (unmarshalFolders body)).

Definition CreateFolder `{Environment} (client : ApiClient.t) (title : string)
  : Prov FolderResponse.t :=
  let requestData := {| CreateFolderRequest.UID := ""; CreateFolderRequest.Title := title |} in
  let url := ApiClient.URL client +:+ "/api/folders" in
  λ w,
    match doRequest client "POST" url (Some (FolderPayload requestData)) w with
    | (Err err, w') =>
        if contains err "Status 409" then
          (Err ("folder creation failed (409 Conflict): folder with title '"
                  +:+ title +:+ "' already exists"), w')
        else (Err ("folder creation failed: " +:+ err), w')
    | (Ok respBody, w') =>
        (wrapResult "failed to unmarshal folder creation response: "
           (unmarshalFolderResponse respBody), w')
    | (Panic msg, w') => (Panic msg, w')
    end.

Definition SearchDashboards `{Environment} (client : ApiClient.t)
  : Prov (list DashboardSearchResponse.t) :=
  let endpoint := ApiClient.URL client +:+ "/api/search" in
  body ← doRequest client "GET" endpoint None;
  liftResult (wrapResult "failed to unmarshal dashboard search response: "
                (unmarshalSearch body)).

(** The zero value [DashboardSearchResponse{}]. *)
Definition noDashboard : DashboardSearchResponse.t :=
  {| DashboardSearchResponse.ID := 0; DashboardSearchResponse.UID := "";
     DashboardSearchResponse.Title := ""; DashboardSearchResponse.Type_ := "";
     DashboardSearchResponse.FolderID := 0; DashboardSearchResponse.FolderUID := "";
     DashboardSearchResponse.FolderTitle := "" |}.

(** The condition under which the loop of
    [FindFirstDashboardByFolderAndName] returns [result]. *)
Definition dashboardMatches (name folder : string)
    (result : DashboardSearchResponse.t) : bool :=
  if negb (bool_decide (DashboardSearchResponse.Type_ result = "dash-db")) then false
  else if bool_decide (DashboardSearchResponse.Title result = name) then
    let isGeneralFolder :=
      EqualFold folder "General" &&
      (bool_decide (DashboardSearchResponse.FolderTitle result = "")
       || EqualFold (DashboardSearchResponse.FolderTitle result) "General") in
    let isSpecificFolder :=
      bool_decide (DashboardSearchResponse.FolderTitle result = folder) in
    isSpecificFolder || isGeneralFolder
  else false.

Definition FindFirstDashboardByFolderAndName `{Environment} (client : ApiClient.t)
    (name folder : string) : Prov DashboardSearchResponse.t :=
  searchResults ← wrapErr "failed to search dashboards: " (SearchDashboards client);
  mret (default noDashboard (find (dashboardMatches name folder) searchResults)).

(* ===================================================================== *)
(** * provisioner.go: data sources *)
(* ===================================================================== *)

(** The test of the first loop of [provisionDataSource]: same type, URL and
    database. *)
Definition sameConnection (source dataSource : DataSource.t) : bool :=
  bool_decide (DataSource.Type_ source = DataSource.Type_ dataSource)
  && bool_decide (DataSource.URL source = DataSource.URL dataSource)
  && bool_decide (DataSource.Database source = DataSource.Database dataSource).

(** [currentName] at iteration [i] of the name loop. *)
Definition currentName (baseName : string) (i : Z) : string :=
  if bool_decide (i > 0) then baseName +:+ "_" +:+ itoa i else baseName.

(** The inner loop: does a source bear [name]? *)
Definition nameConflict (existingSources : list DataSource.t) (name : string) : bool :=
  existsb (λ source, bool_decide (DataSource.Name source = name)) existingSources.

(** The loop [for i := 0; ; i++] of [provisionDataSource], started at [i].
    The source loop has no bound; [fuel] bounds the iterations of the model,
    and [None] means the bound was reached before a free name. *)
Fixpoint nameLoop (fuel : nat) (existingSources : list DataSource.t)
    (baseName : string) (i : Z) : option string :=
  match fuel with
  | O => None
  | S fuel' =>
      if nameConflict existingSources (currentName baseName i)
      then nameLoop fuel' existingSources baseName (i + 1)
      else Some (currentName baseName i)
  end.

(** The name the loop leaves in [sourceToCreate.Name].  One more iteration
    than there are existing sources is always enough ([nameLoop_enough]
    below), so the default is never taken. *)
Definition resolveName (existingSources : list DataSource.t) (baseName : string) : string :=
  default baseName
    (nameLoop (S (length existingSources)) existingSources baseName 0).

Definition alreadyExists (source : DataSource.t) : CreateDataSourceResponse.t :=
  {| CreateDataSourceResponse.Datasource :=
       {| CreateDataSourceResponseDatasource.ID := DataSource.ID source;
          CreateDataSourceResponseDatasource.UID := DataSource.UID source;
          CreateDataSourceResponseDatasource.Name := DataSource.Name source;
          CreateDataSourceResponseDatasource.Message := "Already exists" |} |}.

(** The response built on a 409: a name and a message, the zero id and UID. *)
Definition conflictResponse (name : string) : CreateDataSourceResponse.t :=
  {| CreateDataSourceResponse.Datasource :=
       {| CreateDataSourceResponseDatasource.ID := 0;
          CreateDataSourceResponseDatasource.UID := "";
          CreateDataSourceResponseDatasource.Name := name;
          CreateDataSourceResponseDatasource.Message :=
            "Data source already exists (409 Conflict)" |} |}.

Definition dsModelOf (dataSource : DataSource.t) (name : string)
  : PostgreSQLDataSourceModel.t :=
  {| PostgreSQLDataSourceModel.Name := name;
     PostgreSQLDataSourceModel.Type_ := "grafana-postgresql-datasource";
     PostgreSQLDataSourceModel.Access := "direct";
     PostgreSQLDataSourceModel.URL := DataSource.URL dataSource;
     PostgreSQLDataSourceModel.Database := DataSource.Database dataSource;
     PostgreSQLDataSourceModel.User := DataSource.User dataSource;
     PostgreSQLDataSourceModel.Password := DataSource.Password dataSource;
     PostgreSQLDataSourceModel.SSLMode := DataSource.SSLMode dataSource;
     PostgreSQLDataSourceModel.IsDefault := false |}.

Definition provisionDataSource `{Environment} (client : ApiClient.t)
    (dataSource : DataSource.t) (existingSources : list DataSource.t)
  : Prov CreateDataSourceResponse.t :=
  match find (λ source, sameConnection source dataSource) existingSources with
  | Some source => mret (alreadyExists source)
  | None =>
      let dsModel :=
        dsModelOf dataSource (resolveName existingSources (DataSource.Name dataSource)) in
      λ w,
        match CreateDataSource client dsModel w with
        | (Err err, w') =>
            if contains err "Status 409"
            then (Ok (conflictResponse (PostgreSQLDataSourceModel.Name dsModel)), w')
            else (Err err, w')
        | (Ok resp, w') => (Ok resp, w')
        | (Panic msg, w') => (Panic msg, w')
        end
  end.

(** The loop of [provisionDataSources] over [cfg.DataSources], with the
    responses accumulated so far. *)
Fixpoint provisionDataSourcesLoop `{Environment} (client : ApiClient.t)
    (dataSources : list DataSource.t) (existingSources : list DataSource.t)
    (sourceResponses : list CreateDataSourceResponse.t)
  : Prov (list CreateDataSourceResponse.t) :=
  match dataSources with
  | [] => mret sourceResponses
  | dataSource :: rest =>
      sourceResponce ←
        wrapErr ("failed to provision datasource '" +:+ DataSource.Name dataSource +:+ "': ")
          (provisionDataSource client dataSource existingSources);
      provisionDataSourcesLoop client rest existingSources
        (sourceResponses ++ [sourceResponce])
  end.

Definition provisionDataSources `{Environment} (client : ApiClient.t) (cfg : Config.t)
  : Prov (list CreateDataSourceResponse.t) :=
  existingSources ← wrapErr "failed to list existing data sources: " (GetDataSources client);
  provisionDataSourcesLoop client (Config.DataSources cfg) existingSources [].

(* ===================================================================== *)
(** * provisioner.go: readiness, folders, dashboards *)
(* ===================================================================== *)

(** The loop of [waitForGrafanaAPI]; the probe reads no body, so only the
    status of the reply counts. *)
Fixpoint waitLoop `{Environment} (client : ApiClient.t) (attempts : nat) : Prov unit :=
  match attempts with
  | O =>
      fail ("failed to reach Grafana API after " +:+ itoa (ApiClient.Retries client)
              +:+ " attempts")
  | S attempts' =>
      match newRequestError "GET" (ApiClient.URL client +:+ "/api/health") with
      | Some _ => panic "runtime error: invalid memory address or nil pointer dereference"
      | None =>
          λ w,
            let '(r, w') :=
              exchange (mkRequest "GET" (ApiClient.URL client +:+ "/api/health") None) w in
            match r with
            | Response status _ | ReadError status _ =>
                if bool_decide (status = 200) then (Ok tt, w')
                else waitLoop client attempts' w'
            | TransportError _ => waitLoop client attempts' w'
            end
      end
  end.

Definition waitForGrafanaAPI `{Environment} (client : ApiClient.t) : Prov unit :=
  waitLoop client (Z.to_nat (ApiClient.Retries client)).

Definition getDashboardFolderUID (cfg : Config.t) (dashboardConfig : Dashboard.t)
  : result string :=
  let requiredFolder := Dashboard.Folder dashboardConfig in
  if EqualFold requiredFolder "General" then
    match Config.FoldersMapping cfg !! "General" with
    | Some mapping => Ok (FolderMapping.UID mapping)
    | None => Ok ""
    end
  else
    match Config.FoldersMapping cfg !! requiredFolder with
    | None =>
        Err ("dashboard folder '" +:+ requiredFolder
               +:+ "' is not defined in the 'folders' configuration list. Please add it to provision it")
    | Some mapping => Ok (FolderMapping.UID mapping)
    end.

(** One iteration of the loop of [processInputs]: [None] is [continue],
    [Some m] is the map appended to [processedInputs].  (A nil slice and an
    empty slice are both the empty list.) *)
Definition processInput (inputValues : gmap string string) (input : JSON) : option JSON :=
  match input with
  | JObject inputMap =>
      match inputMap !! "name" with
      | Some (JString name) =>
          match inputValues !! name with
          | Some value => Some (JObject (<["value" := JString value]> inputMap))
          | None =>
              match inputMap !! "value" with
              | Some currentValue => Some (JObject (<["value" := currentValue]> inputMap))
              | None => Some (JObject inputMap)
              end
          end
      | _ => None
      end
  | _ => None
  end.

Definition processInputs (inputs : list JSON) (inputValues : gmap string string)
  : list JSON :=
  fold_left
    (λ processedInputs input,
       match processInput inputValues input with
       | Some inputMap => processedInputs ++ [inputMap]
       | None => processedInputs
       end)
    inputs [].

(** [processInputs] writes into the maps of [inputs] themselves, and those
    are the maps held by [rawDashboard["__inputs"]]: this is that slice
    after the call. *)
Definition inputsAfter (inputs : list JSON) (inputValues : gmap string string)
  : list JSON :=
  map (λ input, default input (processInput inputValues input)) inputs.

(** [provisionDashboard].  [json.Unmarshal] leaves [rawDashboard] nil for
    the document [null]; the file is decoded before the search and the
    title assigned after it, so the panic of that assignment comes once
    the search has been made. *)
Definition provisionDashboard `{Environment} (client : ApiClient.t)
    (cfg : Dashboard.t) (dsUID folderUID : string) : Prov unit :=
  data ← liftResult
           (wrapResult ("failed to read dashboard file " +:+ Dashboard.File cfg +:+ ": ")
              (readFile (Dashboard.File cfg)));
  rawDashboard ← liftResult
                   (wrapResult "failed to parse dashboard JSON: " (unmarshalDashboard data));
  existingDashboard ←
    wrapErr "failed to find existsting dashboard: "
      (FindFirstDashboardByFolderAndName client (Dashboard.Name cfg) (Dashboard.Folder cfg));
  match rawDashboard with
  | None => panic "assignment to entry in nil map"
  | Some rawDashboard =>
      let rawDashboard := <["title" := JString (Dashboard.Name cfg)]> rawDashboard in
      let rawDashboard :=
        <["id" := JInt (DashboardSearchResponse.ID existingDashboard)]> rawDashboard in
      let rawDashboard :=
        <["uid" := JString (DashboardSearchResponse.UID existingDashboard)]> rawDashboard in
      let folderUID :=
        if EqualFold (Dashboard.Folder cfg) "General" then "" else folderUID in
      let inputValues : gmap string string := {[ Dashboard.ImportVar cfg := dsUID ]} in
      let '(inputs, rawDashboard) :=
        match rawDashboard !! "__inputs" with
        | Some (JArray inputsSlice) =>
            (processInputs inputsSlice inputValues,
             <["__inputs" := JArray (inputsAfter inputsSlice inputValues)]> rawDashboard)
        | _ => ([], rawDashboard)
        end in
      ImportDashboard client
        {| DashboardImportRequest.Dashboard := rawDashboard;
           DashboardImportRequest.Inputs := inputs;
           DashboardImportRequest.FolderUID := folderUID;
           DashboardImportRequest.Overwrite := true;
           DashboardImportRequest.Message := "Automated provisioning by grafana-provisioner" |}
  end.

Section Provisioner.
Context `{Environment}.

(** [ApiClient.GetDataSource] and [ApiClient.CreateFolderIfNotExists] are
    called by the provisioner but their code is not part of the sources at
    hand: they are parameters, and every statement below holds whatever
    they do. *)
Variable GetDataSource : ApiClient.t → string → Prov DataSource.t.
Variable CreateFolderIfNotExists : ApiClient.t → string → Prov FolderResponse.t.

Fixpoint provisionDashboardsLoop (client : ApiClient.t) (cfg : Config.t)
    (dashboards : list Dashboard.t) : Prov unit :=
  match dashboards with
  | [] => mret tt
  | dashboardConfig :: rest =>
      dashboardFolderUID ←
        liftResult
          (wrapResult ("dashboard folder validation failed for dashboard '"
                         +:+ Dashboard.Name dashboardConfig +:+ "': ")
             (getDashboardFolderUID cfg dashboardConfig));
      dashboardDataSource ←
        wrapErr ("dashboard dataSource '" +:+ Dashboard.DataSource dashboardConfig
                   +:+ "' not found for dashboard '" +:+ Dashboard.Name dashboardConfig
                   +:+ "': ")
          (GetDataSource client (Dashboard.DataSource dashboardConfig));
      _ ← wrapErr ("dashboard provisioning failed for dashboard '"
                     +:+ Dashboard.Name dashboardConfig +:+ "': ")
            (provisionDashboard client dashboardConfig
               (DataSource.UID dashboardDataSource) dashboardFolderUID);
      provisionDashboardsLoop client cfg rest
  end.

Definition provisionDashboards (client : ApiClient.t) (cfg : Config.t) : Prov unit :=
  provisionDashboardsLoop client cfg (Config.Dashboards cfg).

Definition withFoldersMapping (cfg : Config.t) (m : gmap string FolderMapping.t)
  : Config.t :=
  {| Config.Grafana := Config.Grafana cfg;
     Config.Dashboards := Config.Dashboards cfg;
     Config.DataSources := Config.DataSources cfg;
     Config.Folders := Config.Folders cfg;
     Config.FoldersMapping := m |}.

(** The loop of [provisionFolders]; [mapping] is [cfg.FoldersMapping] as
    filled so far. *)
Fixpoint provisionFoldersLoop (client : ApiClient.t) (folderConfigs : list Folder.t)
    (mapping : gmap string FolderMapping.t) : Prov (gmap string FolderMapping.t) :=
  match folderConfigs with
  | [] => mret mapping
  | folderConfig :: rest =>
      resp ← wrapErr ("failed to provision folder '" +:+ Folder.Name folderConfig +:+ "': ")
               (CreateFolderIfNotExists client (Folder.Name folderConfig));
      provisionFoldersLoop client rest
        (<[FolderResponse.Title resp :=
             {| FolderMapping.ID := FolderResponse.ID resp;
                FolderMapping.UID := FolderResponse.UID resp;
                FolderMapping.Title := FolderResponse.Title resp |}]> mapping)
  end.

(** [provisionFolders] writes through its [*Config]; the model returns the
    configuration it leaves. *)
Definition provisionFolders (client : ApiClient.t) (cfg : Config.t) : Prov Config.t :=
  mapping ← provisionFoldersLoop client (Config.Folders cfg) ∅;
  mret (withFoldersMapping cfg mapping).

Definition RunProvisioning (cfg : Config.t) : Prov unit :=
  let client := NewClient (Config.Grafana cfg) in
  _ ← wrapErr "grafana API did not become available: " (waitForGrafanaAPI client);
  _ ← wrapErr "data source provisioning failed: " (provisionDataSources client cfg);
  cfg ← wrapErr "folder provisioning failed: " (provisionFolders client cfg);
  _ ← wrapErr "dashboard provisioning failed: " (provisionDashboards client cfg);
  mret tt.

End Provisioner.

Module FromSpec.
(** Modelled from the spec: [ApiClient.CreateFolderIfNotExists], which
    [provisionFolders] calls for every configured folder and whose code is
    not part of the sources at hand.  It is the step of the folder
    reconciler of the specification: for a desired folder, look up an
    existing record with exactly matching title; if present, reuse it,
    without a write; if absent, create it and return the id, UID and title
    of the response; a creation that fails, by a conflict or otherwise, is
    an error.  The existing records are those the folder listing returns,
    and the creation is [CreateFolder]. *)
Definition CreateFolderIfNotExists `{Environment} (client : ApiClient.t) (title : string)
  : Prov FolderResponse.t :=
  existingFolders ← GetFolders client;
  match find (λ f, bool_decide (FolderResponse.Title f = title)) existingFolders with
  | Some f => mret f
  | None => CreateFolder client title
  end.
End FromSpec.

(* ===================================================================== *)
(** * Observations on a trace *)
(* ===================================================================== *)

(** The exchanges a computation added to the trace. *)
Definition added `{Environment} (w w' : World) : list (Request * Reply Body) :=
  drop (length (trace w)) (trace w').

Definition status409 `{Environment} (x : Request * Reply Body) : Prop :=
  ∃ respBody, x.2 = Response 409 respBody.

(** The attempt was answered with a 2xx status and a readable body. *)
Definition succeeded `{Environment} (x : Request * Reply Body) : bool :=
  match x.2 with
  | Response status _ => is2xx status
  | _ => false
  end.

Definition listRequest (client : ApiClient.t) : Request :=
  mkRequest "GET" (ApiClient.URL client +:+ "/api/datasources") None.

Definition createRequest (client : ApiClient.t) (ds : PostgreSQLDataSourceModel.t)
  : Request :=
  mkRequest "POST" (ApiClient.URL client +:+ "/api/datasources")
    (Some (DataSourcePayload ds)).

Definition importRequest (client : ApiClient.t) (r : DashboardImportRequest.t)
  : Request :=
  mkRequest "POST" (ApiClient.URL client +:+ "/api/dashboards/import")
    (Some (ImportPayload r)).

(** The payload of the first attempt among [sent], the attempt that finds
    its buffer unread and sends it whole. *)
Definition firstPayload `{Environment} (sent : list (Request * Reply Body))
  : option Payload :=
  match sent with
  | [] => None
  | x :: _ => body x.1
  end.

(** The name a data-source creation request carries. *)
Definition createdName (req : Request) : option string :=
  match body req with
  | Some (DataSourcePayload ds) => Some (PostgreSQLDataSourceModel.Name ds)
  | _ => None
  end.

(** The creation request [provisionDataSource] sends for [dataSource] when
    its decisions are taken against [existingSources]. *)
Definition creationFor (client : ApiClient.t) (existingSources : list DataSource.t)
    (dataSource : DataSource.t) : Request :=
  createRequest client
    (dsModelOf dataSource (resolveName existingSources (DataSource.Name dataSource))).

(** What [provisionDataSource] returned for [dataSource], against the
    attempts it made: nothing is sent for a data source whose connection an
    existing record has; a response that is not the one of a conflict is
    the decoding of the body of the answer, of a 2xx status, to the last
    attempt at the creation. *)
Definition reconciled `{Environment} (client : ApiClient.t)
    (existingSources : list DataSource.t) (dataSource : DataSource.t)
    (resp : CreateDataSourceResponse.t) (sent : list (Request * Reply Body)) : Prop :=
  match find (λ source, sameConnection source dataSource) existingSources with
  | Some source => resp = alreadyExists source ∧ sent = []
  | None =>
      Forall (λ x, ∃ b, x.1 = mkRequest "POST"
                                 (ApiClient.URL client +:+ "/api/datasources") b) sent
      ∧ (resp = conflictResponse (resolveName existingSources (DataSource.Name dataSource))
         ∨ ∃ x status respBody,
             last sent = Some x
             ∧ x.2 = Response status respBody
             ∧ is2xx status = true
             ∧ unmarshalCreateDataSourceResponse respBody = Ok resp)
  end.

(** The responses of the loop of [provisionDataSources] against what it
    sent: one response for each data source, in order, each with the
    attempts made for it. *)
Inductive reconciledAll `{Environment} (client : ApiClient.t)
    (existingSources : list DataSource.t)
  : list DataSource.t → list CreateDataSourceResponse.t
    → list (Request * Reply Body) → Prop :=
| reconciledAll_nil : reconciledAll client existingSources [] [] []
| reconciledAll_cons dataSource rest resp resps sent later :
    reconciled client existingSources dataSource resp sent →
    reconciledAll client existingSources rest resps later →
    reconciledAll client existingSources (dataSource :: rest) (resp :: resps)
      (sent ++ later).

(** [m] only appends to the trace, and what it appends satisfies [P]. *)
Definition emits `{Environment} {A} (P : Request * Reply Body → Prop) (m : Prov A) : Prop :=
  ∀ w, ∃ xs, trace (m w).2 = trace w ++ xs ∧ Forall P xs.

(** The text [doRequest] returns when its attempts are used up. *)
Definition exhausted (client : ApiClient.t) (lastErr : string) : string :=
  "failed to execute request after " +:+ itoa (ApiClient.Retries client)
    +:+ " attempts: " +:+ lastErr.

(** The outcome of [doRequest] is decided by the last attempt it made; when
    it made none, its attempts were used up or the request of [req] could
    not be built. *)
Definition decidedBy `{Environment} (client : ApiClient.t) (req : Request)
    (lastErr : option string)
    (final : option (Request * Reply Body)) (r : result Body) : Prop :=
  match final with
  | None =>
      r = Err (exhausted client (showLastErr lastErr))
      ∨ ∃ err, newRequestError (method req) (url req) = Some err
               ∧ r = Err ("failed to create request: " +:+ err)
  | Some (_, TransportError e) =>
      ∃ j, r = Err (exhausted client
                      ("http request failed on attempt " +:+ itoa (j + 1) +:+ ": " +:+ e))
  | Some (_, ReadError _ e) => r = Err ("failed to read response body: " +:+ e)
  | Some (_, Response status respBody) =>
      if is2xx status then r = Ok respBody
      else ∃ j, r = Err (exhausted client (apiErrorMsg status j respBody))
  end.

(** The name an input entry declares, when it is an object with a string
    under [name]; the entries [processInputs] does not skip. *)
Definition declaredName (input : JSON) : option string :=
  match input with
  | JObject inputMap =>
      match inputMap !! "name" with
      | Some (JString name) => Some name
      | _ => None
      end
  | _ => None
  end.

Definition searchRequest (client : ApiClient.t) : Request :=
  mkRequest "GET" (ApiClient.URL client +:+ "/api/search") None.

Definition folderRequest (client : ApiClient.t) (title : string) : Request :=
  mkRequest "POST" (ApiClient.URL client +:+ "/api/folders")
    (Some (FolderPayload {| CreateFolderRequest.UID := ""; CreateFolderRequest.Title := title |})).

(** The folder UID an import request carries. *)
Definition importedFolderUID (req : Request) : option string :=
  match body req with
  | Some (ImportPayload r) => Some (DashboardImportRequest.FolderUID r)
  | _ => None
  end.

(** The text of the error of [getDashboardFolderUID]. *)
Definition folderNotDefined (requiredFolder : string) : string :=
  "dashboard folder '" +:+ requiredFolder
    +:+ "' is not defined in the 'folders' configuration list. Please add it to provision it".

(** The world a run reaches when the readiness and data-source steps have
    succeeded, just before the folder step. *)
Definition afterDataSources `{Environment} (cfg : Config.t) (w : World) : option World :=
  let client := NewClient (Config.Grafana cfg) in
  match waitForGrafanaAPI client w with
  | (Ok _, w1) =>
      match provisionDataSources client cfg w1 with
      | (Ok _, w2) => Some w2
      | _ => None
      end
  | _ => None
  end.

(* ===================================================================== *)
(** * Two concrete environments *)
(* ===================================================================== *)

(** Response bodies, by what they decode to; [WText] is a body that is no
    JSON of any expected shape, with its text. *)
Inductive WireBody : Type :=
| WText (s : string)
| WDataSources (l : list RawDataSource.t)
| WCreated (r : CreateDataSourceResponse.t)
| WFolders (l : list FolderResponse.t)
| WFolder (r : FolderResponse.t)
| WSearch (l : list DashboardSearchResponse.t).

Definition wireText (b : WireBody) : string :=
  match b with
  | WText s => s
  | _ => "{}"
  end.

Definition jsonError {A} : result A := Err "invalid character looking for beginning of value".

(** A dashboard file with two declared inputs. *)
Definition sampleInputs : list JSON :=
  [ JObject (<["name" := JString "DS_A"]> (<["value" := JString "old"]> ∅));
    JObject (<["name" := JString "DS_B"]> (<["value" := JString "keep"]> ∅)) ].

Definition sampleDashboard : DashboardJSON :=
  <["title" := JString "exported"]> (<["__inputs" := JArray sampleInputs]> ∅).

(** The file system of the examples: one dashboard file, and one file that
    holds the document [null]. *)
Definition sampleReadFile (path : string) : result string :=
  if bool_decide (path = "dash.json") then Ok "sample"
  else if bool_decide (path = "null.json") then Ok "null"
  else Err ("open " +:+ path +:+ ": no such file or directory").

Definition sampleUnmarshalDashboard (data : string) : result (option DashboardJSON) :=
  if bool_decide (data = "sample") then Ok (Some sampleDashboard)
  else if bool_decide (data = "null") then Ok None
  else jsonError.

(** [http.NewRequest] in the examples: a URL that starts with a colon has
    no scheme and is refused. *)
Definition sampleNewRequestError (method url : string) : option string :=
  if Stdlib.Strings.String.prefix ":" url
  then Some ("parse " +:+ url +:+ ": missing protocol scheme")
  else None.

(** A scripted server: it answers the attempts with the replies of a list,
    in order, and refuses the connection when the list is used up. *)
Definition scripted : Environment := {|
  Body := WireBody;
  bodyText := wireText;
  Server := list (Reply WireBody);
  serve := λ s _,
    match s with
    | [] => ([], TransportError "connection refused")
    | r :: s' => (s', r)
    end;
  unmarshalDataSources := λ b, match b with WDataSources l => Ok l | _ => jsonError end;
  unmarshalCreateDataSourceResponse := λ b, match b with WCreated r => Ok r | _ => jsonError end;
  unmarshalFolders := λ b, match b with WFolders l => Ok l | _ => jsonError end;
  unmarshalFolderResponse := λ b, match b with WFolder r => Ok r | _ => jsonError end;
  unmarshalSearch := λ b, match b with WSearch l => Ok l | _ => jsonError end;
  readFile := sampleReadFile;
  unmarshalDashboard := sampleUnmarshalDashboard;
  newRequestError := sampleNewRequestError |}.

(** A server that keeps data sources the way the API documents it: the
    listing returns the records held, a creation under a name already held
    is refused with 409, any other creation adds a record with a fresh id
    and UID.  It listens at [http://grafana:3000] and serves the health and
    data-source endpoints only. *)
Record Registry := mkRegistry {
  held : list RawDataSource.t;
  nextID : Z }.

Definition registryServe (s : Registry) (req : Request) : Registry * Reply WireBody :=
  if bool_decide (url req = "http://grafana:3000/api/health") then
    (s, Response 200 (WText "ok"))
  else if bool_decide (url req = "http://grafana:3000/api/datasources") then
    match body req with
    | None => (s, Response 200 (WDataSources (held s)))
    | Some (DataSourcePayload ds) =>
        if existsb (λ r, bool_decide (RawDataSource.Name r = PostgreSQLDataSourceModel.Name ds))
             (held s)
        then (s, Response 409 (WText "data source with the same name already exists"))
        else
          let uid := "ds" +:+ itoa (nextID s) in
          ({| held := held s ++
                [ {| RawDataSource.ID := nextID s;
                     RawDataSource.UID := uid;
                     RawDataSource.Name := PostgreSQLDataSourceModel.Name ds;
                     RawDataSource.Type_ := PostgreSQLDataSourceModel.Type_ ds;
                     RawDataSource.URL := PostgreSQLDataSourceModel.URL ds;
                     RawDataSource.IsDefault := PostgreSQLDataSourceModel.IsDefault ds;
                     RawDataSource.Datebase := PostgreSQLDataSourceModel.Database ds |} ];
              nextID := nextID s + 1 |},
           Response 200
             (WCreated
                {| CreateDataSourceResponse.Datasource :=
                     {| CreateDataSourceResponseDatasource.ID := nextID s;
                        CreateDataSourceResponseDatasource.UID := uid;
                        CreateDataSourceResponseDatasource.Name := PostgreSQLDataSourceModel.Name ds;
                        CreateDataSourceResponseDatasource.Message := "Datasource added" |} |}))
    | Some _ => (s, Response 400 (WText "bad request"))
    end
  else (s, Response 404 (WText "not found")).

Definition registry : Environment := {|
  Body := WireBody;
  bodyText := wireText;
  Server := Registry;
  serve := registryServe;
  unmarshalDataSources := λ b, match b with WDataSources l => Ok l | _ => jsonError end;
  unmarshalCreateDataSourceResponse := λ b, match b with WCreated r => Ok r | _ => jsonError end;
  unmarshalFolders := λ b, match b with WFolders l => Ok l | _ => jsonError end;
  unmarshalFolderResponse := λ b, match b with WFolder r => Ok r | _ => jsonError end;
  unmarshalSearch := λ b, match b with WSearch l => Ok l | _ => jsonError end;
  readFile := sampleReadFile;
  unmarshalDashboard := sampleUnmarshalDashboard;
  newRequestError := sampleNewRequestError |}.

(** Sample data. *)
Definition pg (name url database : string) : DataSource.t :=
  {| DataSource.ID := 0; DataSource.UID := ""; DataSource.Name := name;
     DataSource.Type_ := "grafana-postgresql-datasource"; DataSource.URL := url;
     DataSource.User := "grafana"; DataSource.Password := "secret";
     DataSource.SSLMode := "disable"; DataSource.IsDefault := false;
     DataSource.Database := database |}.

Definition record (id : Z) (uid name url database : string) : DataSource.t :=
  {| DataSource.ID := id; DataSource.UID := uid; DataSource.Name := name;
     DataSource.Type_ := "grafana-postgresql-datasource"; DataSource.URL := url;
     DataSource.User := ""; DataSource.Password := "";
     DataSource.SSLMode := ""; DataSource.IsDefault := false;
     DataSource.Database := database |}.

Definition rawRecord (id : Z) (uid name url database : string) : RawDataSource.t :=
  {| RawDataSource.ID := id; RawDataSource.UID := uid; RawDataSource.Name := name;
     RawDataSource.Type_ := "grafana-postgresql-datasource"; RawDataSource.URL := url;
     RawDataSource.IsDefault := false; RawDataSource.Datebase := database |}.

Definition sampleClient : ApiClient.t :=
  {| ApiClient.URL := "http://grafana:3000"; ApiClient.Token := "token";
     ApiClient.Retries := 1 |}.

Definition sampleParams : ClientParams.t :=
  {| ClientParams.URL := "http://grafana:3000/"; ClientParams.Token := "token";
     ClientParams.Retries := 1 |}.

(** Two desired data sources with distinct connections, named m and m_1. *)
Definition twoSources : Config.t :=
  {| Config.Grafana := sampleParams;
     Config.Dashboards := [];
     Config.DataSources := [ pg "m" "db1:5432" "metrics"; pg "m_1" "db2:5432" "metrics" ];
     Config.Folders := [];
     Config.FoldersMapping := ∅ |}.

(** A server that holds one record, named m, of a third connection. *)
Definition holdsM : Registry :=
  {| held := [ rawRecord 1 "ds1" "m" "db0:5432" "metrics" ]; nextID := 2 |}.

(** A configuration whose folder mapping has the one entry [title]. *)
Definition mapped (title uid : string) : Config.t :=
  withFoldersMapping twoSources
    {[ title := {| FolderMapping.ID := 5; FolderMapping.UID := uid;
                   FolderMapping.Title := title |} ]}.

(** A dashboard of the sample file, to go into [folder]. *)
Definition latencyIn (folder : string) : Dashboard.t :=
  {| Dashboard.Name := "Latency"; Dashboard.Folder := folder;
     Dashboard.File := "dash.json"; Dashboard.DataSource := "m";
     Dashboard.ImportVar := "DS_A"; Dashboard.Imports := [] |}.

Definition startOn {E : Environment} (s : @Server E) : @World E :=
  {| server := s; trace := [] |}.

(* ===================================================================== *)
(** * Further code: the single-folder reconciler, the entry point *)
(* ===================================================================== *)

Definition healthRequest (client : ApiClient.t) : Request :=
  mkRequest "GET" (ApiClient.URL client +:+ "/api/health") None.

Definition foldersRequest (client : ApiClient.t) : Request :=
  mkRequest "GET" (ApiClient.URL client +:+ "/api/folders") None.

(** The status a reply carries, if it carries one. *)
Definition statusOf {Body : Type} (r : Reply Body) : option Z :=
  match r with
  | TransportError _ => None
  | ReadError status _ | Response status _ => Some status
  end.

(** The replies after which the loop of [doRequest] goes on to its next
    iteration: a transport error, or a response outside the 2xx range. *)
Definition retried `{Environment} (x : Request * Reply Body) : Prop :=
  match x.2 with
  | TransportError _ => True
  | ReadError _ _ => False
  | Response status _ => is2xx status = false
  end.

(** [provisionFolder] of the provisioner for a single dashboard: reuse the
    folder of that exact title, or create it.  [folder] is
    [cfg.Dashboard.Folder]. *)
Definition provisionFolder `{Environment} (client : ApiClient.t) (folder : string)
  : Prov FolderResponse.t :=
  existingFolders ← wrapErr "failed to list existing data sources: " (GetFolders client);
  match find (λ f, bool_decide (FolderResponse.Title f = folder)) existingFolders with
  | Some f =>
      mret {| FolderResponse.ID := FolderResponse.ID f;
              FolderResponse.UID := FolderResponse.UID f;
              FolderResponse.Title := FolderResponse.Title f;
              FolderResponse.URL := "" |}
  | None => CreateFolder client folder
  end.

(** [config.DataSource], an entry of the [datasources] list of the
    configuration file. *)
Module ConfigDataSource.
Record t := mk {
  Name : string; Host : string; Port : Z; User : string; Password : string;
  DbName : string; SslMode : string }.
End ConfigDataSource.

(** The conversion [main] applies to each configured data source; the port
    is rendered by [strconv.Itoa]. *)
Definition toProvisionerDataSource (dataSourceConfig : ConfigDataSource.t) : DataSource.t :=
  {| DataSource.ID := 0;
     DataSource.UID := "";
     DataSource.Name := ConfigDataSource.Name dataSourceConfig;
     DataSource.Type_ := "grafana-postgresql-datasource";
     DataSource.URL :=
       ConfigDataSource.Host dataSourceConfig +:+ ":"
         +:+ itoa (ConfigDataSource.Port dataSourceConfig);
     DataSource.User := ConfigDataSource.User dataSourceConfig;
     DataSource.Password := ConfigDataSource.Password dataSourceConfig;
     DataSource.SSLMode := ConfigDataSource.SslMode dataSourceConfig;
     DataSource.IsDefault := false;
     DataSource.Database := ConfigDataSource.DbName dataSourceConfig |}.

(** The condition of [dashboardMatches] on the folder of an entry. *)
Definition folderMatches (folder : string) (result : DashboardSearchResponse.t) : Prop :=
  DashboardSearchResponse.FolderTitle result = folder
  ∨ (EqualFold folder "General" = true
     ∧ (DashboardSearchResponse.FolderTitle result = ""
        ∨ EqualFold (DashboardSearchResponse.FolderTitle result) "General" = true)).

(** The dashboard document of an import request. *)
Definition importedDashboard (req : Request) : option DashboardImportRequest.t :=
  match body req with
  | Some (ImportPayload r) => Some r
  | _ => None
  end.

(** The string has no colon. *)
Fixpoint colonFree (s : string) : Prop :=
  match s with
  | EmptyString => True
  | String c s' => c ≠ ":"%char ∧ colonFree s'
  end.

(* ===================================================================== *)
(** * Strings *)
(* ===================================================================== *)

Lemma itoa_inj (a b : Z) : itoa a = itoa b → a = b.
Proof.
  unfold itoa. intros Hab. apply DecimalZ.to_int_inj.
  pose proof (NilEmpty.isi (Z.to_int a)) as Ha.
  pose proof (NilEmpty.isi (Z.to_int b)) as Hb.
  rewrite Hab, Hb in Ha. by injection Ha.
Qed.

Lemma append_nil (s : string) : "" +:+ s = s.
Proof. reflexivity. Qed.

Lemma append_cons (c : ascii) (s t : string) : String c s +:+ t = String c (s +:+ t).
Proof. reflexivity. Qed.

Lemma length_append (s t : string) :
  String.length (s +:+ t) = (String.length s + String.length t)%nat.
Proof.
  induction s as [|c s IH]; [done|].
  rewrite append_cons. simpl. by rewrite IH.
Qed.

Lemma append_assoc (s t u : string) : (s +:+ t) +:+ u = s +:+ (t +:+ u).
Proof.
  induction s as [|c s IH]; [done|].
  by rewrite !append_cons, IH.
Qed.

Lemma prefix_append (p s : string) : Stdlib.Strings.String.prefix p (p +:+ s) = true.
Proof.
  induction p as [|c p IH]; [by destruct s|].
  rewrite append_cons. simpl. destruct (ascii_dec c c); [done|congruence].
Qed.

Lemma contains_unfold (s p : string) :
  contains s p =
  Stdlib.Strings.String.prefix p s ||
  match s with EmptyString => false | String _ s' => contains s' p end.
Proof. by destruct s. Qed.

Lemma contains_here (p s : string) : contains (p +:+ s) p = true.
Proof. by rewrite contains_unfold, prefix_append. Qed.

Lemma contains_append_r (s t p : string) :
  contains t p = true → contains (s +:+ t) p = true.
Proof.
  intros Ht. induction s as [|c s IH]; [done|].
  rewrite append_cons, contains_unfold, IH. apply orb_true_r.
Qed.

Lemma contains_append_mid (s t p : string) : contains (s +:+ p +:+ t) p = true.
Proof. apply contains_append_r, contains_here. Qed.

(* ===================================================================== *)
(** * The name loop *)
(* ===================================================================== *)

Lemma currentName_inj (baseName : string) (i j : Z) :
  0 ≤ i → 0 ≤ j → currentName baseName i = currentName baseName j → i = j.
Proof.
  unfold currentName. intros Hi Hj.
  repeat case_bool_decide; intros Heq; try lia.
  - apply (inj (String.append baseName)) in Heq.
    apply (inj (String.append "_")) in Heq. by apply itoa_inj.
  - apply (f_equal String.length) in Heq.
    rewrite length_append in Heq. simpl in Heq. lia.
  - apply (f_equal String.length) in Heq.
    rewrite length_append in Heq. simpl in Heq. lia.
Qed.

Lemma nameConflict_true (existingSources : list DataSource.t) (name : string) :
  nameConflict existingSources name = true ↔
  name ∈ map DataSource.Name existingSources.
Proof.
  unfold nameConflict. rewrite existsb_exists, list_elem_of_In, in_map_iff.
  split; intros (source & H1 & H2); exists source.
  - by apply bool_decide_eq_true in H2.
  - split; [done|]. by apply bool_decide_eq_true.
Qed.

(** Pigeonhole: among the first [length existingSources + 1] candidate names
    one is borne by no existing source. *)
Lemma free_candidate (existingSources : list DataSource.t) (baseName : string) :
  ∃ j, 0 ≤ j ≤ Z.of_nat (length existingSources) ∧
       nameConflict existingSources (currentName baseName j) = false.
Proof.
  set (n := length existingSources).
  set (cand := λ k : nat, currentName baseName (Z.of_nat k)).
  destruct (decide (Exists (λ k, nameConflict existingSources (cand k) = false)
                      (seq 0 (S n)))) as [Hex|Hall].
  - apply Exists_exists in Hex as (k & Hk & Hfree).
    apply elem_of_seq in Hk. exists (Z.of_nat k). split; [lia|done].
  - exfalso. apply not_Exists_Forall in Hall; [|intros k; apply _].
    assert (NoDup (cand <$> seq 0 (S n))) as Hnd.
    { apply NoDup_fmap_2_strong; [|apply NoDup_seq].
      intros a b _ _ Hab. apply currentName_inj in Hab; lia. }
    assert (cand <$> seq 0 (S n) ⊆+ map DataSource.Name existingSources) as Hsub.
    { apply NoDup_submseteq; [done|]. intros name Hname.
      apply list_elem_of_fmap in Hname as (k & -> & Hk).
      apply nameConflict_true.
      rewrite Forall_forall in Hall.
      specialize (Hall k Hk). simpl in Hall.
      by destruct (nameConflict existingSources (cand k)). }
    apply submseteq_length in Hsub.
    rewrite length_fmap, length_seq, length_map in Hsub. lia.
Qed.

(** The loop started at [i] with a free candidate within reach of its fuel
    stops at the least free candidate from [i] on. *)
Lemma nameLoop_least (existingSources : list DataSource.t) (baseName : string)
    (fuel : nat) (i j : Z) :
  i ≤ j < i + Z.of_nat fuel →
  nameConflict existingSources (currentName baseName j) = false →
  ∃ k, i ≤ k ≤ j ∧
       nameConflict existingSources (currentName baseName k) = false ∧
       (∀ m, i ≤ m < k → nameConflict existingSources (currentName baseName m) = true) ∧
       nameLoop fuel existingSources baseName i = Some (currentName baseName k).
Proof.
  revert i. induction fuel as [|fuel IH]; intros i Hj Hfree; [lia|].
  simpl. destruct (nameConflict existingSources (currentName baseName i)) eqn:Hi.
  - assert (i ≠ j) by (intros ->; congruence).
    destruct (IH (i + 1)) as (k & Hk & Hkfree & Hbelow & Hloop); [lia|done|].
    exists k. split_and!; [lia|lia|done| |done].
    intros m Hm. destruct (decide (m = i)) as [->|]; [done|]. apply Hbelow. lia.
  - exists i. split_and!; [lia|lia|done| |done]. intros m Hm. lia.
Qed.

(** One more iteration than there are existing sources is enough. *)
Lemma nameLoop_enough (existingSources : list DataSource.t) (baseName : string) :
  ∃ k, 0 ≤ k ≤ Z.of_nat (length existingSources) ∧
       nameConflict existingSources (currentName baseName k) = false ∧
       (∀ m, 0 ≤ m < k → nameConflict existingSources (currentName baseName m) = true) ∧
       (∀ fuel, (Z.to_nat k < fuel)%nat →
                nameLoop fuel existingSources baseName 0 = Some (currentName baseName k)) ∧
       resolveName existingSources baseName = currentName baseName k.
Proof.
  destruct (free_candidate existingSources baseName) as (j & Hj & Hfree).
  destruct (nameLoop_least existingSources baseName (S (length existingSources)) 0 j)
    as (k & Hk & Hkfree & Hbelow & Hloop); [lia|done|].
  exists k. split_and!; [lia|lia|done|done| |].
  - intros fuel Hfuel.
    destruct (nameLoop_least existingSources baseName fuel 0 k)
      as (k' & Hk' & Hk'free & Hbelow' & Hloop'); [lia|done|].
    destruct (decide (k' = k)) as [->|]; [done|].
    rewrite Hbelow in Hk'free; [done|lia].
  - unfold resolveName. by rewrite Hloop.
Qed.

(* ===================================================================== *)
(** * Traces of the client *)
(* ===================================================================== *)

Section Traces.
Context `{Environment}.

Lemma added_app (w w' : World) (xs : list (Request * Reply Body)) :
  trace w' = trace w ++ xs → added w w' = xs.
Proof. unfold added. intros ->. by rewrite drop_app_length. Qed.

Lemma added_same (w : World) : added w w = [].
Proof. apply added_app. by rewrite app_nil_r. Qed.

Lemma emits_added {A} (P : Request * Reply Body → Prop) (m : Prov A) (w : World) :
  emits P m → trace (m w).2 = trace w ++ added w (m w).2 ∧ Forall P (added w (m w).2).
Proof. intros Hm. destruct (Hm w) as (xs & Hxs & HP). by rewrite (added_app _ _ _ Hxs). Qed.

Lemma emits_weaken {A} (P Q : Request * Reply Body → Prop) (m : Prov A) :
  (∀ x, P x → Q x) → emits P m → emits Q m.
Proof.
  intros HPQ Hm w. destruct (Hm w) as (xs & Hxs & HP).
  exists xs. split; [done|]. by eapply Forall_impl.
Qed.

Lemma emits_ret {A} (P : Request * Reply Body → Prop) (a : A) : emits P (mret a).
Proof. intros w. exists []. by rewrite app_nil_r. Qed.

Lemma emits_fail {A} (P : Request * Reply Body → Prop) (e : string) :
  emits P (fail (A:=A) e).
Proof. intros w. exists []. by rewrite app_nil_r. Qed.

Lemma emits_panic {A} (P : Request * Reply Body → Prop) (msg : string) :
  emits P (panic (A:=A) msg).
Proof. intros w. exists []. by rewrite app_nil_r. Qed.

Lemma emits_liftResult {A} (P : Request * Reply Body → Prop) (r : result A) :
  emits P (liftResult r).
Proof. intros w. exists []. by rewrite app_nil_r. Qed.

Lemma emits_wrapErr {A} (P : Request * Reply Body → Prop) (prefix : string) (m : Prov A) :
  emits P m → emits P (wrapErr prefix m).
Proof.
  intros Hm w. destruct (Hm w) as (xs & Hxs & HP). exists xs.
  unfold wrapErr. by destruct (m w) as [[a|e|pm] w'].
Qed.

Lemma emits_bind {A B} (P : Request * Reply Body → Prop) (m : Prov A) (f : A → Prov B) :
  emits P m → (∀ a, emits P (f a)) → emits P (m ≫= f).
Proof.
  intros Hm Hf w. destruct (Hm w) as (xs & Hxs & HP).
  unfold mbind, prov_bind. destruct (m w) as [[a|e|pm] w']; simpl in *.
  - destruct (Hf a w') as (ys & Hys & HQ). exists (xs ++ ys).
    rewrite Hys, Hxs, app_assoc. split; [done|]. by apply Forall_app.
  - by exists xs.
  - by exists xs.
Qed.

Lemma exchange_trace (req : Request) (w : World) :
  trace (exchange req w).2 = trace w ++ [(req, (exchange req w).1)].
Proof. unfold exchange. by destruct (serve (server w) req). Qed.

Lemma doRequestLoop_emits (client : ApiClient.t) (req : Request)
    (attempts : nat) (i : Z) (lastErr : option string) :
  emits (λ x, x.1 = req) (doRequestLoop client req attempts i lastErr).
Proof.
  revert i lastErr. induction attempts as [|attempts IH]; intros i lastErr w.
  - exists []. by rewrite app_nil_r.
  - simpl. destruct (newRequestError (method req) (url req)) as [err|].
    { exists []. by rewrite app_nil_r. }
    pose proof (exchange_trace req w) as Hx.
    destruct (exchange req w) as [r w1]; simpl in Hx.
    assert (∀ j e, ∃ xs,
      trace (doRequestLoop client req attempts j e w1).2 = trace w ++ xs
      ∧ Forall (λ x, x.1 = req) xs) as Hrec.
    { intros j e. destruct (IH j e w1) as (xs & Hxs & HP).
      exists ((req, r) :: xs). rewrite Hxs, Hx, <- app_assoc.
      split; [done|]. by constructor. }
    destruct r as [e|status e|status respBody]; [apply Hrec| |].
    + exists [(req, ReadError status e)]. split; [done|]. by repeat constructor.
    + destruct (is2xx status); [|apply Hrec].
      exists [(req, Response status respBody)]. split; [done|]. by repeat constructor.
Qed.

Lemma doRequestLoop_last (client : ApiClient.t) (req : Request)
    (attempts : nat) (i : Z) (lastErr : option string) (w : World) :
  let out := doRequestLoop client req attempts i lastErr w in
  decidedBy client req lastErr (last (added w out.2)) out.1.
Proof.
  revert i lastErr w. induction attempts as [|attempts IH]; intros i lastErr w.
  - simpl. rewrite added_same. by left.
  - simpl. destruct (newRequestError (method req) (url req)) as [err|] eqn:Hnew.
    { simpl. rewrite added_same. simpl. right. by exists err. }
    pose proof (exchange_trace req w) as Hx.
    destruct (exchange req w) as [r w1]; simpl in Hx.
    assert (∀ j e, added w (doRequestLoop client req attempts j e w1).2
                   = (req, r) :: added w1 (doRequestLoop client req attempts j e w1).2)
      as Hadd.
    { intros j e.
      destruct (emits_added _ _ w1 (doRequestLoop_emits client req attempts j e))
        as [Htr _].
      apply added_app. by rewrite Htr at 1; rewrite Hx, <- app_assoc. }
    destruct r as [e|status e|status respBody].
    + rewrite Hadd, last_cons. specialize (IH (i + 1) (Some
        ("http request failed on attempt " +:+ itoa (i + 1) +:+ ": " +:+ e)) w1).
      simpl in IH. destruct (last _) as [final|]; [done|].
      simpl in *. exists i. destruct IH as [IH|(err & Herr & _)]; [done|congruence].
    + simpl. by rewrite (added_app w w1 _ Hx).
    + destruct (is2xx status) eqn:H2xx.
      * simpl. rewrite (added_app w w1 _ Hx). simpl. by rewrite H2xx.
      * rewrite Hadd, last_cons.
        specialize (IH (i + 1) (Some (apiErrorMsg status i respBody)) w1).
        simpl in IH. destruct (last _) as [final|]; [done|].
        simpl in *. rewrite H2xx. exists i.
        destruct IH as [IH|(err & Herr & _)]; [done|congruence].
Qed.

(** A body returned is the body of the answer to the last attempt. *)
Lemma doRequestLoop_ok (client : ApiClient.t) (req : Request)
    (attempts : nat) (i : Z) (lastErr : option string) (w : World) (respBody : Body) :
  (doRequestLoop client req attempts i lastErr w).1 = Ok respBody →
  ∃ status,
    last (added w (doRequestLoop client req attempts i lastErr w).2)
    = Some (req, Response status respBody)
    ∧ is2xx status = true.
Proof.
  intros Hok.
  pose proof (doRequestLoop_last client req attempts i lastErr w) as Hd.
  destruct (emits_added _ _ w (doRequestLoop_emits client req attempts i lastErr))
    as [_ Hreq].
  simpl in Hd. rewrite Hok in Hd.
  destruct (last _) as [[req' r]|] eqn:Hlast; simpl in Hd;
    [|by destruct Hd as [Hd|(err & _ & Hd)]].
  rewrite Forall_forall in Hreq.
  pose proof (Hreq _ (last_Some_elem_of _ _ Hlast)) as Hr. simpl in Hr. subst req'.
  destruct r as [e|status e|status b]; [by destruct Hd|done|].
  destruct (is2xx status) eqn:H2xx; [|by destruct Hd].
  injection Hd as ->. by exists status.
Qed.

Lemma added_trans (w w1 w2 : World) (xs ys : list (Request * Reply Body)) :
  trace w1 = trace w ++ xs → trace w2 = trace w1 ++ ys →
  added w w2 = added w w1 ++ added w1 w2.
Proof.
  intros H1 H2. rewrite (added_app w w1 xs H1), (added_app w1 w2 ys H2).
  apply added_app. by rewrite H2, H1, <- app_assoc.
Qed.

(** [doRequest] sends something as soon as it has an attempt to make. *)
Lemma doRequestLoop_sends (client : ApiClient.t) (req : Request)
    (attempts : nat) (i : Z) (lastErr : option string) (w : World) :
  (0 < attempts)%nat →
  newRequestError (method req) (url req) = None →
  added w (doRequestLoop client req attempts i lastErr w).2 ≠ [].
Proof.
  destruct attempts as [|attempts]; [lia|]. intros _ Hnew. simpl. rewrite Hnew.
  pose proof (exchange_trace req w) as Hx.
  destruct (exchange req w) as [r w1]; simpl in Hx.
  assert (∀ j e, added w (doRequestLoop client req attempts j e w1).2 ≠ []) as Hrec.
  { intros j e.
    destruct (emits_added _ _ w1 (doRequestLoop_emits client req attempts j e))
      as [Htr _].
    rewrite Hx, <- app_assoc in Htr. by rewrite (added_app _ _ _ Htr). }
  destruct r as [e|status e|status respBody]; [apply Hrec| |].
  - simpl. by rewrite (added_app w w1 _ Hx).
  - destruct (is2xx status); [|apply Hrec].
    simpl. by rewrite (added_app w w1 _ Hx).
Qed.

(** Only the last attempt of [doRequest] can be a success. *)
Lemma doRequestLoop_succeeded (client : ApiClient.t) (req : Request)
    (attempts : nat) (i : Z) (lastErr : option string) (w : World) :
  (length (filter (λ x, succeeded x = true)
             (added w (doRequestLoop client req attempts i lastErr w).2)) ≤ 1)%nat.
Proof.
  revert i lastErr w. induction attempts as [|attempts IH]; intros i lastErr w.
  - simpl. rewrite added_same. simpl. lia.
  - simpl. destruct (newRequestError (method req) (url req)) as [err|].
    { simpl. rewrite added_same. simpl. lia. }
    pose proof (exchange_trace req w) as Hx.
    destruct (exchange req w) as [r w1]; simpl in Hx.
    assert (succeeded (req, r) = false → ∀ j e,
      (length (filter (λ x, succeeded x = true)
                 (added w (doRequestLoop client req attempts j e w1).2)) ≤ 1)%nat)
      as Hrec.
    { intros Hr j e.
      destruct (emits_added _ _ w1 (doRequestLoop_emits client req attempts j e))
        as [Htr _].
      rewrite Hx, <- app_assoc in Htr. rewrite (added_app _ _ _ Htr). simpl.
      rewrite filter_cons_False; [apply IH|]. by rewrite Hr. }
    destruct r as [e|status e|status respBody]; [by apply Hrec| |].
    + simpl. rewrite (added_app w w1 _ Hx). simpl. lia.
    + destruct (is2xx status) eqn:H2xx; [|by apply Hrec].
      simpl. rewrite (added_app w w1 _ Hx).
      rewrite filter_cons, filter_nil. destruct (decide _); simpl; lia.
Qed.

End Traces.

(* ===================================================================== *)
(** * The data-source reconciler *)
(* ===================================================================== *)

Section DataSources.
Context `{Environment}.

Lemma doRequest_emits (client : ApiClient.t) (method url : string) (body : option Payload) :
  emits (λ x, x.1 = mkRequest method url body) (doRequest client method url body).
Proof. apply doRequestLoop_emits. Qed.

Lemma CreateDataSource_unfold (client : ApiClient.t) (ds : PostgreSQLDataSourceModel.t)
    (w : World) :
  CreateDataSource client ds w =
  match doRequest client "POST" (ApiClient.URL client +:+ "/api/datasources")
          (Some (DataSourcePayload ds)) w with
  | (Ok respBody, w') =>
      (wrapResult "failed to unmarshal data source creation response: "
         (unmarshalCreateDataSourceResponse respBody), w')
  | (Err e, w') => (Err ("data source creation failed: " +:+ e), w')
  | (Panic msg, w') => (Panic msg, w')
  end.
Proof.
  unfold CreateDataSource, mbind, prov_bind, wrapErr, liftResult.
  by destruct (doRequest _ _ _ _ w) as [[b|e|pm] w'].
Qed.

Lemma CreateDataSource_world (client : ApiClient.t) (ds : PostgreSQLDataSourceModel.t)
    (w : World) :
  (CreateDataSource client ds w).2 =
  (doRequest client "POST" (ApiClient.URL client +:+ "/api/datasources")
     (Some (DataSourcePayload ds)) w).2.
Proof. rewrite CreateDataSource_unfold. by destruct (doRequest _ _ _ _ w) as [[b|e|pm] w']. Qed.

Lemma provisionDataSource_world (client : ApiClient.t) (dataSource : DataSource.t)
    (existingSources : list DataSource.t) (w : World) :
  find (λ source, sameConnection source dataSource) existingSources = None →
  (provisionDataSource client dataSource existingSources w).2 =
  (doRequest client "POST" (ApiClient.URL client +:+ "/api/datasources")
     (Some (DataSourcePayload
              (dsModelOf dataSource
                 (resolveName existingSources (DataSource.Name dataSource))))) w).2.
Proof.
  intros Hnone. unfold provisionDataSource. rewrite Hnone.
  rewrite <- CreateDataSource_world.
  destruct (CreateDataSource _ _ w) as [[resp|err|pm] w']; [done| |done].
  by destruct (contains err "Status 409").
Qed.

Lemma provisionDataSource_emits (client : ApiClient.t) (dataSource : DataSource.t)
    (existingSources : list DataSource.t) :
  emits (λ x, find (λ source, sameConnection source dataSource) existingSources = None
              ∧ x.1 = creationFor client existingSources dataSource)
    (provisionDataSource client dataSource existingSources).
Proof.
  intros w.
  destruct (find (λ source, sameConnection source dataSource) existingSources)
    as [source|] eqn:Hfind.
  - unfold provisionDataSource. rewrite Hfind. exists []. by rewrite app_nil_r.
  - rewrite provisionDataSource_world by done.
    destruct (doRequest_emits client "POST" (ApiClient.URL client +:+ "/api/datasources")
                (Some (DataSourcePayload
                   (dsModelOf dataSource
                      (resolveName existingSources (DataSource.Name dataSource))))) w)
      as (xs & Hxs & HP).
    exists xs. split; [done|]. eapply Forall_impl; [exact HP|]. by intros x ->.
Qed.

Lemma apiErrorMsg_409 (j : Z) (respBody : Body) :
  contains (apiErrorMsg 409 j respBody) "Status 409" = true.
Proof.
  unfold apiErrorMsg.
  change ("Grafana API error (Status " +:+ itoa 409 +:+ ") on attempt "
            +:+ itoa (j + 1) +:+ ": " +:+ bodyText respBody)
    with ("Grafana API error (" +:+ "Status 409" +:+ ") on attempt "
            +:+ itoa (j + 1) +:+ ": " +:+ bodyText respBody).
  apply contains_append_mid.
Qed.

(** A request whose last attempt is answered 409 fails with a text that
    carries the status. *)
Lemma doRequest_409 (client : ApiClient.t) (method url : string) (body : option Payload)
    (w : World) (x : Request * Reply Body) :
  let out := doRequest client method url body w in
  last (added w out.2) = Some x → status409 x →
  ∃ e, out.1 = Err e ∧ contains e "Status 409" = true.
Proof.
  intros out Hlast [respBody Hx].
  pose proof (doRequestLoop_last client (mkRequest method url body)
                (Z.to_nat (ApiClient.Retries client)) 0 None w) as Hd.
  simpl in Hd. fold (doRequest client method url body w) in Hd. fold out in Hd.
  rewrite Hlast in Hd. destruct x as [req r]. simpl in Hx. subst r. simpl in Hd.
  destruct Hd as [j Hj]. eexists. split; [exact Hj|].
  unfold exhausted. do 3 apply contains_append_r. apply apiErrorMsg_409.
Qed.

(** On a 409 [provisionDataSource] reports success under the resolved name,
    with the zero id and the empty UID. *)
Lemma provisionDataSource_409 (client : ApiClient.t) (dataSource : DataSource.t)
    (existingSources : list DataSource.t) (w : World) (x : Request * Reply Body) :
  let out := provisionDataSource client dataSource existingSources w in
  find (λ source, sameConnection source dataSource) existingSources = None →
  last (added w out.2) = Some x → status409 x →
  out.1 = Ok (conflictResponse (resolveName existingSources (DataSource.Name dataSource))).
Proof.
  intros out Hnone Hlast H409. subst out.
  rewrite provisionDataSource_world in Hlast by done.
  destruct (doRequest_409 client _ _ _ w x Hlast H409) as (e & He & Hc).
  unfold provisionDataSource. rewrite Hnone, CreateDataSource_unfold.
  destruct (doRequest _ _ _ _ w) as [r w']. simpl in He. subst r.
  assert (contains ("data source creation failed: " +:+ e) "Status 409" = true) as ->
    by by apply contains_append_r.
  done.
Qed.

End DataSources.

Lemma find_first {A} (f : A → bool) (l : list A) :
  (∃ a, a ∈ l ∧ f a = true) →
  ∃ pre a post, l = pre ++ a :: post ∧ Forall (λ b, f b = false) pre ∧ f a = true
                ∧ find f l = Some a.
Proof.
  induction l as [|b l IH]; intros (a & Ha & Hfa).
  - by apply elem_of_nil in Ha.
  - simpl. destruct (f b) eqn:Hfb.
    + by exists [], b, l.
    + apply elem_of_cons in Ha as [->|Ha]; [congruence|].
      destruct IH as (pre & a' & post & -> & Hpre & Ha' & Hfind); [by exists a|].
      exists (b :: pre), a', post. split_and!; [done|by constructor|done|done].
Qed.

(** C1. Connection identity dominates name: when some existing record has
    the type, URL and database of the desired data source, the reconciler
    returns the id, UID and name of the first such record, whatever the
    names are, and the world is left as it was: no request of any kind is
    sent, hence no creation request. *)
Theorem connection_identity_dominates_name `{Environment} (client : ApiClient.t)
    (dataSource : DataSource.t) (existingSources : list DataSource.t) (w : World) :
  (∃ source, source ∈ existingSources ∧ sameConnection source dataSource = true) →
  ∃ pre source post resp,
    existingSources = pre ++ source :: post
    ∧ Forall (λ other, sameConnection other dataSource = false) pre
    ∧ sameConnection source dataSource = true
    ∧ provisionDataSource client dataSource existingSources w = (Ok resp, w)
    ∧ CreateDataSourceResponseDatasource.ID (CreateDataSourceResponse.Datasource resp)
      = DataSource.ID source
    ∧ CreateDataSourceResponseDatasource.UID (CreateDataSourceResponse.Datasource resp)
      = DataSource.UID source
    ∧ CreateDataSourceResponseDatasource.Name (CreateDataSourceResponse.Datasource resp)
      = DataSource.Name source.
Proof.
  intros Hex.
  destruct (find_first (λ source, sameConnection source dataSource) existingSources Hex)
    as (pre & source & post & Hl & Hpre & Hsame & Hfind).
  exists pre, source, post, (alreadyExists source).
  split_and!; try done.
  unfold provisionDataSource. by rewrite Hfind.
Qed.

Lemma connection_identity_dominates_name_witness :
  ∃ resp,
    provisionDataSource (H:=scripted) sampleClient (pg "y" "h:5432" "d")
      [record 7 "uid-x" "x" "h:5432" "d"] (startOn (E:=scripted) [])
    = (Ok resp, startOn (E:=scripted) [])
    ∧ CreateDataSourceResponseDatasource.UID (CreateDataSourceResponse.Datasource resp)
      = "uid-x".
Proof.
  destruct (connection_identity_dominates_name (H:=scripted) sampleClient
              (pg "y" "h:5432" "d") [record 7 "uid-x" "x" "h:5432" "d"]
              (startOn (E:=scripted) []))
    as (pre & source & post & resp & Hl & Hpre & Hsame & Hrun & Hid & Huid & Hname).
  - exists (record 7 "uid-x" "x" "h:5432" "d"). split; [apply list_elem_of_here|reflexivity].
  - exists resp. split; [exact Hrun|].
    destruct pre as [|other pre].
    + injection Hl as <- _. exact Huid.
    + injection Hl as _ Hl. destruct pre; discriminate Hl.
Defined.

(** C2. Name collision resolution: when no existing record has the
    connection of the desired data source, the name sent in the creation
    request is [baseName] if no record bears it, and otherwise [baseName_k]
    for the least [k >= 1] such that no record bears [baseName_k].  Every
    attempt of the creation is a POST to [/api/datasources]; the first one
    sends the payload, which is read off the request itself: that name,
    the fixed type and access mode, the connection and credentials of the
    desired data source, not default.  An attempt is made as soon as the
    client has one and the request can be built.  In particular, when the
    existing names are m and m_1 and the desired name is m, the name sent
    is m_2. *)
Theorem name_collision_resolution `{Environment} (client : ApiClient.t)
    (dataSource : DataSource.t) (existingSources : list DataSource.t) (w : World) :
  find (λ source, sameConnection source dataSource) existingSources = None →
  let baseName := DataSource.Name dataSource in
  let sent := added w (provisionDataSource client dataSource existingSources w).2 in
  ∃ k,
    0 ≤ k
    ∧ (k = 0 ↔ (baseName ∉ map DataSource.Name existingSources))
    ∧ (0 < k → currentName baseName k = baseName +:+ "_" +:+ itoa k)
    ∧ (currentName baseName k ∉ map DataSource.Name existingSources)
    ∧ (∀ m, 0 ≤ m < k → currentName baseName m ∈ map DataSource.Name existingSources)
    ∧ Forall (λ x, method x.1 = "POST"
                   ∧ url x.1 = ApiClient.URL client +:+ "/api/datasources") sent
    ∧ (sent ≠ [] →
       firstPayload sent
       = Some (DataSourcePayload
                 {| PostgreSQLDataSourceModel.Name := currentName baseName k;
                    PostgreSQLDataSourceModel.Type_ := "grafana-postgresql-datasource";
                    PostgreSQLDataSourceModel.Access := "direct";
                    PostgreSQLDataSourceModel.URL := DataSource.URL dataSource;
                    PostgreSQLDataSourceModel.Database := DataSource.Database dataSource;
                    PostgreSQLDataSourceModel.User := DataSource.User dataSource;
                    PostgreSQLDataSourceModel.Password := DataSource.Password dataSource;
                    PostgreSQLDataSourceModel.SSLMode := DataSource.SSLMode dataSource;
                    PostgreSQLDataSourceModel.IsDefault := false |}))
    ∧ (0 < ApiClient.Retries client →
       newRequestError "POST" (ApiClient.URL client +:+ "/api/datasources") = None →
       sent ≠ [])
    ∧ (baseName = "m" →
       (∀ name, name ∈ map DataSource.Name existingSources ↔ name = "m" ∨ name = "m_1") →
       currentName baseName k = "m_2").
Proof.
  intros Hnone baseName sent.
  destruct (nameLoop_enough existingSources baseName)
    as (k & Hk & Hfree & Hbelow & _ & Hres).
  assert (∀ name, name ∉ map DataSource.Name existingSources
                  ↔ nameConflict existingSources name = false) as Hfalse.
  { intros name. rewrite <- nameConflict_true.
    by destruct (nameConflict existingSources name). }
  assert (Forall (λ x, x.1 = creationFor client existingSources dataSource) sent) as Hsent.
  { subst sent.
    destruct (emits_added _ _ w (provisionDataSource_emits client dataSource existingSources))
      as [_ HP].
    eapply Forall_impl; [exact HP|]. by intros x [_ ->]. }
  exists k. split_and!.
  - lia.
  - split.
    + intros ->. by apply Hfalse.
    + intros Hbase. destruct (decide (k = 0)) as [|Hne]; [done|].
      apply Hfalse in Hbase. change baseName with (currentName baseName 0) in Hbase at 1.
      rewrite (Hbelow 0) in Hbase; [done|lia].
  - intros Hpos. unfold currentName. by rewrite bool_decide_eq_true_2 by lia.
  - by apply Hfalse.
  - intros m Hm. apply nameConflict_true, Hbelow, Hm.
  - eapply Forall_impl; [exact Hsent|]. by intros x ->.
  - intros Hne. destruct sent as [|x sent']; [done|].
    apply Forall_cons in Hsent as [Hx _]. simpl. rewrite Hx.
    unfold creationFor. fold baseName. by rewrite Hres.
  - intros Hretries Hnew. subst sent. rewrite provisionDataSource_world by done.
    apply doRequestLoop_sends; [lia|done].
  - intros Hm Hnames.
    assert (∀ j, nameConflict existingSources (currentName baseName j) = true ↔
                 currentName baseName j = "m" ∨ currentName baseName j = "m_1") as Hc.
    { intros j. by rewrite nameConflict_true, Hnames. }
    assert (k = 2) as ->; [|by rewrite Hm].
    destruct (decide (k = 0)) as [->|].
    { rewrite Hm in Hfree, Hc. pose proof (proj2 (Hc 0) (or_introl eq_refl)). congruence. }
    destruct (decide (k = 1)) as [->|].
    { rewrite Hm in Hfree, Hc. pose proof (proj2 (Hc 1) (or_intror eq_refl)). congruence. }
    destruct (decide (k = 2)) as [|]; [done|].
    assert (nameConflict existingSources (currentName baseName 2) = true) as H2
      by (apply Hbelow; lia).
    rewrite Hm in H2, Hc. apply Hc in H2 as [H2|H2]; discriminate H2.
Qed.

Lemma name_collision_resolution_witness :
  let existingSources := [record 1 "a" "m" "h0:5432" "d"; record 2 "b" "m_1" "h1:5432" "d"] in
  let sent :=
    added (H:=scripted) (startOn (E:=scripted) [])
      (provisionDataSource (H:=scripted) sampleClient (pg "m" "h2:5432" "d")
         existingSources (startOn (E:=scripted) [])).2 in
  find (λ source, sameConnection source (pg "m" "h2:5432" "d")) existingSources = None
  ∧ sent ≠ []
  ∧ ∃ k, currentName "m" k = "m_2"
         ∧ (firstPayload (H:=scripted) sent ≫= λ p,
              match p with DataSourcePayload ds => Some (PostgreSQLDataSourceModel.Name ds)
                         | _ => None end)
           = Some (currentName "m" k).
Proof.
  intros existingSources sent. split; [reflexivity|].
  destruct (name_collision_resolution (H:=scripted) sampleClient (pg "m" "h2:5432" "d")
              existingSources (startOn (E:=scripted) []) eq_refl)
    as (k & _ & _ & _ & _ & _ & _ & Hfirst & Hsome & Hm2).
  assert (sent ≠ []) as Hne by (apply Hsome; reflexivity).
  split; [exact Hne|].
  exists k. split.
  - apply Hm2; [reflexivity|].
    intros name. unfold existingSources. simpl. rewrite !elem_of_cons, elem_of_nil.
    split.
    + intros [Hn|[Hn|Hn]]; [by left|by right|destruct Hn].
    + intros [Hn|Hn]; [by left|by right; left].
  - fold sent in Hfirst. by rewrite (Hfirst Hne).
Defined.

(** C3. The name loop terminates: for every desired name and every list of
    existing records there is an iteration [k], at most the number of
    records, at which the loop stops with a name no record bears, and it
    does so under every bound that allows [k + 1] iterations. *)
Theorem name_loop_terminates (existingSources : list DataSource.t) (baseName : string) :
  ∃ k, 0 ≤ k ≤ Z.of_nat (length existingSources)
       ∧ (currentName baseName k ∉ map DataSource.Name existingSources)
       ∧ ∀ fuel, (Z.to_nat k < fuel)%nat →
                 nameLoop fuel existingSources baseName 0 = Some (currentName baseName k).
Proof.
  destruct (nameLoop_enough existingSources baseName)
    as (k & Hk & Hfree & _ & Hloop & _).
  exists k. split_and!; [lia|lia| |done].
  rewrite <- nameConflict_true. by rewrite Hfree.
Qed.

(** C4. A server that answers the creation with status 500 and a body
    whose text has the words Status 409: [provisionDataSource] takes the
    failure for a naming conflict and returns success under the resolved
    name, with the zero id and the empty UID, where a non-2xx outcome other
    than 409 is to be returned as an error. *)
Theorem conflict_detected_in_error_text :
  let reply := Response 500 (WText "upstream said: Status 409") in
  let out :=
    provisionDataSource (H:=scripted) sampleClient (pg "m" "h:5432" "d") []
      (startOn (E:=scripted) [reply]) in
  out.1 = Ok (conflictResponse "m")
  ∧ trace out.2 = [(createRequest sampleClient (dsModelOf (pg "m" "h:5432" "d") "m"), reply)].
Proof. split; reflexivity. Qed.

(** The detection of the conflict is the only way a failed creation turns
    into success: a failure whose text has no Status 409 is returned. *)
Lemma provisionDataSource_failure `{Environment} (client : ApiClient.t)
    (dataSource : DataSource.t) (existingSources : list DataSource.t) (w : World)
    (resp : CreateDataSourceResponse.t) :
  (provisionDataSource client dataSource existingSources w).1 = Ok resp →
  find (λ source, sameConnection source dataSource) existingSources = None →
  (∃ respBody, (doRequest client "POST" (ApiClient.URL client +:+ "/api/datasources")
                  (Some (DataSourcePayload
                     (dsModelOf dataSource
                        (resolveName existingSources (DataSource.Name dataSource))))) w).1
               = Ok respBody)
  ∨ ∃ e, (CreateDataSource client
            (dsModelOf dataSource
               (resolveName existingSources (DataSource.Name dataSource))) w).1 = Err e
         ∧ contains e "Status 409" = true
         ∧ resp = conflictResponse (resolveName existingSources (DataSource.Name dataSource)).
Proof.
  intros Hok Hnone. unfold provisionDataSource in Hok. rewrite Hnone in Hok.
  destruct (CreateDataSource client _ w) as [[resp'|err|pm] w'] eqn:Hcreate.
  - left. rewrite CreateDataSource_unfold in Hcreate.
    destruct (doRequest _ _ _ _ w) as [[respBody|e|pm] w'']; [by eexists|done|done].
  - right. exists err. destruct (contains err "Status 409"); [|done].
    simpl in Hok. injection Hok as <-. done.
  - done.
Qed.

Lemma CreateFolder_world `{Environment} (client : ApiClient.t) (title : string)
    (w : World) :
  (CreateFolder client title w).2 =
  (doRequest client "POST" (ApiClient.URL client +:+ "/api/folders")
     (Some (FolderPayload
              {| CreateFolderRequest.UID := ""; CreateFolderRequest.Title := title |})) w).2.
Proof.
  unfold CreateFolder.
  destruct (doRequest _ _ _ _ w) as [[respBody|err|pm] w']; [done| |done].
  by destruct (contains err "Status 409").
Qed.

Lemma provisionFoldersLoop_app `{Environment}
    (CreateFolderIfNotExists : ApiClient.t → string → Prov FolderResponse.t)
    (client : ApiClient.t) (before rest : list Folder.t)
    (mapping mapping' : gmap string FolderMapping.t) (w w' : World) :
  provisionFoldersLoop CreateFolderIfNotExists client before mapping w = (Ok mapping', w') →
  provisionFoldersLoop CreateFolderIfNotExists client (before ++ rest) mapping w
  = provisionFoldersLoop CreateFolderIfNotExists client rest mapping' w'.
Proof.
  revert mapping w. induction before as [|folderConfig before IH]; intros mapping w.
  - simpl. by intros [= -> ->].
  - simpl. unfold mbind, prov_bind, wrapErr.
    destruct (CreateFolderIfNotExists client (Folder.Name folderConfig) w)
      as [[resp|e|pm] w1]; [|done|done].
    apply IH.
Qed.

(** C5. A folder creation whose last attempt is answered 409 is an error of
    [CreateFolder], with the text of a conflict, whereas a data-source
    creation whose last attempt is answered 409 is a success of
    [provisionDataSource].  The error is a hard failure: the reconciliation
    of a folder that the listing does not show returns it, and, whatever
    the place of the folder in the configured list, the run whose earlier
    steps and earlier folders succeeded ends there with that error, in the
    world the refused creation left: nothing is sent afterwards. *)
Theorem folder_conflict_is_fatal `{Environment} (client : ApiClient.t) (title : string)
    (w : World) (x : Request * Reply Body) :
  let out := CreateFolder client title w in
  let conflict := "folder creation failed (409 Conflict): folder with title '"
                    +:+ title +:+ "' already exists" in
  last (added w out.2) = Some x → status409 x →
  out.1 = Err conflict
  ∧ (∀ dataSource existingSources w0 x0,
       let ds := provisionDataSource client dataSource existingSources w0 in
       find (λ source, sameConnection source dataSource) existingSources = None →
       last (added w0 ds.2) = Some x0 → status409 x0 → isOk ds.1 = true)
  ∧ (∀ existingFolders w3,
       GetFolders client w3 = (Ok existingFolders, w) →
       Forall (λ f, FolderResponse.Title f ≠ title) existingFolders →
       FromSpec.CreateFolderIfNotExists client title w3 = (Err conflict, out.2))
  ∧ (∀ (GetDataSource : ApiClient.t → string → Prov DataSource.t)
       cfg before folderConfig rest w0 w2 w3 mapping existingFolders,
       client = NewClient (Config.Grafana cfg) →
       title = Folder.Name folderConfig →
       Config.Folders cfg = before ++ folderConfig :: rest →
       afterDataSources cfg w0 = Some w2 →
       provisionFoldersLoop FromSpec.CreateFolderIfNotExists client before ∅ w2
       = (Ok mapping, w3) →
       GetFolders client w3 = (Ok existingFolders, w) →
       Forall (λ f, FolderResponse.Title f ≠ title) existingFolders →
       RunProvisioning GetDataSource FromSpec.CreateFolderIfNotExists cfg w0
       = (Err ("folder provisioning failed: "
                 +:+ ("failed to provision folder '" +:+ title +:+ "': ")
                 +:+ conflict), out.2)).
Proof.
  intros out conflict Hlast H409.
  assert (CreateFolder client title w = (Err conflict, out.2)) as Hcreate.
  { subst out. rewrite CreateFolder_world in Hlast.
    destruct (doRequest_409 client _ _ _ w x Hlast H409) as (e & He & Hc).
    unfold CreateFolder in *.
    destruct (doRequest _ _ _ _ w) as [r w']. simpl in He. subst r.
    by rewrite Hc. }
  assert (∀ existingFolders w3,
            GetFolders client w3 = (Ok existingFolders, w) →
            Forall (λ f, FolderResponse.Title f ≠ title) existingFolders →
            FromSpec.CreateFolderIfNotExists client title w3 = (Err conflict, out.2))
    as Hstep.
  { intros existingFolders w3 Hlist Hnone.
    unfold FromSpec.CreateFolderIfNotExists, mbind, prov_bind. rewrite Hlist.
    destruct (find _ existingFolders) as [f|] eqn:Hfind; [|exact Hcreate].
    apply find_some in Hfind as [Hin Hf]. apply bool_decide_eq_true in Hf.
    rewrite Forall_forall in Hnone. by destruct (Hnone f (proj2 (list_elem_of_In _ _) Hin)). }
  split_and!.
  - unfold out at 1. by rewrite Hcreate.
  - intros dataSource existingSources w0 x0 ds Hnone Hlast0 Hx0. subst ds.
    by rewrite (provisionDataSource_409 client dataSource existingSources w0 x0).
  - exact Hstep.
  - intros GetDataSource cfg before folderConfig rest w0 w2 w3 mapping existingFolders
      Hclient Htitle Hfolders Hreach Hbefore Hlist Hnone.
    unfold afterDataSources in Hreach. rewrite <- Hclient in Hreach.
    unfold RunProvisioning, provisionFolders. rewrite <- Hclient.
    unfold mbind, prov_bind, wrapErr.
    destruct (waitForGrafanaAPI _ w0) as [[[]|e1|pm] w1]; [|done|done].
    destruct (provisionDataSources _ cfg w1) as [[resps|e2|pm] w2']; [|done|done].
    injection Hreach as ->. rewrite Hfolders.
    rewrite (provisionFoldersLoop_app _ _ _ _ _ _ _ _ Hbefore). simpl.
    unfold mbind, prov_bind, wrapErr. rewrite <- Htitle.
    by rewrite (Hstep _ _ Hlist Hnone).
Qed.

Lemma folder_conflict_is_fatal_witness :
  let logs := {| FolderResponse.ID := 1; FolderResponse.UID := "f1";
                 FolderResponse.Title := "logs"; FolderResponse.URL := "" |} in
  let cfg :=
    {| Config.Grafana := sampleParams; Config.Dashboards := [latencyIn "logs"];
       Config.DataSources := [];
       Config.Folders := [ {| Folder.Name := "logs" |}; {| Folder.Name := "metrics" |} ];
       Config.FoldersMapping := ∅ |} in
  let w0 := startOn (E:=scripted)
              [ Response 200 (WText "ok"); Response 200 (WDataSources []);
                Response 200 (WFolders []); Response 200 (WFolder logs);
                Response 200 (WFolders [logs]); Response 409 (WText "folder exists") ] in
  let run := RunProvisioning (H:=scripted) (λ _ _, fail "unused")
               (FromSpec.CreateFolderIfNotExists (H:=scripted)) cfg w0 in
  run.1 = Err ("folder provisioning failed: "
                 +:+ "failed to provision folder 'metrics': "
                 +:+ "folder creation failed (409 Conflict): "
                 +:+ "folder with title 'metrics' already exists")
  ∧ map (λ x, (method x.1, statusOf x.2)) (trace run.2)
    = [ ("GET", Some 200); ("GET", Some 200); ("GET", Some 200); ("POST", Some 200);
        ("GET", Some 200); ("POST", Some 409) ].
Proof.
  intros logs cfg w0 run.
  set (client := NewClient sampleParams).
  set (w2 := (provisionDataSources (H:=scripted) client cfg
                (waitForGrafanaAPI (H:=scripted) client w0).2).2).
  set (w3 := (provisionFoldersLoop (H:=scripted) (FromSpec.CreateFolderIfNotExists (H:=scripted))
                client [ {| Folder.Name := "logs" |} ] ∅ w2).2).
  set (w := (GetFolders (H:=scripted) client w3).2).
  assert (status409 (H:=scripted)
            (folderRequest client "metrics", Response 409 (WText "folder exists")))
    as H409 by (by eexists).
  destruct (folder_conflict_is_fatal (H:=scripted) client "metrics" w _ eq_refl H409)
    as (_ & _ & _ & Hrun).
  specialize (Hrun (λ _ _, fail "unused") cfg [ {| Folder.Name := "logs" |} ]
                {| Folder.Name := "metrics" |} [] w0 w2 w3
                {[ "logs" := {| FolderMapping.ID := 1; FolderMapping.UID := "f1";
                                FolderMapping.Title := "logs" |} ]}
                [logs] eq_refl eq_refl eq_refl eq_refl).
  fold run in Hrun. rewrite Hrun.
  - split; reflexivity.
  - by vm_compute.
  - reflexivity.
  - repeat constructor; discriminate.
Defined.

Section Prefetch.
Context `{Environment}.

Lemma GetDataSources_world (client : ApiClient.t) (w : World) :
  (GetDataSources client w).2 =
  (doRequest client "GET" (ApiClient.URL client +:+ "/api/datasources") None w).2.
Proof.
  unfold GetDataSources, mbind, prov_bind, liftResult, mret, prov_ret.
  destruct (doRequest _ _ _ _ w) as [[respBody|e|pm] w']; [|done|done].
  by destruct (wrapResult _ _).
Qed.

Lemma GetDataSources_ok (client : ApiClient.t) (w : World) (l : list DataSource.t) :
  (GetDataSources client w).1 = Ok l →
  ∃ respBody,
    (doRequest client "GET" (ApiClient.URL client +:+ "/api/datasources") None w).1
    = Ok respBody.
Proof.
  unfold GetDataSources, mbind, prov_bind, liftResult, mret, prov_ret.
  destruct (doRequest _ _ _ _ w) as [[respBody|e|pm] w']; [by eexists|done|done].
Qed.

(** A request that returns a body has exactly one successful attempt. *)
Lemma doRequest_ok_once (client : ApiClient.t) (method url : string)
    (body : option Payload) (w : World) (respBody : Body) :
  (doRequest client method url body w).1 = Ok respBody →
  length (filter (λ x, succeeded x = true)
            (added w (doRequest client method url body w).2)) = 1%nat.
Proof.
  intros Hok.
  pose proof (doRequestLoop_succeeded client (mkRequest method url body)
                (Z.to_nat (ApiClient.Retries client)) 0 None w) as Hle.
  pose proof (doRequestLoop_last client (mkRequest method url body)
                (Z.to_nat (ApiClient.Retries client)) 0 None w) as Hd.
  simpl in Hd. fold (doRequest client method url body w) in Hle, Hd.
  rewrite Hok in Hd.
  destruct (last _) as [[req r]|] eqn:Hlast; simpl in Hd;
    [|by destruct Hd as [Hd|(err & _ & Hd)]].
  assert ((req, r) ∈ filter (λ x, succeeded x = true)
            (added w (doRequest client method url body w).2)) as Hin.
  { apply list_elem_of_filter. split; [|by apply last_Some_elem_of].
    destruct r as [e|status e|status b]; [by destruct Hd|done|].
    unfold succeeded. simpl. destruct (is2xx status); [done|by destruct Hd]. }
  destruct (filter _ _) as [|y [|z l]]; simpl in *; [|done|lia].
  by apply elem_of_nil in Hin.
Qed.

Lemma provisionDataSourcesLoop_emits (client : ApiClient.t)
    (dataSources existingSources : list DataSource.t)
    (sourceResponses : list CreateDataSourceResponse.t) :
  emits (λ x, ∃ dataSource,
           dataSource ∈ dataSources
           ∧ find (λ source, sameConnection source dataSource) existingSources = None
           ∧ x.1 = creationFor client existingSources dataSource)
    (provisionDataSourcesLoop client dataSources existingSources sourceResponses).
Proof.
  revert sourceResponses.
  induction dataSources as [|dataSource rest IH]; intros sourceResponses.
  - apply emits_ret.
  - simpl. apply emits_bind.
    + apply emits_wrapErr.
      eapply emits_weaken; [|apply provisionDataSource_emits].
      intros x [Hnone Hx]. exists dataSource. split; [apply list_elem_of_here|done].
    + intros resp. eapply emits_weaken; [|apply IH].
      intros x (d & Hd & Hx). exists d. split; [by apply list_elem_of_further|done].
Qed.

End Prefetch.

(** C10. In a run of [provisionDataSources] the listing comes first and is
    answered successfully at most once (exactly once when it yields a
    list); every request after it is a creation whose name was resolved
    against that list alone, whatever the server did in between.  So for
    the two desired data sources named m and m_1, of distinct connections,
    against a server that holds only a record named m, both creation
    requests carry the name m_1. *)
Theorem prefetched_list_only :
  (∀ (E : Environment) (client : ApiClient.t) (cfg : Config.t) (w : World),
     let fetch := GetDataSources client w in
     let out := provisionDataSources client cfg w in
     ∃ posts,
       trace out.2 = trace w ++ added w fetch.2 ++ posts
       ∧ Forall (λ x, x.1 = listRequest client) (added w fetch.2)
       ∧ (length (filter (λ x, succeeded x = true) (added w fetch.2)) ≤ 1)%nat
       ∧ match fetch.1 with
         | Ok existingSources =>
             length (filter (λ x, succeeded x = true) (added w fetch.2)) = 1%nat
             ∧ Forall (λ x, ∃ dataSource,
                         dataSource ∈ Config.DataSources cfg
                         ∧ find (λ source, sameConnection source dataSource)
                             existingSources = None
                         ∧ x.1 = creationFor client existingSources dataSource) posts
         | Err _ | Panic _ => posts = []
         end)
  ∧ (let out :=
       provisionDataSources (H:=registry) sampleClient twoSources
         (startOn (E:=registry) holdsM) in
     Config.DataSources twoSources
     = [pg "m" "db1:5432" "metrics"; pg "m_1" "db2:5432" "metrics"]
     ∧ sameConnection (pg "m" "db1:5432" "metrics") (pg "m_1" "db2:5432" "metrics") = false
     ∧ map RawDataSource.Name (held holdsM) = ["m"]
     ∧ omap (λ x, createdName x.1) (trace out.2) = ["m_1"; "m_1"]).
Proof.
  split.
  - intros E client cfg w fetch out.
    assert (trace fetch.2 = trace w ++ added w fetch.2
            ∧ Forall (λ x, x.1 = listRequest client) (added w fetch.2)) as [Htr Hget].
    { subst fetch. rewrite GetDataSources_world.
      apply (emits_added _ _ w (doRequest_emits client "GET" _ None)). }
    assert (length (filter (λ x, succeeded x = true) (added w fetch.2)) ≤ 1)%nat as Hle.
    { subst fetch. rewrite GetDataSources_world. apply doRequestLoop_succeeded. }
    subst out. unfold provisionDataSources, mbind, prov_bind, wrapErr.
    fold fetch. destruct fetch as [[existingSources|e|pm] w1] eqn:Hfetch; simpl in *.
    + destruct (emits_added _ _ w1
                  (provisionDataSourcesLoop_emits client (Config.DataSources cfg)
                     existingSources [])) as [Hposts HP].
      exists (added w1 (provisionDataSourcesLoop client (Config.DataSources cfg)
                          existingSources [] w1).2).
      split; [|split; [done|split; [done|split; [|exact HP]]]].
      * rewrite Hposts, Htr. by rewrite <- app_assoc.
      * destruct (GetDataSources_ok client w existingSources) as [respBody Hok].
        { subst fetch. by rewrite Hfetch. }
        pose proof (doRequest_ok_once client _ _ _ w respBody Hok) as Honce.
        rewrite <- GetDataSources_world in Honce. subst fetch.
        by rewrite Hfetch in Honce.
    + exists []. by rewrite app_nil_r.
    + exists []. by rewrite app_nil_r.
  - by split_and!.
Qed.

(* ===================================================================== *)
(** * The dashboard reconciler *)
(* ===================================================================== *)

Lemma processInputs_omap (inputs : list JSON) (inputValues : gmap string string) :
  processInputs inputs inputValues = omap (processInput inputValues) inputs.
Proof.
  unfold processInputs.
  assert (∀ processedInputs,
    fold_left
      (λ processedInputs input,
         match processInput inputValues input with
         | Some inputMap => processedInputs ++ [inputMap]
         | None => processedInputs
         end) inputs processedInputs
    = processedInputs ++ omap (processInput inputValues) inputs) as Hgen.
  { induction inputs as [|input inputs IH]; intros processedInputs; simpl.
    - by rewrite app_nil_r.
    - rewrite IH. destruct (processInput inputValues input); [|done].
      by rewrite <- app_assoc. }
  by rewrite Hgen.
Qed.

(** What one iteration does to a well-formed entry, and that it skips the
    others. *)
Lemma processInput_spec (inputValues : gmap string string) (input : JSON) :
  match declaredName input with
  | None => processInput inputValues input = None
  | Some name =>
      ∃ inputMap processedMap,
        input = JObject inputMap
        ∧ inputMap !! "name" = Some (JString name)
        ∧ processInput inputValues input = Some (JObject processedMap)
        ∧ (∀ key, key ≠ "value" → processedMap !! key = inputMap !! key)
        ∧ match inputValues !! name with
          | Some uid => processedMap !! "value" = Some (JString uid)
          | None => processedMap !! "value" = inputMap !! "value"
          end
  end.
Proof.
  destruct input as [| | | | | |inputMap]; try done. simpl.
  destruct (inputMap !! "name") as [[| | | |name| |]|] eqn:Hname; try done.
  destruct (inputValues !! name) as [uid|] eqn:Huid.
  - eexists inputMap, _. split_and!; [done|done|done| |].
    + intros key Hkey. by rewrite lookup_insert_ne.
    + by rewrite lookup_insert_eq.
  - destruct (inputMap !! "value") as [currentValue|] eqn:Hvalue.
    + eexists inputMap, _. split_and!; [done|done|done| |].
      * intros key Hkey. by rewrite lookup_insert_ne.
      * by rewrite lookup_insert_eq.
    + by eexists inputMap, _.
Qed.

(** C8. Import substitution: the processed inputs are, in order, the
    well-formed entries of [__inputs] (objects with a string under [name]);
    each keeps all its fields but [value]; its [value] is the mapped UID
    when its name is in the substitution set, and is what it was (present
    or absent) otherwise.  The other entries are dropped and nothing
    fails: [processInputs] is a total function. *)
Theorem import_substitution (inputs : list JSON) (inputValues : gmap string string) :
  Forall2
    (λ input processed,
       ∃ inputMap name processedMap,
         input = JObject inputMap
         ∧ inputMap !! "name" = Some (JString name)
         ∧ processed = JObject processedMap
         ∧ (∀ key, key ≠ "value" → processedMap !! key = inputMap !! key)
         ∧ match inputValues !! name with
           | Some uid => processedMap !! "value" = Some (JString uid)
           | None => processedMap !! "value" = inputMap !! "value"
           end)
    (filter (λ input, is_Some (declaredName input)) inputs)
    (processInputs inputs inputValues).
Proof.
  rewrite processInputs_omap.
  induction inputs as [|input inputs IH]; [constructor|].
  pose proof (processInput_spec inputValues input) as Hspec.
  rewrite filter_cons. simpl.
  destruct (declaredName input) as [name|] eqn:Hname.
  - destruct Hspec as (inputMap & processedMap & -> & Hn & -> & Hkeys & Hvalue).
    destruct (decide (is_Some (Some name))) as [_|Hno]; [|by destruct Hno].
    constructor; [|done]. by exists inputMap, name, processedMap.
  - rewrite Hspec. destruct (decide (is_Some None)) as [[? Hyes]|_]; [done|done].
Qed.

(** The example of the specification: a mapping for DS_A only. *)
Lemma import_substitution_example :
  processInputs sampleInputs {[ "DS_A" := "uidA" ]}
  = [ JObject (<["name" := JString "DS_A"]> (<["value" := JString "uidA"]> ∅));
      JObject (<["name" := JString "DS_B"]> (<["value" := JString "keep"]> ∅)) ].
Proof. by vm_compute. Qed.

Section Dashboards.
Context `{Environment}.

Lemma ImportDashboard_emits (client : ApiClient.t) (request : DashboardImportRequest.t) :
  emits (λ x, x.1 = importRequest client request) (ImportDashboard client request).
Proof.
  unfold ImportDashboard. apply emits_bind.
  - apply emits_wrapErr, doRequest_emits.
  - intros _. apply emits_ret.
Qed.

Lemma FindFirstDashboardByFolderAndName_emits (client : ApiClient.t) (name folder : string) :
  emits (λ x, x.1 = searchRequest client)
    (FindFirstDashboardByFolderAndName client name folder).
Proof.
  unfold FindFirstDashboardByFolderAndName. apply emits_bind.
  - apply emits_wrapErr. unfold SearchDashboards. apply emits_bind.
    + apply doRequest_emits.
    + intros respBody. apply emits_liftResult.
  - intros searchResults. apply emits_ret.
Qed.

(** [provisionDashboard] searches, then imports; the import asks for an
    overwrite, and its folder UID is empty for the General folder and the
    UID it was given for any other. *)
Lemma provisionDashboard_emits (client : ApiClient.t) (cfg : Dashboard.t)
    (dsUID folderUID : string) :
  emits (λ x, x.1 = searchRequest client
              ∨ ∃ request,
                  x.1 = importRequest client request
                  ∧ DashboardImportRequest.Overwrite request = true
                  ∧ DashboardImportRequest.FolderUID request
                    = if EqualFold (Dashboard.Folder cfg) "General" then "" else folderUID)
    (provisionDashboard client cfg dsUID folderUID).
Proof.
  unfold provisionDashboard.
  apply emits_bind; [apply emits_liftResult|]. intros data.
  apply emits_bind; [apply emits_liftResult|]. intros rawDashboard.
  apply emits_bind.
  { apply emits_wrapErr.
    eapply emits_weaken; [|apply FindFirstDashboardByFolderAndName_emits]. by left. }
  intros existingDashboard.
  destruct rawDashboard as [rawDashboard|]; [|apply emits_panic].
  match goal with
  | |- emits _ (let '(_, _) := ?scrutinee in _) => destruct scrutinee as [inputs doc]
  end.
  eapply emits_weaken; [|apply ImportDashboard_emits].
  intros x Hx. right. eexists. split; [exact Hx|]. split; reflexivity.
Qed.

End Dashboards.

(** C6 fails as stated: with General mapped to the UID g1, the resolution
    returns g1, the import succeeds, and the one import request submitted
    carries the empty UID, not g1. *)
Lemma general_import_drops_mapped_uid :
  let w := startOn (E:=scripted) [Response 200 (WSearch []); Response 200 (WText "ok")] in
  let out := provisionDashboard (H:=scripted) sampleClient (latencyIn "General") "uidA" "g1" w in
  FolderMapping.UID <$> (Config.FoldersMapping (mapped "General" "g1") !! "General")
  = Some "g1"
  ∧ getDashboardFolderUID (mapped "General" "g1") (latencyIn "General") = Ok "g1"
  ∧ out.1 = Ok tt
  ∧ omap (λ x, importedFolderUID x.1) (trace out.2) = [""]
  ∧ omap (λ x, importedFolderUID x.1) (trace out.2) ≠ ["g1"].
Proof. by vm_compute. Qed.

(** C6, amended. For a dashboard whose folder is General up to case, the
    resolution of the folder UID is never an error: it returns the UID
    mapped to General when there is one and the empty UID otherwise; and
    every import request submitted for the dashboard carries the empty
    UID, whatever UID it was given. *)
Theorem general_folder_resolution (cfg : Config.t) (dashboardConfig : Dashboard.t) :
  EqualFold (Dashboard.Folder dashboardConfig) "General" = true →
  getDashboardFolderUID cfg dashboardConfig
  = Ok (match Config.FoldersMapping cfg !! "General" with
        | Some mapping => FolderMapping.UID mapping
        | None => ""
        end)
  ∧ ∀ (E : Environment) (client : ApiClient.t) (dsUID folderUID : string) (w : World),
      Forall (λ x, ∀ uid, importedFolderUID x.1 = Some uid → uid = "")
        (added w (provisionDashboard client dashboardConfig dsUID folderUID w).2).
Proof.
  intros Hgeneral. split.
  - unfold getDashboardFolderUID. rewrite Hgeneral.
    by destruct (Config.FoldersMapping cfg !! "General").
  - intros E client dsUID folderUID w.
    destruct (emits_added _ _ w (provisionDashboard_emits client dashboardConfig dsUID folderUID))
      as [_ HP].
    eapply Forall_impl; [exact HP|]. intros x [Hx|(request & Hx & _ & Huid)] uid.
    + by rewrite Hx.
    + rewrite Hx. unfold importedFolderUID. simpl. rewrite Huid, Hgeneral. congruence.
Qed.

Lemma general_folder_resolution_witness :
  EqualFold (Dashboard.Folder (latencyIn "gEnErAl")) "General" = true
  ∧ getDashboardFolderUID (mapped "General" "g1") (latencyIn "gEnErAl") = Ok "g1"
  ∧ getDashboardFolderUID (mapped "logs" "f3") (latencyIn "gEnErAl") = Ok "".
Proof.
  split; [reflexivity|]. split.
  - exact (proj1 (general_folder_resolution (mapped "General" "g1")
                    (latencyIn "gEnErAl") eq_refl)).
  - exact (proj1 (general_folder_resolution (mapped "logs" "f3")
                    (latencyIn "gEnErAl") eq_refl)).
Defined.

(** C7. An unconfigured folder fails closed: for a dashboard whose folder
    is not General (up to case) and is no key of the folder mapping, the
    resolution is an error whose text names the folder; the dashboard loop
    stops there with an error, and leaves the world exactly as the
    dashboards before it left it, so that no request at all, and no import,
    is made for that dashboard or for a later one. *)
Theorem unconfigured_folder_fails_closed (cfg : Config.t) (dashboardConfig : Dashboard.t) :
  EqualFold (Dashboard.Folder dashboardConfig) "General" = false →
  Config.FoldersMapping cfg !! Dashboard.Folder dashboardConfig = None →
  getDashboardFolderUID cfg dashboardConfig
  = Err (folderNotDefined (Dashboard.Folder dashboardConfig))
  ∧ contains (folderNotDefined (Dashboard.Folder dashboardConfig))
      (Dashboard.Folder dashboardConfig) = true
  ∧ ∀ (E : Environment) (GetDataSource : ApiClient.t → string → Prov DataSource.t)
      (client : ApiClient.t) (before after : list Dashboard.t) (w : World),
      Config.Dashboards cfg = before ++ dashboardConfig :: after →
      let out := provisionDashboards GetDataSource client cfg w in
      let reached := provisionDashboardsLoop GetDataSource client cfg before w in
      isOk out.1 = false
      ∧ out.2 = reached.2
      ∧ (isOk reached.1 = true →
         out.1 = Err (("dashboard folder validation failed for dashboard '"
                         +:+ Dashboard.Name dashboardConfig +:+ "': ")
                        +:+ folderNotDefined (Dashboard.Folder dashboardConfig))).
Proof.
  intros Hgeneral Hnone.
  assert (getDashboardFolderUID cfg dashboardConfig
          = Err (folderNotDefined (Dashboard.Folder dashboardConfig))) as Hres.
  { unfold getDashboardFolderUID. by rewrite Hgeneral, Hnone. }
  split_and!; [done|apply contains_append_mid|].
  intros E GetDataSource client before after w Hdash out reached.
  subst out reached. unfold provisionDashboards. rewrite Hdash. clear Hdash.
  revert w. induction before as [|d before IH]; intros w.
  - simpl. unfold mbind, prov_bind, liftResult. by rewrite Hres.
  - simpl. unfold mbind, prov_bind, liftResult, wrapErr.
    destruct (wrapResult _ (getDashboardFolderUID cfg d)) as [uid|e|pm]; [|done|done].
    destruct (GetDataSource client (Dashboard.DataSource d) w) as [[ds|e|pm] w1]; [|done|done].
    destruct (provisionDashboard client d (DataSource.UID ds) uid w1) as [[[]|e|pm] w2]; [|done|done].
    apply IH.
Qed.

Lemma unconfigured_folder_fails_closed_witness :
  EqualFold (Dashboard.Folder (latencyIn "payments")) "General" = false
  ∧ Config.FoldersMapping (mapped "logs" "f3") !! Dashboard.Folder (latencyIn "payments")
    = None
  ∧ getDashboardFolderUID (mapped "logs" "f3") (latencyIn "payments")
    = Err (folderNotDefined "payments").
Proof.
  split; [reflexivity|]. split; [reflexivity|].
  exact (proj1 (unconfigured_folder_fails_closed (mapped "logs" "f3")
                  (latencyIn "payments") eq_refl eq_refl)).
Defined.

(* ===================================================================== *)
(** * Two runs in sequence *)
(* ===================================================================== *)

(** C9. Two runs in sequence against a server that keeps names unique, for
    the two desired data sources named m and m_1 and a server that holds a
    record named m: the first run creates m_1 and takes the 409 met by the
    second data source for success; the second run then creates m_1_1, a
    data source the first run did not create.  The folder and dashboard
    steps have nothing to do, so this holds whatever [GetDataSource] and
    [CreateFolderIfNotExists] are. *)
Theorem second_run_creates_again
    (GetDataSource : ApiClient.t → string → Prov (H:=registry) DataSource.t)
    (CreateFolderIfNotExists : ApiClient.t → string → Prov (H:=registry) FolderResponse.t) :
  let run := RunProvisioning (H:=registry) GetDataSource CreateFolderIfNotExists twoSources in
  let first := run (startOn (E:=registry) holdsM) in
  let second := run (startOn (E:=registry) (server first.2)) in
  let createdBy (w : World (H:=registry)) :=
    omap (λ x, if succeeded x then createdName x.1 else None) (trace w) in
  first.1 = Ok tt
  ∧ second.1 = Ok tt
  ∧ createdBy first.2 = ["m_1"]
  ∧ createdBy second.2 = ["m_1_1"]
  ∧ map RawDataSource.Name (held (server first.2)) = ["m"; "m_1"]
  ∧ map RawDataSource.Name (held (server second.2)) = ["m"; "m_1"; "m_1_1"].
Proof. by vm_compute. Qed.

(* ===================================================================== *)
(** * More on the transport *)
(* ===================================================================== *)

Section Transport.
Context `{Environment}.

Lemma added_cons (w w1 w2 : World) (x : Request * Reply Body) :
  trace w1 = trace w ++ [x] → (∃ xs, trace w2 = trace w1 ++ xs) →
  added w w2 = x :: added w1 w2.
Proof.
  intros H1 [xs H2]. rewrite (added_app w1 w2 xs H2).
  apply added_app. by rewrite H2, H1, <- app_assoc.
Qed.

Lemma prefix_refl (p : string) : Stdlib.Strings.String.prefix p p = true.
Proof.
  induction p as [|c p IH]; [done|]. simpl. destruct (ascii_dec c c); [done|congruence].
Qed.

Lemma contains_refl (p : string) : contains p p = true.
Proof. by rewrite contains_unfold, prefix_refl. Qed.

(** An iteration whose request cannot be built is the last one, and sends
    nothing. *)
Lemma doRequestLoop_unbuilt (client : ApiClient.t) (req : Request) (attempts : nat) (i : Z)
    (lastErr : option string) (w : World) (err : string) :
  newRequestError (method req) (url req) = Some err →
  doRequestLoop client req (S attempts) i lastErr w
  = (Err ("failed to create request: " +:+ err), w).
Proof. intros Hnew. simpl. by rewrite Hnew. Qed.

(** One iteration of the loop of [doRequest] whose request is built: either
    it is the last one, or the loop goes on from the world the attempt
    left. *)
Lemma doRequestLoop_S (client : ApiClient.t) (req : Request) (attempts : nat) (i : Z)
    (lastErr : option string) (w : World) :
  newRequestError (method req) (url req) = None →
  let out := doRequestLoop client req (S attempts) i lastErr w in
  let x := (req, (exchange req w).1) in
  (¬ retried x ∧ added w out.2 = [x])
  ∨ (retried x
     ∧ ∃ e, out = doRequestLoop client req attempts (i + 1) (Some e) (exchange req w).2
            ∧ added w out.2 = x :: added (exchange req w).2 out.2).
Proof.
  intros Hnew. simpl. rewrite Hnew. pose proof (exchange_trace req w) as Hx.
  destruct (exchange req w) as [r w1]; simpl in *.
  assert (∀ e, added w (doRequestLoop client req attempts (i + 1) (Some e) w1).2
               = (req, r) :: added w1 (doRequestLoop client req attempts (i + 1) (Some e) w1).2)
    as Hgo.
  { intros e. apply added_cons; [done|].
    destruct (doRequestLoop_emits client req attempts (i + 1) (Some e) w1) as (xs & Hxs & _).
    by exists xs. }
  destruct r as [e|status e|status respBody].
  - right. split; [done|]. eexists. split; [reflexivity|apply Hgo].
  - left. split; [by intros []|]. simpl. by rewrite (added_app w w1 _ Hx).
  - unfold retried. simpl. destruct (is2xx status) eqn:H2xx.
    + left. split; [done|]. simpl. by rewrite (added_app w w1 _ Hx).
    + right. split; [done|]. eexists. split; [reflexivity|apply Hgo].
Qed.

Lemma doRequestLoop_length (client : ApiClient.t) (req : Request) (attempts : nat) (i : Z)
    (lastErr : option string) (w : World) :
  (length (added w (doRequestLoop client req attempts i lastErr w).2) ≤ attempts)%nat.
Proof.
  revert i lastErr w. induction attempts as [|attempts IH]; intros i lastErr w.
  - simpl. rewrite added_same. simpl. lia.
  - destruct (newRequestError (method req) (url req)) as [err|] eqn:Hnew.
    { rewrite (doRequestLoop_unbuilt _ _ _ _ _ _ err Hnew). simpl.
      rewrite added_same. simpl. lia. }
    destruct (doRequestLoop_S client req attempts i lastErr w Hnew)
      as [[_ ->]|(_ & e & Hout & ->)]; [simpl; lia|].
    rewrite Hout. cbn [length]. specialize (IH (i + 1) (Some e) (exchange req w).2). lia.
Qed.

Lemma doRequestLoop_retried (client : ApiClient.t) (req : Request) (attempts : nat) (i : Z)
    (lastErr : option string) (w : World) (pre : list (Request * Reply Body))
    (x : Request * Reply Body) :
  added w (doRequestLoop client req attempts i lastErr w).2 = pre ++ [x] →
  Forall retried pre.
Proof.
  revert i lastErr w pre. induction attempts as [|attempts IH]; intros i lastErr w pre.
  - simpl. rewrite added_same. by destruct pre.
  - destruct (newRequestError (method req) (url req)) as [err|] eqn:Hnew.
    { rewrite (doRequestLoop_unbuilt _ _ _ _ _ _ err Hnew). simpl.
      rewrite added_same. by destruct pre. }
    destruct (doRequestLoop_S client req attempts i lastErr w Hnew)
      as [[_ ->]|(Hre & e & Hout & ->)].
    + destruct pre as [|y [|z pre]]; [done|discriminate|discriminate].
    + rewrite Hout. destruct pre as [|y pre]; [done|].
      simpl. intros Heq. injection Heq as <- Heq. constructor; [done|].
      by apply (IH _ _ _ _ Heq).
Qed.

End Transport.

(** X1. The attempts of one [doRequest]: every attempt is made with the
    method and the URL of the call, and the first one with its payload;
    there are at most [Retries] of them, and every attempt but the last was
    answered by a transport error or by a status outside the 2xx range, so
    that nothing is sent after a success or after a body that could not be
    read.  When the request cannot be built the first iteration returns
    that error and nothing is sent; otherwise a client that has an attempt
    sends one. *)
Theorem doRequest_attempts `{Environment} (client : ApiClient.t) (method url : string)
    (body : option Payload) (w : World) :
  let out := doRequest client method url body w in
  let sent := added w out.2 in
  Forall (λ x, ∃ b, x.1 = mkRequest method url b) sent
  ∧ (sent ≠ [] → firstPayload sent = body)
  ∧ (length sent ≤ Z.to_nat (ApiClient.Retries client))%nat
  ∧ (∀ pre x, sent = pre ++ [x] → Forall retried pre)
  ∧ (∀ err, 0 < ApiClient.Retries client → newRequestError method url = Some err →
            out = (Err ("failed to create request: " +:+ err), w))
  ∧ (0 < ApiClient.Retries client → newRequestError method url = None → sent ≠ []).
Proof.
  intros out sent. subst sent out.
  destruct (emits_added _ _ w (doRequest_emits client method url body)) as [_ Hreq].
  split_and!.
  - eapply Forall_impl; [exact Hreq|]. intros x ->. by exists body.
  - destruct (added w _) as [|x sent]; [done|]. intros _.
    apply Forall_cons in Hreq as [Hx _]. simpl. by rewrite Hx.
  - apply doRequestLoop_length.
  - intros pre x. apply doRequestLoop_retried.
  - intros err Hpos Hnew. unfold doRequest.
    destruct (Z.to_nat (ApiClient.Retries client)) as [|attempts] eqn:Hn; [lia|].
    by apply doRequestLoop_unbuilt.
  - intros Hpos Hnew. apply doRequestLoop_sends; [lia|done].
Qed.

Lemma doRequest_attempts_witness :
  let twice := {| ApiClient.URL := "http://grafana:3000"; ApiClient.Token := "token";
                  ApiClient.Retries := 2 |} in
  let unparsed := {| ApiClient.URL := ":3000"; ApiClient.Token := "token";
                     ApiClient.Retries := 2 |} in
  let payload := Some (FolderPayload {| CreateFolderRequest.UID := "";
                                        CreateFolderRequest.Title := "logs" |}) in
  let w := startOn (E:=scripted)
             [Response 502 (WText "bad gateway"); Response 200 (WText "ok")] in
  let sent := added w (doRequest (H:=scripted) twice "POST"
                         "http://grafana:3000/api/folders" payload w).2 in
  length sent = 2%nat
  ∧ firstPayload (H:=scripted) sent = payload
  ∧ doRequest (H:=scripted) unparsed "POST" ":3000/api/folders" payload w
    = (Err ("failed to create request: "
              +:+ "parse :3000/api/folders: missing protocol scheme"), w).
Proof.
  intros twice unparsed payload w sent.
  destruct (doRequest_attempts (H:=scripted) twice "POST"
              "http://grafana:3000/api/folders" payload w)
    as (_ & Hfirst & _ & _ & _ & Hsome).
  destruct (doRequest_attempts (H:=scripted) unparsed "POST" ":3000/api/folders" payload w)
    as (_ & _ & _ & _ & Hunbuilt & _).
  split; [reflexivity|]. split.
  - apply Hfirst. apply Hsome; reflexivity.
  - apply Hunbuilt; reflexivity.
Defined.

(** X2. The request returns a body exactly when its last attempt was
    answered with a 2xx status, and the body is the one of that answer:
    failures of earlier attempts leave no mark on a success. *)
Theorem doRequest_ok_iff `{Environment} (client : ApiClient.t) (method url : string)
    (body : option Payload) (w : World) (respBody : Body) :
  let out := doRequest client method url body w in
  out.1 = Ok respBody ↔
  ∃ status, last (added w out.2) = Some (mkRequest method url body, Response status respBody)
            ∧ is2xx status = true.
Proof.
  intros out.
  pose proof (doRequestLoop_last client (mkRequest method url body)
                (Z.to_nat (ApiClient.Retries client)) 0 None w) as Hd.
  simpl in Hd. fold (doRequest client method url body w) in Hd. fold out in Hd.
  destruct (emits_added _ _ w (doRequest_emits client method url body)) as [_ Hreq].
  fold out in Hreq. split.
  - intros Hok. rewrite Hok in Hd.
    destruct (last (added w out.2)) as [[req r]|] eqn:Hlast; simpl in Hd;
      [|by destruct Hd as [Hd|(err & _ & Hd)]].
    rewrite Forall_forall in Hreq.
    pose proof (Hreq _ (last_Some_elem_of _ _ Hlast)) as Hr. simpl in Hr. subst req.
    destruct r as [e|status e|status b]; [by destruct Hd|done|].
    destruct (is2xx status) eqn:H2xx; [|by destruct Hd].
    injection Hd as ->. by exists status.
  - intros (status & Hlast & H2xx). rewrite Hlast in Hd. simpl in Hd.
    by rewrite H2xx in Hd.
Qed.

(** X3. A client whose [Retries] is zero or less sends nothing: every
    request fails at once, with the text of a nil last error, and the world
    is untouched. *)
Theorem doRequest_without_attempts `{Environment} (client : ApiClient.t)
    (method url : string) (body : option Payload) (w : World) :
  ApiClient.Retries client ≤ 0 →
  doRequest client method url body w
  = (Err ("failed to execute request after " +:+ itoa (ApiClient.Retries client)
            +:+ " attempts: %!w(<nil>)"), w).
Proof.
  intros Hle. unfold doRequest.
  by replace (Z.to_nat (ApiClient.Retries client)) with 0%nat by lia.
Qed.

Lemma doRequest_without_attempts_witness :
  let client := {| ApiClient.URL := "http://grafana:3000"; ApiClient.Token := "token";
                   ApiClient.Retries := 0 |} in
  ApiClient.Retries client ≤ 0
  ∧ doRequest (H:=scripted) client "GET" "http://grafana:3000/api/folders" None
      (startOn (E:=scripted) [Response 200 (WFolders [])])
    = (Err "failed to execute request after 0 attempts: %!w(<nil>)",
       startOn (E:=scripted) [Response 200 (WFolders [])]).
Proof.
  intros client. split; [simpl; lia|].
  apply (doRequest_without_attempts (H:=scripted) client). simpl. lia.
Defined.

(** X4. When the attempts are used up on an answer with a status outside
    the 2xx range, the error text carries the words Status and that status
    in decimal: this is the text the callers search for a conflict. *)
Theorem doRequest_error_names_status `{Environment} (client : ApiClient.t)
    (method url : string) (body : option Payload) (w : World)
    (req : Request) (status : Z) (respBody : Body) :
  let out := doRequest client method url body w in
  last (added w out.2) = Some (req, Response status respBody) →
  is2xx status = false →
  ∃ e, out.1 = Err e ∧ contains e ("Status " +:+ itoa status) = true
       ∧ contains e (bodyText respBody) = true.
Proof.
  intros out Hlast H2xx.
  pose proof (doRequestLoop_last client (mkRequest method url body)
                (Z.to_nat (ApiClient.Retries client)) 0 None w) as Hd.
  simpl in Hd. fold (doRequest client method url body w) in Hd. fold out in Hd.
  rewrite Hlast in Hd. simpl in Hd. rewrite H2xx in Hd. destruct Hd as [j Hj].
  eexists. split; [exact Hj|]. unfold exhausted, apiErrorMsg. split.
  - do 3 apply contains_append_r.
    change ("Grafana API error (Status " +:+ itoa status +:+ ") on attempt "
              +:+ itoa (j + 1) +:+ ": " +:+ bodyText respBody)
      with ("Grafana API error (" +:+ ("Status " +:+ itoa status) +:+ ") on attempt "
              +:+ itoa (j + 1) +:+ ": " +:+ bodyText respBody).
    apply contains_append_mid.
  - do 8 apply contains_append_r. apply contains_refl.
Qed.

Lemma doRequest_error_names_status_witness :
  let w := startOn (E:=scripted) [Response 503 (WText "starting up")] in
  let out := doRequest (H:=scripted) sampleClient "GET" "http://grafana:3000/api/folders" None w in
  ∃ e, out.1 = Err e ∧ contains e ("Status " +:+ itoa 503) = true.
Proof.
  intros w out.
  destruct (doRequest_error_names_status (H:=scripted) sampleClient "GET"
              "http://grafana:3000/api/folders" None w
              (mkRequest "GET" "http://grafana:3000/api/folders" None) 503
              (WText "starting up") eq_refl eq_refl) as (e & He & Hc & _).
  by exists e.
Defined.

(* ===================================================================== *)
(** * The readiness probe *)
(* ===================================================================== *)

Section Readiness.
Context `{Environment}.

Lemma waitLoop_emits (client : ApiClient.t) (attempts : nat) :
  emits (λ x, x.1 = healthRequest client) (waitLoop client attempts).
Proof.
  induction attempts as [|attempts IH]; intros w.
  - exists []. by rewrite app_nil_r.
  - simpl. destruct (newRequestError _ _) as [err|].
    { exists []. by rewrite app_nil_r. }
    pose proof (exchange_trace (healthRequest client) w) as Hx.
    unfold healthRequest in *.
    destruct (exchange _ w) as [r w1]; simpl in Hx.
    assert (∃ xs, trace (waitLoop client attempts w1).2 = trace w ++ xs
                  ∧ Forall (λ x, x.1 = mkRequest "GET" (ApiClient.URL client +:+ "/api/health") None) xs)
      as Hrec.
    { destruct (IH w1) as (xs & Hxs & HP). eexists (_ :: xs).
      rewrite Hxs, Hx, <- app_assoc. split; [done|]. by constructor. }
    assert (∃ xs, trace w1 = trace w ++ xs
                  ∧ Forall (λ x, x.1 = mkRequest "GET" (ApiClient.URL client +:+ "/api/health") None) xs)
      as Hstop.
    { eexists [_]. split; [exact Hx|]. by repeat constructor. }
    destruct r as [e|status e|status respBody]; [done| |];
      by destruct (bool_decide (status = 200)).
Qed.

(** A probe that cannot be built is a nil request in [HttpClient.Do]. *)
Lemma waitLoop_unbuilt (client : ApiClient.t) (attempts : nat) (w : World) (err : string) :
  newRequestError "GET" (ApiClient.URL client +:+ "/api/health") = Some err →
  waitLoop client (S attempts) w
  = (Panic "runtime error: invalid memory address or nil pointer dereference", w).
Proof. intros Hnew. simpl. by rewrite Hnew. Qed.

Lemma waitLoop_length (client : ApiClient.t) (attempts : nat) (w : World) :
  (length (added w (waitLoop client attempts w).2) ≤ attempts)%nat.
Proof.
  revert w. induction attempts as [|attempts IH]; intros w.
  - simpl. rewrite added_same. simpl. lia.
  - simpl. destruct (newRequestError _ _) as [err|].
    { simpl. rewrite added_same. simpl. lia. }
    pose proof (exchange_trace (healthRequest client) w) as Hx.
    unfold healthRequest in *.
    destruct (exchange _ w) as [r w1]; simpl in Hx.
    assert (length (added w (waitLoop client attempts w1).2) ≤ S attempts)%nat as Hgo.
    { rewrite (added_cons w w1 _ _ Hx).
      - simpl. specialize (IH w1). lia.
      - destruct (waitLoop_emits client attempts w1) as (xs & Hxs & _). by exists xs. }
    assert (length (added w w1) ≤ S attempts)%nat as Hstop.
    { rewrite (added_app w w1 _ Hx). simpl. lia. }
    destruct r as [e|status e|status respBody]; [done| |];
      by destruct (bool_decide (status = 200)).
Qed.

(** One iteration of the probe, when its request is built. *)
Lemma waitLoop_S (client : ApiClient.t) (attempts : nat) (w : World) :
  newRequestError "GET" (ApiClient.URL client +:+ "/api/health") = None →
  let out := waitLoop client (S attempts) w in
  let x := (healthRequest client, (exchange (healthRequest client) w).1) in
  (statusOf x.2 = Some 200 ∧ out.1 = Ok tt ∧ added w out.2 = [x])
  ∨ (statusOf x.2 ≠ Some 200
     ∧ out = waitLoop client attempts (exchange (healthRequest client) w).2
     ∧ added w out.2 = x :: added (exchange (healthRequest client) w).2 out.2).
Proof.
  intros Hnew. simpl. rewrite Hnew.
  pose proof (exchange_trace (healthRequest client) w) as Hx.
  unfold healthRequest in *.
  destruct (exchange _ w) as [r w1]; simpl in *.
  assert (added w (waitLoop client attempts w1).2
          = (mkRequest "GET" (ApiClient.URL client +:+ "/api/health") None, r)
              :: added w1 (waitLoop client attempts w1).2) as Hgo.
  { apply added_cons; [done|].
    destruct (waitLoop_emits client attempts w1) as (xs & Hxs & _). by exists xs. }
  destruct r as [e|status e|status respBody]; simpl.
  - right. by split.
  - case_bool_decide as Hs.
    + left. subst status. split_and!; [done|done|]. simpl. by rewrite (added_app w w1 _ Hx).
    + right. split; [congruence|done].
  - case_bool_decide as Hs.
    + left. subst status. split_and!; [done|done|]. simpl. by rewrite (added_app w w1 _ Hx).
    + right. split; [congruence|done].
Qed.

Lemma waitLoop_spec (client : ApiClient.t) (attempts : nat) (w : World) :
  newRequestError "GET" (ApiClient.URL client +:+ "/api/health") = None →
  let out := waitLoop client attempts w in
  let sent := added w out.2 in
  (length sent ≤ attempts)%nat
  ∧ (∀ pre x, sent = pre ++ [x] → Forall (λ y, statusOf y.2 ≠ Some 200) pre)
  ∧ ((out.1 = Ok tt ∧ ∃ x, last sent = Some x ∧ statusOf x.2 = Some 200)
     ∨ (out.1 = Err ("failed to reach Grafana API after "
                       +:+ itoa (ApiClient.Retries client) +:+ " attempts")
        ∧ length sent = attempts
        ∧ Forall (λ y, statusOf y.2 ≠ Some 200) sent)).
Proof.
  intros Hnew. revert w. induction attempts as [|attempts IH]; intros w.
  - simpl. rewrite added_same. split_and!; [done|by intros []|]. right. by split_and!.
  - destruct (waitLoop_S client attempts w Hnew)
      as [(H200 & Hok & Hsent)|(Hnot & Hout & Hsent)]; cbv zeta; rewrite Hsent.
    + split_and!; [simpl; lia| |].
      * intros [|y [|z pre]] x Heq; [done|discriminate|discriminate].
      * left. split; [done|]. by eexists.
    + rewrite Hout.
      destruct (IH (exchange (healthRequest client) w).2) as (Hlen & Hpre & Hres).
      split_and!; [simpl; lia| |].
      * intros [|y pre] x Heq; [done|]. injection Heq as <- Heq.
        constructor; [done|]. by apply (Hpre _ _ Heq).
      * destruct Hres as [[Hok (x & Hlast & H200)]|(Herr & Hn & Hall)].
        -- left. split; [done|]. exists x. split; [|done].
           rewrite last_cons. by rewrite Hlast.
        -- right. split_and!; [done|simpl; lia|by constructor].
Qed.

End Readiness.

(** X5. The readiness probe: it sends GET /api/health at most [Retries]
    times.  When the probe can be built, it succeeds exactly when its last
    probe was answered with status 200 (any other status, 2xx or not, is
    not ready), no probe follows such an answer, and otherwise it fails
    after exactly [Retries] probes with the text that counts them.  When
    the probe cannot be built (the URL of the client does not parse), the
    error of [http.NewRequest] is dropped and the first iteration panics on
    the nil request, nothing having been sent. *)
Theorem waitForGrafanaAPI_ready `{Environment} (client : ApiClient.t) (w : World) :
  let out := waitForGrafanaAPI client w in
  let sent := added w out.2 in
  Forall (λ x, x.1 = healthRequest client) sent
  ∧ (length sent ≤ Z.to_nat (ApiClient.Retries client))%nat
  ∧ (newRequestError "GET" (ApiClient.URL client +:+ "/api/health") = None →
     (∀ pre x, sent = pre ++ [x] → Forall (λ y, statusOf y.2 ≠ Some 200) pre)
     ∧ (out.1 = Ok tt ↔ ∃ x, last sent = Some x ∧ statusOf x.2 = Some 200)
     ∧ (out.1 ≠ Ok tt →
        out.1 = Err ("failed to reach Grafana API after "
                       +:+ itoa (ApiClient.Retries client) +:+ " attempts")
        ∧ length sent = Z.to_nat (ApiClient.Retries client)))
  ∧ (∀ err, newRequestError "GET" (ApiClient.URL client +:+ "/api/health") = Some err →
            0 < ApiClient.Retries client →
            out = (Panic "runtime error: invalid memory address or nil pointer dereference",
                   w)).
Proof.
  intros out sent. subst out sent. unfold waitForGrafanaAPI.
  split_and!.
  - apply (emits_added _ _ w (waitLoop_emits client _)).
  - apply waitLoop_length.
  - intros Hnew.
    destruct (waitLoop_spec client (Z.to_nat (ApiClient.Retries client)) w Hnew)
      as (Hlen & Hpre & Hres).
    split_and!; [done| |].
    + split.
      * intros Hok. destruct Hres as [[_ Hx]|(Herr & _)]; [done|congruence].
      * intros (x & Hlast & H200). destruct Hres as [[Hok _]|(_ & _ & Hall)]; [done|].
        rewrite Forall_forall in Hall.
        by destruct (Hall x (last_Some_elem_of _ _ Hlast)).
    + intros Hno. destruct Hres as [[Hok _]|(Herr & Hn & _)]; [done|by split].
  - intros err Hnew Hpos.
    destruct (Z.to_nat (ApiClient.Retries client)) as [|attempts] eqn:Hn; [lia|].
    by apply (waitLoop_unbuilt client attempts w err).
Qed.

Lemma waitForGrafanaAPI_ready_witness :
  let unparsed := {| ApiClient.URL := ":3000"; ApiClient.Token := "token";
                     ApiClient.Retries := 3 |} in
  let w := startOn (E:=scripted) [Response 204 (WText "no content")] in
  (waitForGrafanaAPI (H:=scripted) sampleClient w).1
  = Err "failed to reach Grafana API after 1 attempts"
  ∧ length (added w (waitForGrafanaAPI (H:=scripted) sampleClient w).2) = 1%nat
  ∧ waitForGrafanaAPI (H:=scripted) unparsed w
    = (Panic "runtime error: invalid memory address or nil pointer dereference", w).
Proof.
  intros unparsed w.
  destruct (waitForGrafanaAPI_ready (H:=scripted) sampleClient w)
    as (_ & _ & Hbuilt & _).
  destruct (Hbuilt eq_refl) as (_ & _ & Hfail).
  destruct Hfail as [Herr Hlen]; [discriminate|].
  split; [exact Herr|]. split; [exact Hlen|].
  destruct (waitForGrafanaAPI_ready (H:=scripted) unparsed w) as (_ & _ & _ & Hunbuilt).
  apply (Hunbuilt ("parse " +:+ ":3000/api/health" +:+ ": missing protocol scheme")).
  - reflexivity.
  - reflexivity.
Defined.

(** X6. Nothing is provisioned before the API is ready: when the probe can
    be built and no probe of the run is answered with status 200, the run
    fails with the readiness error, and all it has sent is its [Retries]
    probes; [Retries] is the one of the configuration, or 3 when that one
    is negative.  When the probe cannot be built and the client has an
    attempt, the run panics in its first probe and nothing is sent. *)
Theorem RunProvisioning_waits `{Environment}
    (GetDataSource : ApiClient.t → string → Prov DataSource.t)
    (CreateFolderIfNotExists : ApiClient.t → string → Prov FolderResponse.t)
    (cfg : Config.t) (w : World) :
  let client := NewClient (Config.Grafana cfg) in
  let retries := if bool_decide (ClientParams.Retries (Config.Grafana cfg) < 0) then 3
                 else ClientParams.Retries (Config.Grafana cfg) in
  let out := RunProvisioning GetDataSource CreateFolderIfNotExists cfg w in
  (newRequestError "GET" (ApiClient.URL client +:+ "/api/health") = None →
   Forall (λ y, statusOf y.2 ≠ Some 200) (added w (waitForGrafanaAPI client w).2) →
   out.1 = Err ("grafana API did not become available: "
                  +:+ "failed to reach Grafana API after " +:+ itoa retries +:+ " attempts")
   ∧ Forall (λ x, x.1 = healthRequest client) (added w out.2)
   ∧ length (added w out.2) = Z.to_nat retries)
  ∧ (∀ err, newRequestError "GET" (ApiClient.URL client +:+ "/api/health") = Some err →
            0 < retries →
            out = (Panic "runtime error: invalid memory address or nil pointer dereference",
                   w)).
Proof.
  intros client retries out.
  assert (ApiClient.Retries client = retries) as Hretries by done.
  split.
  - intros Hnew Hnever.
    destruct (emits_added _ _ w (waitLoop_emits client (Z.to_nat (ApiClient.Retries client))))
      as [_ Hreq].
    destruct (waitLoop_spec client (Z.to_nat (ApiClient.Retries client)) w Hnew)
      as (_ & _ & Hres).
    fold (waitForGrafanaAPI client) in Hreq, Hres. fold (waitForGrafanaAPI client w) in Hres.
    destruct Hres as [[_ (x & Hlast & H200)]|(Herr & Hlen & _)].
    { rewrite Forall_forall in Hnever.
      by destruct (Hnever x (last_Some_elem_of _ _ Hlast)). }
    rewrite Hretries in Herr, Hlen.
    assert (out = (Err ("grafana API did not become available: "
                          +:+ "failed to reach Grafana API after " +:+ itoa retries
                          +:+ " attempts"), (waitForGrafanaAPI client w).2)) as ->.
    { subst out. unfold RunProvisioning, mbind, prov_bind, wrapErr. fold client.
      destruct (waitForGrafanaAPI client w) as [r w1]. simpl in Herr. by subst r. }
    by split_and!.
  - intros err Hnew Hpos. rewrite <- Hretries in Hpos.
    subst out. unfold RunProvisioning, mbind, prov_bind, wrapErr. fold client.
    unfold waitForGrafanaAPI.
    destruct (Z.to_nat (ApiClient.Retries client)) as [|attempts] eqn:Hn; [lia|].
    by rewrite (waitLoop_unbuilt client attempts w err Hnew).
Qed.

Lemma RunProvisioning_waits_witness :
  let w := startOn (E:=scripted) [Response 204 (WText "no content")] in
  let out :=
    RunProvisioning (H:=scripted) (λ _ _, fail "unused") (λ _ _, fail "unused") twoSources w in
  out.1 = Err "grafana API did not become available: failed to reach Grafana API after 1 attempts"
  ∧ length (added w out.2) = 1%nat.
Proof.
  intros w out.
  destruct (RunProvisioning_waits (H:=scripted) (λ _ _, fail "unused")
              (λ _ _, fail "unused") twoSources w) as [Hbuilt _].
  destruct Hbuilt as (Herr & _ & Hlen).
  - reflexivity.
  - vm_compute. constructor; [discriminate|constructor].
  - split; [exact Herr|exact Hlen].
Defined.

Lemma dashboardMatches_true (name folder : string) (result : DashboardSearchResponse.t) :
  dashboardMatches name folder result = true ↔
  DashboardSearchResponse.Type_ result = "dash-db"
  ∧ DashboardSearchResponse.Title result = name
  ∧ folderMatches folder result.
Proof.
  unfold dashboardMatches, folderMatches.
  destruct (bool_decide (DashboardSearchResponse.Type_ result = "dash-db")) eqn:Ht; simpl.
  2: { apply bool_decide_eq_false in Ht. split; [done|]. by intros [? _]. }
  apply bool_decide_eq_true in Ht.
  destruct (bool_decide (DashboardSearchResponse.Title result = name)) eqn:Hn.
  2: { apply bool_decide_eq_false in Hn. split; [done|]. by intros (_ & ? & _). }
  apply bool_decide_eq_true in Hn.
  rewrite orb_true_iff, andb_true_iff, orb_true_iff, !bool_decide_eq_true.
  tauto.
Qed.

(** X7. The search for an earlier import of a dashboard: given the index
    the server returned, the result is the first entry that is a dashboard
    (type dash-db, so never a folder), has the title looked for, and is in
    the folder looked for (for General: also an empty folder title, or
    General in any case); when no entry is such, the result is the zero
    entry, with id 0 and empty UID, and that is no error. *)
Theorem FindFirstDashboardByFolderAndName_first `{Environment} (client : ApiClient.t)
    (name folder : string) (w w' : World) (searchResults : list DashboardSearchResponse.t) :
  SearchDashboards client w = (Ok searchResults, w') →
  ∃ found,
    FindFirstDashboardByFolderAndName client name folder w = (Ok found, w')
    ∧ ((found = noDashboard
        ∧ Forall (λ entry, dashboardMatches name folder entry = false) searchResults)
       ∨ (∃ pre post,
            searchResults = pre ++ found :: post
            ∧ Forall (λ entry, dashboardMatches name folder entry = false) pre
            ∧ DashboardSearchResponse.Type_ found = "dash-db"
            ∧ DashboardSearchResponse.Title found = name
            ∧ folderMatches folder found)).
Proof.
  intros Hsearch.
  unfold FindFirstDashboardByFolderAndName, mbind, prov_bind, wrapErr, mret, prov_ret.
  rewrite Hsearch.
  destruct (find (dashboardMatches name folder) searchResults) as [found|] eqn:Hfind.
  - exists found. split; [done|]. right.
    destruct (find_first (dashboardMatches name folder) searchResults)
      as (pre & a & post & Hl & Hpre & Ha & Hfind').
    { apply find_some in Hfind as [Hin Hm]. exists found. split; [|done].
      by apply list_elem_of_In. }
    rewrite Hfind in Hfind'. injection Hfind' as <-.
    exists pre, post. apply dashboardMatches_true in Ha as (Ht & Hn & Hf). by split_and!.
  - exists noDashboard. split; [done|]. left. split; [done|].
    apply Forall_forall. intros entry Hin.
    apply list_elem_of_In in Hin. by apply (find_none _ _ Hfind).
Qed.

Lemma FindFirstDashboardByFolderAndName_first_witness :
  let inGeneral :=
    {| DashboardSearchResponse.ID := 12; DashboardSearchResponse.UID := "abc";
       DashboardSearchResponse.Title := "Latency"; DashboardSearchResponse.Type_ := "dash-db";
       DashboardSearchResponse.FolderID := 0; DashboardSearchResponse.FolderUID := "";
       DashboardSearchResponse.FolderTitle := "" |} in
  let folder :=
    {| DashboardSearchResponse.ID := 4; DashboardSearchResponse.UID := "fld";
       DashboardSearchResponse.Title := "Latency"; DashboardSearchResponse.Type_ := "dash-folder";
       DashboardSearchResponse.FolderID := 0; DashboardSearchResponse.FolderUID := "";
       DashboardSearchResponse.FolderTitle := "" |} in
  let w := startOn (E:=scripted) [Response 200 (WSearch [folder; inGeneral])] in
  ∃ found w',
    FindFirstDashboardByFolderAndName (H:=scripted) sampleClient "Latency" "general" w
    = (Ok found, w')
    ∧ (found = noDashboard ∨ DashboardSearchResponse.Type_ found = "dash-db").
Proof.
  intros inGeneral folder w.
  destruct (FindFirstDashboardByFolderAndName_first (H:=scripted) sampleClient
              "Latency" "general" w
              (SearchDashboards (H:=scripted) sampleClient w).2 [folder; inGeneral] eq_refl)
    as (found & Hrun & [[Hzero _]|(pre & post & _ & _ & Htype & _)]).
  - exists found, (SearchDashboards (H:=scripted) sampleClient w).2. by split; [|left].
  - exists found, (SearchDashboards (H:=scripted) sampleClient w).2. by split; [|right].
Defined.

Lemma processInput_declared (inputValues : gmap string string) (input : JSON) :
  match processInput inputValues input with
  | Some processed => declaredName processed = declaredName input
                      ∧ is_Some (declaredName input)
  | None => declaredName input = None
  end.
Proof.
  pose proof (processInput_spec inputValues input) as Hspec.
  destruct (declaredName input) as [name|] eqn:Hname.
  - destruct Hspec as (inputMap & processedMap & -> & Hn & -> & Hkeys & _).
    split; [|by eexists]. simpl. rewrite Hkeys by done. by rewrite Hn.
  - by rewrite Hspec.
Qed.

Lemma processInput_fixed (inputValues : gmap string string) (input processed : JSON) :
  processInput inputValues input = Some processed →
  processInput inputValues processed = Some processed.
Proof.
  destruct input as [| | | | | |inputMap]; try done. simpl.
  destruct (inputMap !! "name") as [[| | | |name| |]|] eqn:Hname; try done.
  destruct (inputValues !! name) as [uid|] eqn:Huid.
  - intros [= <-]. simpl. rewrite lookup_insert_ne, Hname, Huid by done.
    by rewrite insert_insert_eq.
  - destruct (inputMap !! "value") as [currentValue|] eqn:Hvalue.
    + intros [= <-]. simpl. rewrite lookup_insert_ne, Hname, Huid by done.
      by rewrite lookup_insert_eq, insert_insert_eq.
    + intros [= <-]. simpl. by rewrite Hname, Huid, Hvalue.
Qed.

Lemma processInput_empty (input : JSON) :
  processInput ∅ input = if decide (is_Some (declaredName input)) then Some input else None.
Proof.
  destruct input as [| | | | | |inputMap]; try done. simpl.
  destruct (inputMap !! "name") as [[| | | |name| |]|] eqn:Hname; try done.
  rewrite lookup_empty.
  destruct (inputMap !! "value") as [currentValue|] eqn:Hvalue; [|done].
  by rewrite insert_id.
Qed.

(** X8. Substitution is idempotent: processing the processed inputs again,
    with the same substitution set, changes nothing. *)
Theorem processInputs_idempotent (inputs : list JSON) (inputValues : gmap string string) :
  processInputs (processInputs inputs inputValues) inputValues
  = processInputs inputs inputValues.
Proof.
  rewrite !processInputs_omap.
  induction inputs as [|input inputs IH]; [done|]. csimpl.
  destruct (processInput inputValues input) as [processed|] eqn:Hp; [|done].
  csimpl. by rewrite (processInput_fixed _ _ _ Hp), IH.
Qed.

(** X9. With an empty substitution set the well-formed entries pass through
    as they are, in order, and the other entries are dropped: an entry is
    only ever touched through a mapping for its name. *)
Theorem processInputs_without_mapping (inputs : list JSON) :
  processInputs inputs ∅ = filter (λ input, is_Some (declaredName input)) inputs.
Proof.
  rewrite processInputs_omap.
  induction inputs as [|input inputs IH]; [done|].
  rewrite filter_cons. csimpl. rewrite processInput_empty, IH.
  by destruct (decide (is_Some (declaredName input))).
Qed.

(** The inputs returned are the well-formed entries of the slice as the call
    leaves it. *)
Lemma processInputs_inputsAfter (inputs : list JSON) (inputValues : gmap string string) :
  processInputs inputs inputValues
  = filter (λ input, is_Some (declaredName input)) (inputsAfter inputs inputValues).
Proof.
  rewrite processInputs_omap. unfold inputsAfter.
  induction inputs as [|input inputs IH]; [done|].
  csimpl. rewrite filter_cons, IH.
  pose proof (processInput_declared inputValues input) as Hd.
  destruct (processInput inputValues input) as [processed|]; simpl.
  - destruct Hd as [-> Hsome]. by destruct (decide _).
  - rewrite Hd. by destruct (decide (is_Some None)) as [[? ?]|].
Qed.

Section DashboardImport.
Context `{Environment}.

(** What [provisionDashboard] submits once the file is read and the index
    searched. *)
Lemma provisionDashboard_request (client : ApiClient.t) (cfg : Dashboard.t)
    (dsUID folderUID data : string) (rawDashboard : DashboardJSON)
    (existingDashboard : DashboardSearchResponse.t) (w w1 : World) :
  readFile (Dashboard.File cfg) = Ok data →
  unmarshalDashboard data = Ok (Some rawDashboard) →
  FindFirstDashboardByFolderAndName client (Dashboard.Name cfg) (Dashboard.Folder cfg) w
  = (Ok existingDashboard, w1) →
  ∃ request,
    provisionDashboard client cfg dsUID folderUID w = ImportDashboard client request w1
    ∧ DashboardImportRequest.Dashboard request !! "title" = Some (JString (Dashboard.Name cfg))
    ∧ DashboardImportRequest.Dashboard request !! "id"
      = Some (JInt (DashboardSearchResponse.ID existingDashboard))
    ∧ DashboardImportRequest.Dashboard request !! "uid"
      = Some (JString (DashboardSearchResponse.UID existingDashboard))
    ∧ (∀ key, key ≠ "title" → key ≠ "id" → key ≠ "uid" → key ≠ "__inputs" →
         DashboardImportRequest.Dashboard request !! key = rawDashboard !! key)
    ∧ DashboardImportRequest.FolderUID request
      = (if EqualFold (Dashboard.Folder cfg) "General" then "" else folderUID)
    ∧ DashboardImportRequest.Overwrite request = true
    ∧ DashboardImportRequest.Message request = "Automated provisioning by grafana-provisioner"
    ∧ DashboardImportRequest.Inputs request
      = match DashboardImportRequest.Dashboard request !! "__inputs" with
        | Some (JArray entries) => filter (λ input, is_Some (declaredName input)) entries
        | _ => []
        end.
Proof.
  intros Hread Hparse Hfind.
  unfold provisionDashboard, mbind, prov_bind, liftResult, wrapErr.
  rewrite Hread. cbn [wrapResult]. rewrite Hparse. cbn [wrapResult]. rewrite Hfind.
  cbv iota.
  match goal with
  | |- context [match ?doc !! "__inputs" with _ => _ end] =>
      destruct (doc !! "__inputs") as [[| | | | |inputsSlice|]|] eqn:Hinputs
  end;
    (eexists; split; [reflexivity|]; simpl;
     split_and!; [by simplify_map_eq|by simplify_map_eq|by simplify_map_eq
                 |by intros; simplify_map_eq|done|done|done|]).
  all: try by rewrite Hinputs.
  rewrite lookup_insert_eq. apply processInputs_inputsAfter.
Qed.

(** A file that holds the document [null] decodes without an error to a
    nil map: the assignment of the title panics, after the search. *)
Lemma provisionDashboard_nil (client : ApiClient.t) (cfg : Dashboard.t)
    (dsUID folderUID data : string)
    (existingDashboard : DashboardSearchResponse.t) (w w1 : World) :
  readFile (Dashboard.File cfg) = Ok data →
  unmarshalDashboard data = Ok None →
  FindFirstDashboardByFolderAndName client (Dashboard.Name cfg) (Dashboard.Folder cfg) w
  = (Ok existingDashboard, w1) →
  provisionDashboard client cfg dsUID folderUID w
  = (Panic "assignment to entry in nil map", w1).
Proof.
  intros Hread Hparse Hfind.
  unfold provisionDashboard, mbind, prov_bind, liftResult, wrapErr.
  rewrite Hread. cbn [wrapResult]. rewrite Hparse. cbn [wrapResult]. by rewrite Hfind.
Qed.

End DashboardImport.

Section DashboardSends.
Context `{Environment}.

Lemma doRequest_ok_last (client : ApiClient.t) (method url : string)
    (body : option Payload) (w : World) (respBody : Body) :
  (doRequest client method url body w).1 = Ok respBody →
  ∃ x, last (added w (doRequest client method url body w).2) = Some x
       ∧ succeeded x = true.
Proof.
  intros Hok.
  pose proof (doRequestLoop_last client (mkRequest method url body)
                (Z.to_nat (ApiClient.Retries client)) 0 None w) as Hd.
  simpl in Hd. fold (doRequest client method url body w) in Hd. rewrite Hok in Hd.
  destruct (last _) as [[req r]|]; simpl in Hd;
    [|by destruct Hd as [Hd|(err & _ & Hd)]].
  exists (req, r). split; [done|].
  destruct r as [e|status e|status b]; [by destruct Hd|done|].
  unfold succeeded. simpl. destruct (is2xx status); [done|by destruct Hd].
Qed.

Lemma FindFirstDashboardByFolderAndName_world (client : ApiClient.t)
    (name folder : string) (w : World) :
  (FindFirstDashboardByFolderAndName client name folder w).2
  = (doRequest client "GET" (ApiClient.URL client +:+ "/api/search") None w).2
  ∧ (isOk (FindFirstDashboardByFolderAndName client name folder w).1 = true →
     ∃ respBody,
       (doRequest client "GET" (ApiClient.URL client +:+ "/api/search") None w).1
       = Ok respBody).
Proof.
  unfold FindFirstDashboardByFolderAndName, SearchDashboards, mbind, prov_bind,
    wrapErr, liftResult, mret, prov_ret.
  destruct (doRequest _ _ _ _ w) as [[respBody|e|pm] w1]; simpl.
  - destruct (wrapResult _ _); simpl; [|done|done]. split; [done|]. by eexists.
  - done.
  - done.
Qed.

End DashboardSends.

(** X10. The identity of a dashboard across runs: once the file is read
    and the index searched, a file that decodes to a document is imported
    as that document with its title set to the configured name and its id
    and uid set to those of the entry the search returned (0 and the empty
    UID when it found none); every other key of the decoded document but
    __inputs goes out with the value it decoded to.  A file that holds the
    document null decodes, without an error, to a nil map: the run panics
    on the assignment of the title, after the search, and imports
    nothing. *)
Theorem dashboard_identity_is_reused `{Environment} (client : ApiClient.t)
    (cfg : Dashboard.t) (dsUID folderUID data : string)
    (existingDashboard : DashboardSearchResponse.t) (w w1 : World) :
  readFile (Dashboard.File cfg) = Ok data →
  FindFirstDashboardByFolderAndName client (Dashboard.Name cfg) (Dashboard.Folder cfg) w
  = (Ok existingDashboard, w1) →
  (∀ rawDashboard : DashboardJSON,
     unmarshalDashboard data = Ok (Some rawDashboard) →
     ∃ request,
       provisionDashboard client cfg dsUID folderUID w = ImportDashboard client request w1
       ∧ DashboardImportRequest.Dashboard request !! "title"
         = Some (JString (Dashboard.Name cfg))
       ∧ DashboardImportRequest.Dashboard request !! "id"
         = Some (JInt (DashboardSearchResponse.ID existingDashboard))
       ∧ DashboardImportRequest.Dashboard request !! "uid"
         = Some (JString (DashboardSearchResponse.UID existingDashboard))
       ∧ (∀ key, key ≠ "title" → key ≠ "id" → key ≠ "uid" → key ≠ "__inputs" →
            DashboardImportRequest.Dashboard request !! key = rawDashboard !! key))
  ∧ (unmarshalDashboard data = Ok None →
     provisionDashboard client cfg dsUID folderUID w
     = (Panic "assignment to entry in nil map", w1)).
Proof.
  intros Hread Hfind. split.
  - intros rawDashboard Hparse.
    destruct (provisionDashboard_request client cfg dsUID folderUID data rawDashboard
                existingDashboard w w1 Hread Hparse Hfind)
      as (request & Hrun & Htitle & Hid & Huid & Hkeys & _).
    by exists request.
  - intros Hparse. by apply (provisionDashboard_nil client cfg dsUID folderUID data
                               existingDashboard w w1).
Qed.

Lemma dashboard_identity_is_reused_witness :
  let existing :=
    {| DashboardSearchResponse.ID := 12; DashboardSearchResponse.UID := "abc";
       DashboardSearchResponse.Title := "Latency"; DashboardSearchResponse.Type_ := "dash-db";
       DashboardSearchResponse.FolderID := 5; DashboardSearchResponse.FolderUID := "f3";
       DashboardSearchResponse.FolderTitle := "logs" |} in
  let w := startOn (E:=scripted) [Response 200 (WSearch [existing]); Response 200 (WText "ok")] in
  let nullFile :=
    {| Dashboard.Name := "Latency"; Dashboard.Folder := "logs";
       Dashboard.File := "null.json"; Dashboard.DataSource := "m";
       Dashboard.ImportVar := "DS_A"; Dashboard.Imports := [] |} in
  (∃ request w1,
     provisionDashboard (H:=scripted) sampleClient (latencyIn "logs") "uidA" "f3" w
     = ImportDashboard (H:=scripted) sampleClient request w1
     ∧ DashboardImportRequest.Dashboard request !! "id" = Some (JInt 12)
     ∧ DashboardImportRequest.Dashboard request !! "uid" = Some (JString "abc"))
  ∧ (provisionDashboard (H:=scripted) sampleClient nullFile "uidA" "f3" w).1
    = Panic "assignment to entry in nil map"
  ∧ map fst (added w (provisionDashboard (H:=scripted) sampleClient nullFile "uidA" "f3" w).2)
    = [searchRequest sampleClient].
Proof.
  intros existing w nullFile. split.
  - destruct (dashboard_identity_is_reused (H:=scripted) sampleClient (latencyIn "logs")
                "uidA" "f3" "sample" existing w
                (FindFirstDashboardByFolderAndName (H:=scripted) sampleClient
                   "Latency" "logs" w).2 eq_refl eq_refl) as [Hdoc _].
    destruct (Hdoc sampleDashboard eq_refl) as (request & Hrun & _ & Hid & Huid & _).
    exists request. eexists. split; [exact Hrun|]. split; [exact Hid|exact Huid].
  - destruct (dashboard_identity_is_reused (H:=scripted) sampleClient nullFile
                "uidA" "f3" "null" existing w
                (FindFirstDashboardByFolderAndName (H:=scripted) sampleClient
                   "Latency" "logs" w).2 eq_refl eq_refl) as [_ Hnil].
    rewrite (Hnil eq_refl). split; reflexivity.
Defined.

(** X11. What [provisionDashboard] sends: first its attempts at the search,
    then its attempts at the import, which are POSTs to the import
    endpoint, and an import only after a search that succeeded.  The first
    attempt at the import sends the payload: it asks for an overwrite,
    carries the fixed message and the configured name as title, and its
    inputs are exactly the well-formed entries of the __inputs of the
    document it carries. *)
Theorem provisionDashboard_sends `{Environment} (client : ApiClient.t) (cfg : Dashboard.t)
    (dsUID folderUID : string) (w : World) :
  let sent := added w (provisionDashboard client cfg dsUID folderUID w).2 in
  ∃ searches imports,
    sent = searches ++ imports
    ∧ Forall (λ x, x.1 = searchRequest client) searches
    ∧ Forall (λ x, ∃ b, x.1 = mkRequest "POST"
                                 (ApiClient.URL client +:+ "/api/dashboards/import") b)
        imports
    ∧ (imports ≠ [] →
       ∃ request,
         firstPayload imports = Some (ImportPayload request)
         ∧ DashboardImportRequest.Overwrite request = true
         ∧ DashboardImportRequest.Message request
           = "Automated provisioning by grafana-provisioner"
         ∧ DashboardImportRequest.Dashboard request !! "title"
           = Some (JString (Dashboard.Name cfg))
         ∧ DashboardImportRequest.Inputs request
           = match DashboardImportRequest.Dashboard request !! "__inputs" with
             | Some (JArray entries) =>
                 filter (λ input, is_Some (declaredName input)) entries
             | _ => []
             end)
    ∧ (imports ≠ [] → ∃ x, last searches = Some x ∧ succeeded x = true).
Proof.
  intros sent. subst sent.
  set (run := provisionDashboard client cfg dsUID folderUID w).
  assert (run.2 = w →
    ∃ searches imports : list (Request * Reply Body),
      added w run.2 = searches ++ imports
      ∧ Forall (λ x, x.1 = searchRequest client) searches
      ∧ Forall (λ x, ∃ b, x.1 = mkRequest "POST"
                                   (ApiClient.URL client +:+ "/api/dashboards/import") b)
          imports
      ∧ (imports ≠ [] →
         ∃ request,
           firstPayload imports = Some (ImportPayload request)
           ∧ DashboardImportRequest.Overwrite request = true
           ∧ DashboardImportRequest.Message request
             = "Automated provisioning by grafana-provisioner"
           ∧ DashboardImportRequest.Dashboard request !! "title"
             = Some (JString (Dashboard.Name cfg))
           ∧ DashboardImportRequest.Inputs request
             = match DashboardImportRequest.Dashboard request !! "__inputs" with
               | Some (JArray entries) =>
                   filter (λ input, is_Some (declaredName input)) entries
               | _ => []
               end)
      ∧ (imports ≠ [] → ∃ x, last searches = Some x ∧ succeeded x = true)) as Hnothing.
  { intros ->. exists [], []. simpl. rewrite added_same. by split_and!. }
  assert (∀ w1, run.2 = w1 →
    Forall (λ x, x.1 = searchRequest client) (added w w1) →
    ∃ searches imports : list (Request * Reply Body),
      added w run.2 = searches ++ imports
      ∧ Forall (λ x, x.1 = searchRequest client) searches
      ∧ Forall (λ x, ∃ b, x.1 = mkRequest "POST"
                                   (ApiClient.URL client +:+ "/api/dashboards/import") b)
          imports
      ∧ (imports ≠ [] →
         ∃ request,
           firstPayload imports = Some (ImportPayload request)
           ∧ DashboardImportRequest.Overwrite request = true
           ∧ DashboardImportRequest.Message request
             = "Automated provisioning by grafana-provisioner"
           ∧ DashboardImportRequest.Dashboard request !! "title"
             = Some (JString (Dashboard.Name cfg))
           ∧ DashboardImportRequest.Inputs request
             = match DashboardImportRequest.Dashboard request !! "__inputs" with
               | Some (JArray entries) =>
                   filter (λ input, is_Some (declaredName input)) entries
               | _ => []
               end)
      ∧ (imports ≠ [] → ∃ x, last searches = Some x ∧ succeeded x = true)) as Hsearched.
  { intros w1 -> Hsearch. exists (added w w1), []. rewrite app_nil_r. by split_and!. }
  subst run.
  destruct (readFile (Dashboard.File cfg)) as [data|e|pm] eqn:Hread.
  2,3: apply Hnothing; unfold provisionDashboard, mbind, prov_bind, liftResult;
       by rewrite Hread.
  destruct (unmarshalDashboard data) as [rawDashboard|e|pm] eqn:Hparse.
  2,3: apply Hnothing; unfold provisionDashboard, mbind, prov_bind, liftResult;
       rewrite Hread; cbn [wrapResult]; by rewrite Hparse.
  destruct (FindFirstDashboardByFolderAndName_world client (Dashboard.Name cfg)
              (Dashboard.Folder cfg) w) as [Hworld Hok].
  destruct (emits_added _ _ w
              (FindFirstDashboardByFolderAndName_emits client (Dashboard.Name cfg)
                 (Dashboard.Folder cfg))) as [Htr Hsearch].
  destruct (FindFirstDashboardByFolderAndName client (Dashboard.Name cfg)
              (Dashboard.Folder cfg) w) as [[existingDashboard|e|pm] w1] eqn:Hfind;
    simpl in *.
  - destruct rawDashboard as [rawDashboard|].
    2: { apply (Hsearched w1); [|done].
         by rewrite (provisionDashboard_nil client cfg dsUID folderUID data
                       existingDashboard w w1 Hread Hparse Hfind). }
    destruct (provisionDashboard_request client cfg dsUID folderUID data rawDashboard
                existingDashboard w w1 Hread Hparse Hfind)
      as (request & -> & Htitle & _ & _ & _ & _ & Hover & Hmsg & Hinputs).
    destruct (emits_added _ _ w1 (ImportDashboard_emits client request)) as [Htr2 Himport].
    exists (added w w1), (added w1 (ImportDashboard client request w1).2).
    split_and!.
    + apply added_app. by rewrite Htr2, Htr at 1; rewrite <- app_assoc.
    + done.
    + eapply Forall_impl; [exact Himport|]. intros x ->. by eexists.
    + destruct (added w1 _) as [|x imports]; [done|]. intros _.
      apply Forall_cons in Himport as [Hx _]. exists request. simpl. by rewrite Hx.
    + intros _. destruct Hok as [respBody Hbody]; [done|].
      destruct (doRequest_ok_last client _ _ _ w respBody Hbody) as (x & Hlast & Hx).
      exists x. by rewrite Hworld.
  - apply (Hsearched w1); [|done].
    unfold provisionDashboard, mbind, prov_bind, liftResult, wrapErr.
    rewrite Hread. cbn [wrapResult]. rewrite Hparse. cbn [wrapResult].
    by rewrite Hfind.
  - apply (Hsearched w1); [|done].
    unfold provisionDashboard, mbind, prov_bind, liftResult, wrapErr.
    rewrite Hread. cbn [wrapResult]. rewrite Hparse. cbn [wrapResult].
    by rewrite Hfind.
Qed.

Lemma provisionDashboard_sends_witness :
  let w := startOn (E:=scripted)
             [Response 200 (WSearch []); Response 502 (WText "bad gateway");
              Response 200 (WText "ok")] in
  let twice := {| ApiClient.URL := "http://grafana:3000"; ApiClient.Token := "token";
                  ApiClient.Retries := 2 |} in
  let sent := added w (provisionDashboard (H:=scripted) twice (latencyIn "logs")
                         "uidA" "f3" w).2 in
  map (λ x, (method x.1, url x.1)) sent
  = [("GET", "http://grafana:3000/api/search");
     ("POST", "http://grafana:3000/api/dashboards/import");
     ("POST", "http://grafana:3000/api/dashboards/import")]
  ∧ ∃ searches imports request,
      sent = searches ++ imports
      ∧ imports ≠ []
      ∧ firstPayload (H:=scripted) imports = Some (ImportPayload request)
      ∧ DashboardImportRequest.Overwrite request = true.
Proof.
  intros w twice sent. split; [by vm_compute|].
  destruct (provisionDashboard_sends (H:=scripted) twice (latencyIn "logs") "uidA" "f3" w)
    as (searches & imports & Hsent & Hsearches & Himports & Hfirst & _).
  fold sent in Hsent.
  assert (imports ≠ []) as Hne.
  { intros ->. rewrite app_nil_r in Hsent. rewrite <- Hsent in Hsearches.
    vm_compute in Hsearches.
    apply Forall_cons in Hsearches as [_ Hrest].
    apply Forall_cons in Hrest as [Hbad _]. discriminate Hbad. }
  destruct (Hfirst Hne) as (request & Hpayload & Hover & _).
  by exists searches, imports, request.
Defined.

(** X12. A dashboard in a configured folder other than General: the
    resolution returns the UID the folder mapping holds for that exact
    name, and every import request submitted with it carries that UID. *)
Theorem configured_folder_uid_is_sent `{Environment} (client : ApiClient.t)
    (cfg : Config.t) (dashboardConfig : Dashboard.t) (mapping : FolderMapping.t)
    (dsUID : string) (w : World) :
  EqualFold (Dashboard.Folder dashboardConfig) "General" = false →
  Config.FoldersMapping cfg !! Dashboard.Folder dashboardConfig = Some mapping →
  getDashboardFolderUID cfg dashboardConfig = Ok (FolderMapping.UID mapping)
  ∧ Forall (λ x, ∀ uid, importedFolderUID x.1 = Some uid → uid = FolderMapping.UID mapping)
      (added w (provisionDashboard client dashboardConfig dsUID
                  (FolderMapping.UID mapping) w).2).
Proof.
  intros Hgeneral Hmapping. split.
  - unfold getDashboardFolderUID. by rewrite Hgeneral, Hmapping.
  - destruct (emits_added _ _ w
                (provisionDashboard_emits client dashboardConfig dsUID
                   (FolderMapping.UID mapping))) as [_ HP].
    eapply Forall_impl; [exact HP|]. intros x [Hx|(request & Hx & _ & Huid)] uid.
    + by rewrite Hx.
    + rewrite Hx. unfold importedFolderUID. simpl. rewrite Huid, Hgeneral. congruence.
Qed.

Lemma configured_folder_uid_is_sent_witness :
  let w := startOn (E:=scripted) [Response 200 (WSearch []); Response 200 (WText "ok")] in
  getDashboardFolderUID (mapped "logs" "f3") (latencyIn "logs") = Ok "f3"
  ∧ omap (λ x, importedFolderUID x.1)
      (added w (provisionDashboard (H:=scripted) sampleClient (latencyIn "logs") "uidA" "f3" w).2)
    = ["f3"].
Proof.
  intros w.
  destruct (configured_folder_uid_is_sent (H:=scripted) sampleClient (mapped "logs" "f3")
              (latencyIn "logs")
              {| FolderMapping.ID := 5; FolderMapping.UID := "f3"; FolderMapping.Title := "logs" |}
              "uidA" w eq_refl eq_refl) as [Hres _].
  split; [exact Hres|]. by vm_compute.
Defined.

(* ===================================================================== *)
(** * More on the data-source reconciler *)
(* ===================================================================== *)

(** X13. The benign conflict: when no existing record has the connection of
    the desired data source and the last attempt at the creation is
    answered 409, the reconciler returns success, under the name it
    resolved, with the zero id, the empty UID and the message of a
    conflict; the caller gets no identifier of the data source. *)
Theorem conflict_reported_as_success `{Environment} (client : ApiClient.t)
    (dataSource : DataSource.t) (existingSources : list DataSource.t) (w : World)
    (x : Request * Reply Body) :
  let out := provisionDataSource client dataSource existingSources w in
  find (λ source, sameConnection source dataSource) existingSources = None →
  last (added w out.2) = Some x → status409 x →
  ∃ resp,
    out.1 = Ok resp
    ∧ CreateDataSourceResponseDatasource.Name (CreateDataSourceResponse.Datasource resp)
      = resolveName existingSources (DataSource.Name dataSource)
    ∧ CreateDataSourceResponseDatasource.ID (CreateDataSourceResponse.Datasource resp) = 0
    ∧ CreateDataSourceResponseDatasource.UID (CreateDataSourceResponse.Datasource resp) = ""
    ∧ CreateDataSourceResponseDatasource.Message (CreateDataSourceResponse.Datasource resp)
      = "Data source already exists (409 Conflict)".
Proof.
  intros out Hnone Hlast H409.
  exists (conflictResponse (resolveName existingSources (DataSource.Name dataSource))).
  split; [|by split_and!].
  by apply (provisionDataSource_409 client dataSource existingSources w x).
Qed.

Lemma conflict_reported_as_success_witness :
  let w := startOn (E:=scripted) [Response 409 (WText "name taken")] in
  let out := provisionDataSource (H:=scripted) sampleClient (pg "m" "h:5432" "d") [] w in
  ∃ resp,
    out.1 = Ok resp
    ∧ CreateDataSourceResponseDatasource.Name (CreateDataSourceResponse.Datasource resp) = "m"
    ∧ CreateDataSourceResponseDatasource.UID (CreateDataSourceResponse.Datasource resp) = "".
Proof.
  intros w out.
  assert (status409 (H:=scripted)
            (createRequest sampleClient (dsModelOf (pg "m" "h:5432" "d") "m"),
             Response 409 (WText "name taken"))) as H409 by (by eexists).
  destruct (conflict_reported_as_success (H:=scripted) sampleClient (pg "m" "h:5432" "d")
              [] w _ eq_refl eq_refl H409) as (resp & Hok & Hname & _ & Huid & _).
  exists resp. split; [exact Hok|]. split; [exact Hname|exact Huid].
Defined.

Section DataSourceLoop.
Context `{Environment}.

Lemma provisionDataSource_ok (client : ApiClient.t) (dataSource : DataSource.t)
    (existingSources : list DataSource.t) (w w1 : World)
    (resp : CreateDataSourceResponse.t) :
  provisionDataSource client dataSource existingSources w = (Ok resp, w1) →
  reconciled client existingSources dataSource resp (added w w1).
Proof.
  unfold reconciled.
  pose proof (provisionDataSource_world client dataSource existingSources w) as Hworld.
  destruct (emits_added _ _ w (provisionDataSource_emits client dataSource existingSources))
    as [_ Hsent].
  unfold provisionDataSource in *.
  destruct (find _ existingSources) as [source|].
  { intros [= <- <-]. by rewrite added_same. }
  specialize (Hworld eq_refl). rewrite CreateDataSource_unfold in *.
  pose proof (doRequestLoop_ok client
                (mkRequest "POST" (ApiClient.URL client +:+ "/api/datasources")
                   (Some (DataSourcePayload
                            (dsModelOf dataSource
                               (resolveName existingSources (DataSource.Name dataSource))))))
                (Z.to_nat (ApiClient.Retries client)) 0 None w) as Hanswer.
  fold (doRequest client "POST" (ApiClient.URL client +:+ "/api/datasources")
          (Some (DataSourcePayload
                   (dsModelOf dataSource
                      (resolveName existingSources (DataSource.Name dataSource))))) w)
    in Hanswer.
  destruct (doRequest _ _ _ _ w) as [[respBody|e|pm] w']; simpl in *.
  - destruct (unmarshalCreateDataSourceResponse respBody) as [r|e|pm] eqn:Hr; simpl in *.
    + intros [= <- <-]. split.
      * eapply Forall_impl; [exact Hsent|]. intros x [_ ->]. by eexists.
      * right. destruct (Hanswer respBody eq_refl) as (status & Hlast & H2xx).
        by eexists _, status, respBody.
    + destruct (contains _ "Status 409"); [|done]. intros [= <- <-]. split.
      * eapply Forall_impl; [exact Hsent|]. intros x [_ ->]. by eexists.
      * by left.
    + done.
  - destruct (contains _ "Status 409"); [|done]. intros [= <- <-]. split.
    + eapply Forall_impl; [exact Hsent|]. intros x [_ ->]. by eexists.
    + by left.
  - done.
Qed.

Lemma provisionDataSourcesLoop_ok (client : ApiClient.t)
    (dataSources existingSources : list DataSource.t)
    (sourceResponses resps : list CreateDataSourceResponse.t) (w w1 : World) :
  provisionDataSourcesLoop client dataSources existingSources sourceResponses w
  = (Ok resps, w1) →
  ∃ new,
    resps = sourceResponses ++ new
    ∧ reconciledAll client existingSources dataSources new (added w w1).
Proof.
  revert sourceResponses w.
  induction dataSources as [|dataSource rest IH]; intros sourceResponses w.
  - simpl. intros [= <- <-]. exists []. rewrite app_nil_r, added_same.
    split; [done|constructor].
  - simpl. unfold mbind, prov_bind, wrapErr.
    pose proof (provisionDataSource_ok client dataSource existingSources w) as Hone.
    destruct (provisionDataSource_emits client dataSource existingSources w)
      as (xs & Hxs & _).
    destruct (provisionDataSource client dataSource existingSources w)
      as [[resp|e|pm] w2]; [|done|done].
    intros Hok. destruct (IH _ _ Hok) as (new & -> & Hall).
    exists (resp :: new). rewrite <- app_assoc. split; [done|].
    destruct (provisionDataSourcesLoop_emits client rest existingSources
                (sourceResponses ++ [resp]) w2) as (ys & Hys & _).
    rewrite Hok in Hys. simpl in Hxs, Hys.
    rewrite (added_trans w w2 w1 xs ys Hxs Hys).
    constructor; [by apply Hone|done].
Qed.

Lemma provisionDataSourcesLoop_stops (client : ApiClient.t)
    (before after existingSources : list DataSource.t) (dataSource : DataSource.t)
    (sourceResponses resps : list CreateDataSourceResponse.t) (w w1 w2 : World)
    (e : string) :
  provisionDataSourcesLoop client before existingSources sourceResponses w = (Ok resps, w1) →
  provisionDataSource client dataSource existingSources w1 = (Err e, w2) →
  provisionDataSourcesLoop client (before ++ dataSource :: after) existingSources
    sourceResponses w
  = (Err (("failed to provision datasource '" +:+ DataSource.Name dataSource +:+ "': ")
            +:+ e), w2).
Proof.
  revert sourceResponses w.
  induction before as [|d before IH]; intros sourceResponses w Hbefore Hfail.
  - simpl in *. injection Hbefore as <- <-.
    unfold mbind, prov_bind, wrapErr. by rewrite Hfail.
  - simpl in *. unfold mbind, prov_bind, wrapErr in *.
    destruct (provisionDataSource client d existingSources w) as [[resp|e'|pm] w']; [|done|done].
    by apply IH.
Qed.

End DataSourceLoop.

(** X14. What a successful data-source step returns, against what it sent
    after the listing: one response for each configured data source, in the
    order of the configuration, and the requests split accordingly.  For a
    data source whose connection an existing record has, nothing is sent
    and the response is that of the first such record of the list fetched
    at the start; for any other, the attempts are POSTs to
    [/api/datasources], and the response is either the one of a conflict
    under the resolved name or the decoding of the body with which the
    server answered, with a 2xx status, the last of these attempts. *)
Theorem provisionDataSources_responses `{Environment} (client : ApiClient.t)
    (cfg : Config.t) (w w1 w2 : World) (existingSources : list DataSource.t)
    (resps : list CreateDataSourceResponse.t) :
  GetDataSources client w = (Ok existingSources, w1) →
  provisionDataSources client cfg w = (Ok resps, w2) →
  reconciledAll client existingSources (Config.DataSources cfg) resps (added w1 w2).
Proof.
  intros Hfetch. unfold provisionDataSources, mbind, prov_bind, wrapErr.
  rewrite Hfetch. intros Hok.
  by destruct (provisionDataSourcesLoop_ok client _ _ _ _ _ _ Hok) as (new & -> & Hall).
Qed.

Lemma provisionDataSources_responses_witness :
  let w := startOn (E:=registry) holdsM in
  let out := provisionDataSources (H:=registry) sampleClient twoSources w in
  ∃ resps,
    out.1 = Ok resps
    ∧ map (λ resp, CreateDataSourceResponseDatasource.Name
                     (CreateDataSourceResponse.Datasource resp)) resps
      = ["m_1"; "m_1"]
    ∧ reconciledAll (H:=registry) sampleClient
        [record 1 "ds1" "m" "db0:5432" "metrics"]
        (Config.DataSources twoSources) resps
        (added (GetDataSources (H:=registry) sampleClient w).2 out.2).
Proof.
  intros w out. eexists. split; [reflexivity|]. split; [reflexivity|].
  exact (provisionDataSources_responses (H:=registry) sampleClient twoSources w
           (GetDataSources (H:=registry) sampleClient w).2 out.2 _ _ eq_refl eq_refl).
Defined.

(** X15. The data-source step stops at the first data source that fails:
    its error is returned under the name of that data source, and the world
    is the one that failure left, so that no later data source is attempted;
    and when the listing itself fails, the step fails without any creation. *)
Theorem provisionDataSources_stops `{Environment} (client : ApiClient.t) (cfg : Config.t)
    (w : World) :
  (∀ e w1,
     GetDataSources client w = (Err e, w1) →
     provisionDataSources client cfg w
     = (Err ("failed to list existing data sources: " +:+ e), w1)
     ∧ Forall (λ x, x.1 = listRequest client) (added w w1))
  ∧ (∀ existingSources before dataSource after resps w1 w2 w3 e,
       GetDataSources client w = (Ok existingSources, w1) →
       Config.DataSources cfg = before ++ dataSource :: after →
       provisionDataSourcesLoop client before existingSources [] w1 = (Ok resps, w2) →
       provisionDataSource client dataSource existingSources w2 = (Err e, w3) →
       provisionDataSources client cfg w
       = (Err (("failed to provision datasource '" +:+ DataSource.Name dataSource +:+ "': ")
                 +:+ e), w3)).
Proof.
  split.
  - intros e w1 Hfetch. split.
    + unfold provisionDataSources, mbind, prov_bind, wrapErr. by rewrite Hfetch.
    + pose proof (GetDataSources_world client w) as Hworld.
      destruct (emits_added _ _ w (doRequest_emits client "GET"
                  (ApiClient.URL client +:+ "/api/datasources") None)) as [_ HP].
      rewrite <- Hworld, Hfetch in HP. exact HP.
  - intros existingSources before dataSource after resps w1 w2 w3 e
      Hfetch Hcfg Hbefore Hfail.
    unfold provisionDataSources, mbind, prov_bind, wrapErr. rewrite Hfetch, Hcfg.
    by apply (provisionDataSourcesLoop_stops client before after existingSources
                dataSource [] resps w1 w2 w3 e).
Qed.

Lemma provisionDataSources_stops_witness :
  let w := startOn (E:=scripted) [Response 500 (WText "boom")] in
  provisionDataSources (H:=scripted) sampleClient twoSources w
  = (Err ("failed to list existing data sources: "
            +:+ "failed to execute request after 1 attempts: "
            +:+ "Grafana API error (Status 500) on attempt 1: boom"),
     (GetDataSources (H:=scripted) sampleClient w).2).
Proof.
  intros w.
  exact (proj1 (proj1 (provisionDataSources_stops (H:=scripted) sampleClient twoSources w)
                  _ _ eq_refl)).
Defined.

(* ===================================================================== *)
(** * Folders *)
(* ===================================================================== *)

Section Folders.
Context `{Environment}.

Lemma GetFolders_emits (client : ApiClient.t) :
  emits (λ x, x.1 = foldersRequest client) (GetFolders client).
Proof.
  unfold GetFolders. apply emits_bind; [apply doRequest_emits|].
  intros respBody. apply emits_liftResult.
Qed.

Lemma CreateFolder_emits (client : ApiClient.t) (title : string) :
  emits (λ x, x.1 = folderRequest client title) (CreateFolder client title).
Proof.
  intros w. rewrite CreateFolder_world. apply doRequest_emits.
Qed.

Lemma provisionFoldersLoop_invariant
    (CreateFolderIfNotExists : ApiClient.t → string → Prov FolderResponse.t)
    (client : ApiClient.t) (folderConfigs : list Folder.t)
    (mapping mapping' : gmap string FolderMapping.t) (w w' : World) :
  provisionFoldersLoop CreateFolderIfNotExists client folderConfigs mapping w
  = (Ok mapping', w') →
  (∀ title m, mapping !! title = Some m → FolderMapping.Title m = title) →
  (∀ title m, mapping' !! title = Some m → FolderMapping.Title m = title)
  ∧ (size mapping' ≤ size mapping + length folderConfigs)%nat.
Proof.
  revert mapping w.
  induction folderConfigs as [|folderConfig rest IH]; intros mapping w Hrun Hinv.
  - simpl in Hrun. injection Hrun as <- <-. split; [done|lia].
  - simpl in Hrun. unfold mbind, prov_bind, wrapErr in Hrun.
    destruct (CreateFolderIfNotExists client (Folder.Name folderConfig) w)
      as [[resp|e|pm] w1]; [|done|done].
    apply IH in Hrun as [Hinv' Hsize].
    + split; [done|]. rewrite map_size_insert in Hsize. simpl.
      destruct (mapping !! FolderResponse.Title resp); simpl in Hsize; lia.
    + intros title m. rewrite lookup_insert.
      case_decide as Ht; [|by apply Hinv]. by intros [= <-].
Qed.

End Folders.

(** X16. The folder mapping a successful folder step leaves: every key is
    the title of the entry it maps to, there are at most as many entries as
    configured folders, whatever mapping the configuration had before is
    gone, and the rest of the configuration is as it was; with no folder
    configured the mapping is empty and nothing was done. *)
Theorem provisionFolders_mapping `{Environment}
    (CreateFolderIfNotExists : ApiClient.t → string → Prov FolderResponse.t)
    (client : ApiClient.t) (cfg cfg' : Config.t) (w w' : World) :
  provisionFolders CreateFolderIfNotExists client cfg w = (Ok cfg', w') →
  (∀ title m, Config.FoldersMapping cfg' !! title = Some m → FolderMapping.Title m = title)
  ∧ (size (Config.FoldersMapping cfg') ≤ length (Config.Folders cfg))%nat
  ∧ (∀ before, provisionFolders CreateFolderIfNotExists client
                 (withFoldersMapping cfg before) w = (Ok cfg', w'))
  ∧ Config.Dashboards cfg' = Config.Dashboards cfg
  ∧ Config.DataSources cfg' = Config.DataSources cfg
  ∧ Config.Folders cfg' = Config.Folders cfg
  ∧ (Config.Folders cfg = [] → Config.FoldersMapping cfg' = ∅ ∧ w' = w).
Proof.
  unfold provisionFolders, mbind, prov_bind, mret, prov_ret.
  destruct (provisionFoldersLoop CreateFolderIfNotExists client (Config.Folders cfg) ∅ w)
    as [[mapping|e|pm] w1] eqn:Hloop; [|done|done].
  intros [= <- <-].
  destruct (provisionFoldersLoop_invariant _ _ _ _ _ _ _ Hloop) as [Hinv Hsize]; [done|].
  rewrite map_size_empty in Hsize.
  split_and!; try done.
  - simpl. by rewrite Hloop.
  - intros Hnone. rewrite Hnone in Hloop. simpl in Hloop. by injection Hloop as <- <-.
Qed.

Lemma provisionFolders_mapping_witness :
  let created (_ : ApiClient.t) (title : string) : Prov (H:=scripted) FolderResponse.t :=
    mret {| FolderResponse.ID := 1; FolderResponse.UID := "u-" +:+ title;
            FolderResponse.Title := title; FolderResponse.URL := "" |} in
  let cfg :=
    {| Config.Grafana := sampleParams; Config.Dashboards := []; Config.DataSources := [];
       Config.Folders := [ {| Folder.Name := "logs" |}; {| Folder.Name := "logs" |} ];
       Config.FoldersMapping := ∅ |} in
  ∃ cfg' w',
    provisionFolders (H:=scripted) created sampleClient cfg (startOn (E:=scripted) [])
    = (Ok cfg', w')
    ∧ (size (Config.FoldersMapping cfg') ≤ 2)%nat.
Proof.
  intros created cfg. eexists. eexists. split; [reflexivity|].
  exact (proj1 (proj2 (provisionFolders_mapping (H:=scripted) created sampleClient cfg _
                         (startOn (E:=scripted) []) _ eq_refl))).
Defined.

(** X17. Dashboards need their folder configured: when the configuration
    lists no folder and its first dashboard is in a folder other than
    General, a run that got past the data sources fails at that dashboard
    with the error that names the folder, and sends nothing after the
    data-source step. *)
Theorem dashboards_need_configured_folders `{Environment}
    (GetDataSource : ApiClient.t → string → Prov DataSource.t)
    (CreateFolderIfNotExists : ApiClient.t → string → Prov FolderResponse.t)
    (cfg : Config.t) (dashboardConfig : Dashboard.t) (rest : list Dashboard.t)
    (w w2 : World) :
  Config.Folders cfg = [] →
  Config.Dashboards cfg = dashboardConfig :: rest →
  EqualFold (Dashboard.Folder dashboardConfig) "General" = false →
  afterDataSources cfg w = Some w2 →
  RunProvisioning GetDataSource CreateFolderIfNotExists cfg w
  = (Err ("dashboard provisioning failed: "
            +:+ ("dashboard folder validation failed for dashboard '"
                   +:+ Dashboard.Name dashboardConfig +:+ "': ")
            +:+ folderNotDefined (Dashboard.Folder dashboardConfig)), w2).
Proof.
  intros Hfolders Hdash Hgeneral Hreach.
  unfold afterDataSources in Hreach.
  unfold RunProvisioning, provisionFolders, provisionDashboards, mbind, prov_bind,
    wrapErr, mret, prov_ret.
  destruct (waitForGrafanaAPI _ w) as [[[]|e1|pm] w1]; [|done|done].
  destruct (provisionDataSources _ cfg w1) as [[resps|e2|pm] w2']; [|done|done].
  injection Hreach as ->. rewrite Hfolders. simpl. rewrite Hdash. simpl.
  unfold mbind, prov_bind, liftResult, getDashboardFolderUID. simpl.
  by rewrite Hgeneral, lookup_empty.
Qed.

Lemma dashboards_need_configured_folders_witness :
  let cfg :=
    {| Config.Grafana := sampleParams; Config.Dashboards := [latencyIn "logs"];
       Config.DataSources := []; Config.Folders := []; Config.FoldersMapping := ∅ |} in
  let w := startOn (E:=scripted) [Response 200 (WText "ok"); Response 200 (WDataSources [])] in
  (RunProvisioning (H:=scripted) (λ _ _, fail "unused") (λ _ _, fail "unused") cfg w).1
  = Err ("dashboard provisioning failed: "
           +:+ "dashboard folder validation failed for dashboard 'Latency': "
           +:+ folderNotDefined "logs").
Proof.
  intros cfg w.
  by rewrite (dashboards_need_configured_folders (H:=scripted) (λ _ _, fail "unused")
                (λ _ _, fail "unused") cfg (latencyIn "logs") [] w
                (provisionDataSources (H:=scripted) (NewClient sampleParams) cfg
                   (waitForGrafanaAPI (H:=scripted) (NewClient sampleParams) w).2).2
                eq_refl eq_refl eq_refl eq_refl).
Defined.

(** X18. The reconciler for a single folder, given the folders the server
    lists: when one of them has exactly the title asked for, the first such
    folder is returned with its id, UID and title and an empty URL, and
    nothing but the listing was sent; when none has, the result is that of
    creating a folder of that title, and all that is sent after the listing
    is that creation. *)
Theorem provisionFolder_reuse_or_create `{Environment} (client : ApiClient.t)
    (folder : string) (w w1 : World) (existingFolders : list FolderResponse.t) :
  GetFolders client w = (Ok existingFolders, w1) →
  Forall (λ x, x.1 = foldersRequest client) (added w w1)
  ∧ ((∃ pre f post,
        existingFolders = pre ++ f :: post
        ∧ Forall (λ other, FolderResponse.Title other ≠ folder) pre
        ∧ FolderResponse.Title f = folder
        ∧ provisionFolder client folder w
          = (Ok {| FolderResponse.ID := FolderResponse.ID f;
                   FolderResponse.UID := FolderResponse.UID f;
                   FolderResponse.Title := folder;
                   FolderResponse.URL := "" |}, w1))
     ∨ (Forall (λ other, FolderResponse.Title other ≠ folder) existingFolders
        ∧ provisionFolder client folder w = CreateFolder client folder w1
        ∧ Forall (λ x, x.1 = folderRequest client folder)
            (added w1 (provisionFolder client folder w).2))).
Proof.
  intros Hlist. split.
  - destruct (emits_added _ _ w (GetFolders_emits client)) as [_ HP].
    by rewrite Hlist in HP.
  - unfold provisionFolder, mbind, prov_bind, wrapErr. rewrite Hlist.
    destruct (find (λ f, bool_decide (FolderResponse.Title f = folder)) existingFolders)
      as [f|] eqn:Hfind.
    + left.
      destruct (find_first (λ f, bool_decide (FolderResponse.Title f = folder))
                  existingFolders) as (pre & f' & post & Hl & Hpre & Hf & Hfind').
      { apply find_some in Hfind as [Hin Ht]. exists f. split; [|done].
        by apply list_elem_of_In. }
      rewrite Hfind in Hfind'. injection Hfind' as <-.
      apply bool_decide_eq_true in Hf.
      exists pre, f, post. split_and!; [done| |done|by rewrite Hf].
      eapply Forall_impl; [exact Hpre|]. intros other Ho.
      by apply bool_decide_eq_false in Ho.
    + right. split_and!; [|done|].
      * apply Forall_forall. intros other Hin. apply list_elem_of_In in Hin.
        pose proof (find_none _ _ Hfind other Hin) as Ho.
        by apply bool_decide_eq_false in Ho.
      * apply (emits_added _ _ w1 (CreateFolder_emits client folder)).
Qed.

Lemma provisionFolder_reuse_or_create_witness :
  let logs :=
    {| FolderResponse.ID := 3; FolderResponse.UID := "f3"; FolderResponse.Title := "logs";
       FolderResponse.URL := "/dashboards/f/f3/logs" |} in
  let w := startOn (E:=scripted) [Response 200 (WFolders [logs])] in
  (provisionFolder (H:=scripted) sampleClient "logs" w).1
  = Ok {| FolderResponse.ID := 3; FolderResponse.UID := "f3"; FolderResponse.Title := "logs";
          FolderResponse.URL := "" |}
  ∧ Forall (λ x, x.1 = foldersRequest sampleClient)
      (added w (GetFolders (H:=scripted) sampleClient w).2).
Proof.
  intros logs w.
  destruct (provisionFolder_reuse_or_create (H:=scripted) sampleClient "logs" w
              (GetFolders (H:=scripted) sampleClient w).2 [logs] eq_refl) as [Hsent _].
  split; [reflexivity|exact Hsent].
Defined.

(* ===================================================================== *)
(** * The entry point: configuration to provisioner types *)
(* ===================================================================== *)

Lemma string_of_uint_colonFree (d : Decimal.uint) :
  colonFree (NilEmpty.string_of_uint d).
Proof. induction d; simpl; by repeat split. Qed.

Lemma itoa_colonFree (z : Z) : colonFree (itoa z).
Proof.
  unfold itoa. destruct (Z.to_int z) as [d|d]; simpl.
  - apply string_of_uint_colonFree.
  - split; [done|apply string_of_uint_colonFree].
Qed.

(** A string is cut in one way only at its last colon. *)
Lemma cut_at_last_colon (s1 s2 d1 d2 : string) :
  colonFree d1 → colonFree d2 →
  s1 +:+ String ":" d1 = s2 +:+ String ":" d2 → s1 = s2 ∧ d1 = d2.
Proof.
  intros Hd1 Hd2.
  assert (∀ s d, colonFree (s +:+ String ":" d) → False) as Hcolon.
  { intros s d. induction s as [|c s IH]; [by intros [? _]|].
    rewrite append_cons. by intros [_ ?]. }
  revert s2. induction s1 as [|c s1 IH]; intros [|c2 s2] Heq.
  - rewrite !append_nil in Heq. split; [done|]. by injection Heq.
  - rewrite append_nil, append_cons in Heq. injection Heq as <- Heq.
    destruct (Hcolon s2 d2). by rewrite <- Heq.
  - rewrite append_nil, append_cons in Heq. injection Heq as -> Heq.
    destruct (Hcolon s1 d1). by rewrite Heq.
  - rewrite !append_cons in Heq. injection Heq as -> Heq.
    by destruct (IH s2 Heq) as [-> ->].
Qed.

(** X19. Connection identity of configured data sources: two entries of the
    configuration are converted to the same connection exactly when they
    have the same host, the same port and the same database name; the
    address host:port cannot make two different pairs collide, and names,
    users, passwords and SSL modes play no part. *)
Theorem configured_connection_identity (a b : ConfigDataSource.t) :
  sameConnection (toProvisionerDataSource a) (toProvisionerDataSource b) = true ↔
  ConfigDataSource.Host a = ConfigDataSource.Host b
  ∧ ConfigDataSource.Port a = ConfigDataSource.Port b
  ∧ ConfigDataSource.DbName a = ConfigDataSource.DbName b.
Proof.
  unfold sameConnection, toProvisionerDataSource. simpl.
  rewrite !andb_true_iff, !bool_decide_eq_true. split.
  - intros [Hurl Hdb].
    change (ConfigDataSource.Host a +:+ String ":" (itoa (ConfigDataSource.Port a))
            = ConfigDataSource.Host b +:+ String ":" (itoa (ConfigDataSource.Port b)))
      in Hurl.
    apply cut_at_last_colon in Hurl as [Hhost Hport]; [|apply itoa_colonFree..].
    split_and!; [done|by apply itoa_inj|done].
  - intros (-> & -> & ->). by split_and!.
Qed.

Lemma trimSlash_slash (u : string) : trimSlash (u +:+ "/") = u.
Proof.
  induction u as [|c u IH]; [done|].
  rewrite append_cons. simpl. rewrite IH. by destruct u.
Qed.

Lemma trimSlash_other (s : string) :
  (∀ u, s ≠ u +:+ "/") → trimSlash s = s.
Proof.
  induction s as [|c s IH]; [done|]. intros Hno.
  destruct s as [|c' s].
  - simpl. case_bool_decide as Hc; [|done]. subst c. by destruct (Hno "").
  - change (trimSlash (String c (String c' s))) with (String c (trimSlash (String c' s))).
    rewrite IH; [done|]. intros u Hu. apply (Hno (String c u)).
    by rewrite append_cons, Hu.
Qed.

(** X20. The base URL of the client: one trailing slash of the configured
    URL is dropped, and only one; a URL that does not end in a slash is
    kept as it is.  So with or without a trailing slash the endpoints are
    the same. *)
Theorem NewClient_url (params : ClientParams.t) :
  (∀ u, ClientParams.URL params = u +:+ "/" → ApiClient.URL (NewClient params) = u)
  ∧ ((∀ u, ClientParams.URL params ≠ u +:+ "/") →
     ApiClient.URL (NewClient params) = ClientParams.URL params)
  ∧ ApiClient.Token (NewClient params) = ClientParams.Token params
  ∧ 0 ≤ ApiClient.Retries (NewClient params)
  ∧ (0 ≤ ClientParams.Retries params →
     ApiClient.Retries (NewClient params) = ClientParams.Retries params).
Proof.
  unfold NewClient. simpl. split_and!.
  - intros u ->. apply trimSlash_slash.
  - apply trimSlash_other.
  - done.
  - case_bool_decide; lia.
  - intros Hpos. case_bool_decide; [lia|done].
Qed.

Lemma NewClient_url_witness :
  ClientParams.URL sampleParams = "http://grafana:3000" +:+ "/"
  ∧ ApiClient.URL (NewClient sampleParams) = "http://grafana:3000".
Proof.
  split; [reflexivity|].
  exact (proj1 (NewClient_url sampleParams) "http://grafana:3000" eq_refl).
Defined.

(* ===================================================================== *)
(** * The resolved name depends on the names only *)
(* ===================================================================== *)

(** X21. The name resolved for a desired name depends on the existing
    records only through the set of their names: neither the order of the
    listing, nor repeated names, nor any other field of a record changes
    it. *)
Theorem resolveName_by_names (existingSources otherSources : list DataSource.t)
    (baseName : string) :
  (∀ name, name ∈ map DataSource.Name existingSources
           ↔ name ∈ map DataSource.Name otherSources) →
  resolveName existingSources baseName = resolveName otherSources baseName.
Proof.
  intros Hnames.
  assert (∀ name, nameConflict existingSources name = nameConflict otherSources name)
    as Hsame.
  { intros name. apply eq_true_iff_eq. by rewrite !nameConflict_true. }
  destruct (nameLoop_enough existingSources baseName) as (k & Hk & Hfree & Hbelow & _ & ->).
  destruct (nameLoop_enough otherSources baseName) as (k' & Hk' & Hfree' & Hbelow' & _ & ->).
  rewrite Hsame in Hfree.
  assert (k = k') as ->; [|done].
  destruct (Z.lt_trichotomy k k') as [Hlt|[Heq|Hgt]]; [|done|].
  - rewrite Hbelow' in Hfree; [done|lia].
  - rewrite <- Hsame, Hbelow in Hfree'; [done|lia].
Qed.

Lemma resolveName_by_names_witness :
  resolveName [record 1 "a" "m" "h0:5432" "d"; record 2 "b" "m_1" "h1:5432" "d"] "m"
  = resolveName [record 9 "z" "m_1" "h9:5432" "x"; record 8 "y" "m" "h8:5432" "x";
                 record 7 "w" "m" "h7:5432" "x"] "m".
Proof.
  apply resolveName_by_names. intros name. simpl.
  rewrite !elem_of_cons, !elem_of_nil. tauto.
Defined.
